(** * Cluster status controller

    A shallow embedding of
    [pkg/controllers/status/cluster_status_controller.go]: the health
    prober, the node and pod resource aggregation, the Ready condition
    synthesizer, the transition-time tracker and the reconciler with its
    conditional status write.

    Go values are modelled as follows.  [int] and [int64] are [Z]; the only
    arithmetic the controller does on [int64] (the request accumulators)
    has its wrap-around written out with [wrap64].  Go strings are
    [string], slices are [list] (a nil slice and an empty slice are both
    [[]], which is also how the semantic equality of apimachinery treats
    them), Go maps are [gmap].  Calls that leave the process (the control
    plane store, the member cluster API, the clock) go through a state
    monad over a [World] that records every call in a trace.

    Time is the clock of the [World].  It moves while the controller waits
    in the retry poll and while the health checks of that poll run, for as
    long as the member cluster keeps them waiting; the course of the poll
    depends on both.  The other calls are taken as instantaneous: the
    course of a reconciliation does not depend on how long they take. *)

From Stdlib Require Import ZArith Lia Bool.
From stdpp Require Import base option list strings gmap fin_maps.

Local Open Scope string_scope.
Local Open Scope Z_scope.

(** ** Machine integers *)

(** Two's complement wrap-around of a 64-bit signed integer. *)
Definition wrap64 (z : Z) : Z := (z + 2 ^ 63) `mod` 2 ^ 64 - 2 ^ 63.

Definition inInt64 (z : Z) : Prop := - 2 ^ 63 <= z < 2 ^ 63.

(** ** k8s.io/apimachinery/pkg/api/resource *)

Module resource.

Inductive Format := DecimalSI | BinarySI | DecimalExponent.

(** The library holds the number of a quantity in one of two ways: as
    [int64Amount{value, scale}], the number [value * 10^scale] with [value]
    an [int64], or, where that does not do, as an arbitrary precision
    decimal [inf.Dec] with an unscaled integer and a number of fractional
    digits.  Quantities carry at most nine fractional digits (decoding rounds
    to nano precision, and the sums formed here never go below their
    operands), so a scale is counted from there: [shift] is the number of
    decimal places above nano, [scale = shift - 9] for an [int64Amount] and
    [Scale() = 9 - shift] for an [inf.Dec].  The [value] of an
    [Int64Amount] is an [int64]. *)
Inductive Amount :=
  | Int64Amount (value : Z) (shift : nat)
  | InfDec (unscaled : Z) (shift : nat).

Record Quantity := { amount : Amount; format : Format }.

(** The number held, in units of 10^-9. *)
Definition held (a : Amount) : Z :=
  match a with
  | Int64Amount v s => v * 10 ^ Z.of_nat s
  | InfDec u s => u * 10 ^ Z.of_nat s
  end.

Definition nano (q : Quantity) : Z := held (amount q).

(** The scales [Milli] and [0], counted from nano. *)
Definition Milli : nat := 6.
Definition Scale0 : nat := 9.

(** [NewMilliQuantity(value, format)]: [int64Amount{value, Milli}]. *)
Definition NewMilliQuantity (value : Z) (f : Format) : Quantity :=
  {| amount := Int64Amount value Milli; format := f |}.

(** [NewQuantity(value, format)]: [int64Amount{value, 0}]. *)
Definition NewQuantity (value : Z) (f : Format) : Quantity :=
  {| amount := Int64Amount value Scale0; format := f |}.

Definition mostNegative : Z := - 2 ^ 63.
Definition maxInt64 : Z := 2 ^ 63 - 1.

Definition fitsInt64 (z : Z) : bool := (mostNegative <=? z) && (z <=? maxInt64).

(** [int64Add(a, b)]: the sum and whether it fits an [int64]. *)
Definition int64Add (a b : Z) : Z * bool :=
  if fitsInt64 (a + b) then (a + b, true) else (0, false).

(** [int64MultiplyScale(a, b)] for [b] above one, and with a constant [b]
    [int64MultiplyScale10], [..100] and [..1000]: the product as the machine
    computes it, and whether that is the exact product. *)
Definition int64MultiplyScale (a b : Z) : Z * bool :=
  if (a =? 0) || (a =? 1) then (a * b, true)
  else if a =? mostNegative then (0, false)
  else let c := wrap64 (a * b) in (c, c `quot` b =? a).

(** The loop of [positiveScaleInt64] for the scales without a case of their
    own: it gives up with 0 at the first overflow. *)
Fixpoint scaleByTens (n : nat) (value : Z) : Z * bool :=
  match n with
  | O => (value, true)
  | S n => let '(value, ok) := int64MultiplyScale value 10 in
           if ok then scaleByTens n value else (0, false)
  end.

(** [positiveScaleInt64(base, scale)]: [base * 10^scale]. *)
Definition positiveScaleInt64 (base : Z) (scale : nat) : Z * bool :=
  match scale with
  | 0%nat => (base, true)
  | 1%nat => int64MultiplyScale base 10
  | 2%nat => int64MultiplyScale base 100
  | 3%nat => int64MultiplyScale base 1000
  | 6%nat => int64MultiplyScale base 1000000
  | 9%nat => int64MultiplyScale base 1000000000
  | _ => scaleByTens scale base
  end.

(** The loop of [negativeScaleInt64]: [value] loses one digit per round;
    [fraction] remembers whether a digit other than 0 was lost. *)
Fixpoint dropDigits (n : nat) (base value : Z) (fraction : bool) : Z :=
  match n with
  | O => if fraction then (if 0 <? base then value + 1 else value - 1) else value
  | S n =>
      let fraction := fraction || negb (value `rem` 10 =? 0) in
      let value := value `quot` 10 in
      if value =? 0
      then (if fraction then (if 0 <? base then 1 else -1) else 0)
      else dropDigits n base value fraction
  end.

(** [negativeScaleInt64(base, scale)]: [base / 10^scale], rounded away from
    zero. *)
Definition negativeScaleInt64 (base : Z) (scale : nat) : Z :=
  match scale with
  | O => base
  | _ => dropDigits scale base base false
  end.

(** [a.AsScaledInt64(scale)] of an [int64Amount]; [ScaledValue] drops the
    flag. *)
Definition AsScaledInt64 (value : Z) (shift : nat) (scale : nat) : Z :=
  if (shift <? scale)%nat
  then negativeScaleInt64 value (scale - shift)
  else fst (positiveScaleInt64 value (shift - scale)).

(** [x.Int64()] of a [big.Int]: the low 64 bits of the magnitude, with the
    sign. *)
Definition bigInt64 (x : Z) : Z :=
  let v := wrap64 (Z.abs x `mod` 2 ^ 64) in
  if x <? 0 then wrap64 (- v) else v.

(** [int64(math.Pow10(n))]: exact up to 10^18; above it the conversion of
    the float is out of range, which yields the most negative [int64] on
    amd64. *)
Definition pow10Int64 (n : Z) : Z :=
  if n <=? 18 then 10 ^ n else mostNegative.

(** [scaledValue(unscaled, scale, newScale)] for an [inf.Dec]: scaling to
    more digits multiplies in [int64], scaling to fewer digits divides and
    adds one when the division leaves a remainder. *)
Definition scaledValue (unscaled : Z) (shift : nat) (scale : nat) : Z :=
  let dif := Z.of_nat scale - Z.of_nat shift in
  if dif =? 0 then bigInt64 unscaled
  else if dif <? 0 then wrap64 (bigInt64 unscaled * pow10Int64 (- dif))
  else if (unscaled <? maxInt64) && (dif <? 19) then
    let divide := pow10Int64 dif in
    let result := bigInt64 unscaled `quot` divide in
    let mod_ := bigInt64 unscaled `rem` divide in
    if mod_ =? 0 then result else wrap64 (result + 1)
  else
    let result := unscaled `div` 10 ^ dif in
    let remainder := unscaled `mod` 10 ^ dif in
    if remainder =? 0 then bigInt64 result else wrap64 (bigInt64 result + 1).

(** [q.ScaledValue(scale)]. *)
Definition ScaledValue (q : Quantity) (scale : nat) : Z :=
  match amount q with
  | Int64Amount value shift => AsScaledInt64 value shift scale
  | InfDec unscaled shift => scaledValue unscaled shift scale
  end.

(** [q.MilliValue()]: the value in thousandths, as an [int64]. *)
Definition MilliValue (q : Quantity) : Z := ScaledValue q Milli.

(** [q.Value()]: the value in units, as an [int64]. *)
Definition Value (q : Quantity) : Z := ScaledValue q Scale0.

(** [q.IsZero()]. *)
Definition IsZero (q : Quantity) : bool :=
  match amount q with
  | Int64Amount value _ => value =? 0
  | InfDec unscaled _ => unscaled =? 0
  end.

(** [a.Add(b)] of [int64Amount]: the sum at the finer of the two scales,
    or nothing when it does not fit an [int64]. *)
Definition int64AmountAdd (a b : Z * nat) : option (Z * nat) :=
  let '(av, ashift) := a in
  let '(bv, bshift) := b in
  if bv =? 0 then Some a
  else if av =? 0 then Some b
  else if (ashift =? bshift)%nat then
    let '(c, ok) := int64Add av bv in
    if ok then Some (c, ashift) else None
  else if (bshift <? ashift)%nat then
    let '(c, ok) := positiveScaleInt64 av (ashift - bshift) in
    if ok then
      let '(c, ok) := int64Add c bv in
      if ok then Some (c, bshift) else None
    else None
  else
    let '(c, ok) := positiveScaleInt64 bv (bshift - ashift) in
    if ok then
      let '(c, ok) := int64Add av c in
      if ok then Some (c, ashift) else None
    else None.

(** [q.AsDec()]: the number as an [inf.Dec]. *)
Definition AsDec (q : Quantity) : Z * nat :=
  match amount q with
  | Int64Amount value shift => (value, shift)
  | InfDec unscaled shift => (unscaled, shift)
  end.

(** [z.Add(x, y)] of [inf.Dec]: exact, at the finer of the two scales. *)
Definition decAdd (x y : Z * nat) : Amount :=
  let shift := Nat.min (snd x) (snd y) in
  InfDec (fst x * 10 ^ Z.of_nat (snd x - shift)
          + fst y * 10 ^ Z.of_nat (snd y - shift)) shift.

(** [q.Add(y)]: the exact sum, kept as an [int64Amount] while both
    operands are and the sum fits, as an [inf.Dec] otherwise; a zero
    receiver takes over the format of [y]. *)
Definition Add (q y : Quantity) : Quantity :=
  match amount q, amount y with
  | Int64Amount qv qshift, Int64Amount yv yshift =>
      let f := if qv =? 0 then format y else format q in
      match int64AmountAdd (qv, qshift) (yv, yshift) with
      | Some (v, shift) => {| amount := Int64Amount v shift; format := f |}
      | None => {| amount := decAdd (AsDec q) (AsDec y); format := f |}
      end
  | _, _ =>
      {| amount := decAdd (AsDec q) (AsDec y);
         format := if IsZero q then format y else format q |}
  end.

#[global] Instance Format_eq_dec : EqDecision Format.
Proof. solve_decision. Defined.

#[global] Instance Amount_eq_dec : EqDecision Amount.
Proof. solve_decision. Defined.

#[global] Instance Quantity_eq_dec : EqDecision Quantity.
Proof. solve_decision. Defined.

End resource.

(** ** k8s.io/api/core/v1 *)

Module corev1.

(** [ResourceList] is [map[ResourceName]resource.Quantity]. *)
Abbreviation ResourceList := (gmap string resource.Quantity).

Definition ResourceCPU : string := "cpu".
Definition ResourceMemory : string := "memory".
Definition ConditionTrue : string := "True".

Record NodeCondition := { nc_Type : string; nc_Status : string }.

Record NodeStatus :=
  { ns_Conditions : list NodeCondition; ns_Allocatable : ResourceList }.

Record Node := { node_Name : string; node_Status : NodeStatus }.

Record NodeList := { nl_Items : list Node }.

Record PodCondition := { pc_Type : string; pc_Status : string }.

Record ResourceRequirements := { rr_Requests : ResourceList }.

Record Container :=
  { ctr_Name : string; ctr_Resources : ResourceRequirements }.

Record PodSpec := { ps_Containers : list Container }.

Record PodStatus :=
  { pst_Phase : string; pst_Conditions : list PodCondition }.

Record Pod :=
  { pod_Name : string; pod_Spec : PodSpec; pod_Status : PodStatus }.

Record PodList := { pl_Items : list Pod }.

End corev1.

Import corev1.

(** ** k8s.io/apimachinery/pkg/apis/meta/v1 *)

Module metav1.

(** An instant, in milliseconds; [0] is Go's zero [time.Time]. *)
Abbreviation Time := Z.

Definition ConditionTrue : string := "True".
Definition ConditionFalse : string := "False".

Record Condition := {
  Type_ : string;
  Status : string;
  Reason : string;
  Message : string;
  LastTransitionTime : Time
}.

Definition setLastTransitionTime (t : Time) (c : Condition) : Condition :=
  {| Type_ := Type_ c; Status := Status c; Reason := Reason c;
     Message := Message c; LastTransitionTime := t |}.

#[global] Instance Condition_eq_dec : EqDecision Condition.
Proof. solve_decision. Defined.

End metav1.

(** ** Resource aggregation *)

(** [requestResource] is a collection of compute resource. *)
Record requestResource := { MilliCPU : Z; Memory : Z }.

(** [addResource]: one pass over the entries of the request list.  The
    receiver is the address of a local variable in the only caller, so the
    nil guard never fires. *)
Definition addResource (r : requestResource) (rl : ResourceList)
  : requestResource :=
  map_fold
    (fun rName rQuant r =>
       if String.eqb rName ResourceCPU then
         {| MilliCPU := wrap64 (MilliCPU r + resource.MilliValue rQuant);
            Memory := Memory r |}
       else if String.eqb rName ResourceMemory then
         {| MilliCPU := MilliCPU r;
            Memory := wrap64 (Memory r + resource.Value rQuant) |}
       else r)
    r rl.

Definition calculateResource (pod : Pod) : requestResource :=
  foldl (fun res c => addResource res (rr_Requests (ctr_Resources c)))
        {| MilliCPU := 0; Memory := 0 |}
        (ps_Containers (pod_Spec pod)).

Definition addPodRequestResource (pod : Pod) : requestResource :=
  calculateResource pod.

(** The two [int64] accumulators of [getUsedResource] after the loops. *)
Definition usedRequests (podList : PodList) : Z * Z :=
  foldl
    (fun acc pod =>
       if String.eqb (pst_Phase (pod_Status pod)) "Running" then
         foldl
           (fun '(requestCPU, requestMem) c =>
              if String.eqb (pc_Type c) "Ready"
                 && String.eqb (pc_Status c) "True"
              then
                let podRes := addPodRequestResource pod in
                (wrap64 (requestCPU + MilliCPU podRes),
                 wrap64 (requestMem + Memory podRes))
              else (requestCPU, requestMem))
           acc (pst_Conditions (pod_Status pod))
       else acc)
    (0, 0) (pl_Items podList).

Definition getUsedResource (podList : PodList) : ResourceList :=
  let '(requestCPU, requestMem) := usedRequests podList in
  <[ResourceCPU := resource.NewMilliQuantity requestCPU resource.DecimalSI]>
    (<[ResourceMemory := resource.NewQuantity requestMem resource.BinarySI]> ∅).

Definition getReadyStatusForNode (nodeStatus : NodeStatus) : bool :=
  existsb
    (fun condition =>
       String.eqb (nc_Type condition) "Ready"
       && String.eqb (nc_Status condition) corev1.ConditionTrue)
    (ns_Conditions nodeStatus).

(** The inner loop of [getClusterAllocatable]: fold one node's allocatable
    map into the running total. *)
Definition addAllocatable (allocatable val : ResourceList) : ResourceList :=
  map_fold
    (fun key val allocatable =>
       let tmpCap :=
         match allocatable !! key with
         | Some tmpCap => resource.Add tmpCap val
         | None => val
         end in
       <[key := tmpCap]> allocatable)
    allocatable val.

Definition getClusterAllocatable (nodeList : NodeList) : ResourceList :=
  foldl (fun allocatable node =>
           addAllocatable allocatable (ns_Allocatable (node_Status node)))
        ∅ (nl_Items nodeList).

(** ** Errors, HTTP and the REST client *)

(** Go [error] values as far as the controller tells them apart: an API
    status error carrying the HTTP code of the response, a failure below
    HTTP (no response at all), and [wait.ErrWaitTimeout]. *)
Inductive Error :=
  | StatusError (code : Z)
  | TransportError (reason : string)
  | ErrWaitTimeout.

(** A Go pair [(value, err)] of which only one side is used. *)
Inductive result (A : Type) :=
  | Ok (a : A)
  | Err (err : Error).
Arguments Ok {A} a.
Arguments Err {A} err.

Module http.
Definition StatusSwitchingProtocols : Z := 101.
Definition StatusOK : Z := 200.
Definition StatusPartialContent : Z := 206.
Definition StatusNotFound : Z := 404.
End http.

(** [errors.IsNotFound]. *)
Definition IsNotFound (err : Error) : bool :=
  match err with
  | StatusError code => code =? http.StatusNotFound
  | _ => false
  end.

(** client-go's [rest.Result] as [healthEndpointCheck] reads it.  A request
    either gets no response (the status code keeps Go's zero value and the
    error is the transport's) or a response with an HTTP status code; the
    client turns every code outside 200..206, apart from 101, into an
    error and still reports the code.  Line 167 of the controller relies on
    it: a not-found answer arrives as [err != nil] with status 404. *)
Module rest.

Inductive Answer :=
  | NoResponse (reason : string)
  | Response (code : Z).

Record Result := { statusCode : Z; err : option Error }.

Definition transformResponse (code : Z) : Result :=
  if (code =? http.StatusSwitchingProtocols)
     || ((http.StatusOK <=? code) && (code <=? http.StatusPartialContent))
  then {| statusCode := code; err := None |}
  else {| statusCode := code; err := Some (StatusError code) |}.

Definition Do (a : Answer) : Result :=
  match a with
  | NoResponse reason =>
      {| statusCode := 0; err := Some (TransportError reason) |}
  | Response code => transformResponse code
  end.

End rest.

(** ** pkg/apis/cluster/v1alpha1 *)

Module v1alpha1.

(** Modelled from the spec: the condition type constant
    [v1alpha1.ClusterConditionReady] ("type fixed to Ready"); the API
    package is not among the sources. *)
Definition ClusterConditionReady : string := "Ready".

Record APIEnablement :=
  { GroupVersion : string; Resources : list string }.

(** Modelled from the spec: [NodeSummary], {totalNum, readyNum,
    allocatable resource map, used resource map}. *)
Record NodeSummary := {
  TotalNum : Z;
  ReadyNum : Z;
  Allocatable : ResourceList;
  Used : ResourceList
}.

(** Modelled from the spec: [ClusterStatus] with its four fields
    conditions, kubernetesVersion, apiEnablements and nodeSummary. *)
Record ClusterStatus := {
  cs_KubernetesVersion : string;
  cs_APIEnablements : list APIEnablement;
  cs_Conditions : list metav1.Condition;
  cs_NodeSummary : NodeSummary
}.

(** Modelled from the spec: [Cluster], identified by its name, with the
    deletion mark, the finalizers and the status. *)
Record Cluster := {
  cl_Name : string;
  cl_DeletionTimestamp : option metav1.Time;
  cl_Finalizers : list string;
  cl_Status : ClusterStatus
}.

(** Go's zero values [NodeSummary{}] and [ClusterStatus{}]. *)
Definition zeroNodeSummary : NodeSummary :=
  {| TotalNum := 0; ReadyNum := 0; Allocatable := ∅; Used := ∅ |}.

Definition zeroClusterStatus : ClusterStatus :=
  {| cs_KubernetesVersion := ""; cs_APIEnablements := [];
     cs_Conditions := []; cs_NodeSummary := zeroNodeSummary |}.

Definition withConditions (s : ClusterStatus)
    (conditions : list metav1.Condition) : ClusterStatus :=
  {| cs_KubernetesVersion := cs_KubernetesVersion s;
     cs_APIEnablements := cs_APIEnablements s;
     cs_Conditions := conditions;
     cs_NodeSummary := cs_NodeSummary s |}.

Definition withStatus (c : Cluster) (s : ClusterStatus) : Cluster :=
  {| cl_Name := cl_Name c;
     cl_DeletionTimestamp := cl_DeletionTimestamp c;
     cl_Finalizers := cl_Finalizers c;
     cl_Status := s |}.

#[global] Instance APIEnablement_eq_dec : EqDecision APIEnablement.
Proof. solve_decision. Defined.

End v1alpha1.

Import v1alpha1.

(** ** pkg/util *)

Module util.

(** Modelled from the spec: [util.ClusterControllerFinalizer], the
    "ownership finalizer" another controller attaches; its literal is
    declared in pkg/util, which is not among the sources, and no theorem
    depends on it. *)
Definition ClusterControllerFinalizer : string :=
  "karmada.io/cluster-controller".

(** Modelled from the spec: [util.IsClusterReady], the readiness
    classification: "the status's single condition, if present,
    interpreted as ready/not-ready" -- ready when a condition of type
    Ready has status true, not ready otherwise (also without any
    condition). *)
Definition IsClusterReady (clusterStatus : ClusterStatus) : bool :=
  existsb
    (fun condition =>
       String.eqb (metav1.Type_ condition) ClusterConditionReady
       && String.eqb (metav1.Status condition) metav1.ConditionTrue)
    (cs_Conditions clusterStatus).

End util.

(** [controllerutil.ContainsFinalizer]. *)
Definition ContainsFinalizer (o : Cluster) (finalizer : string) : bool :=
  existsb (fun f => String.eqb f finalizer) (cl_Finalizers o).

(** [IsZero] on a pointer to [metav1.Time]: a nil pointer is zero. *)
Definition IsZero (t : option metav1.Time) : bool :=
  match t with
  | None => true
  | Some t => t =? 0
  end.

(** [equality.Semantic.DeepEqual] on two [ClusterStatus] values: field by
    field, quantities compared by value ([Cmp]), instants by [Equal]. *)
Definition quantitiesEqual (a b : ResourceList) : bool :=
  bool_decide (resource.nano <$> a = resource.nano <$> b).

Definition DeepEqual (a b : ClusterStatus) : bool :=
  bool_decide (cs_KubernetesVersion a = cs_KubernetesVersion b)
  && bool_decide (cs_APIEnablements a = cs_APIEnablements b)
  && bool_decide (cs_Conditions a = cs_Conditions b)
  && (TotalNum (cs_NodeSummary a) =? TotalNum (cs_NodeSummary b))
  && (ReadyNum (cs_NodeSummary a) =? ReadyNum (cs_NodeSummary b))
  && quantitiesEqual (Allocatable (cs_NodeSummary a))
                     (Allocatable (cs_NodeSummary b))
  && quantitiesEqual (Used (cs_NodeSummary a)) (Used (cs_NodeSummary b)).

(** ** The world outside the controller *)

(** Every call that leaves the process, named as in the interface list of
    the design: the control plane store ([GetCluster],
    [UpdateClusterStatus]), the client factory, the member cluster API, and
    the sleeps of the retry poll. *)
Inductive Call :=
  | GetCluster (name : string)
  | NewClusterClient (name : string)
  | ProbeEndpoint (path : string)
  | ServerVersion
  | ListAPIResources
  | ListNodes
  | ListAllPods
  | UpdateClusterStatus (cluster : Cluster)
  | Sleep (d : Z).

Record World := {
  now : metav1.Time;                (* the wall clock *)
  trace : list Call;                (* calls made so far, oldest first *)
  store : gmap string Cluster       (* the persisted Cluster objects *)
}.

(** Computations that read the clock, call out and leave a trace. *)
Definition M (A : Type) : Type := World -> A * World.

Definition ret {A} (a : A) : M A := fun w => (a, w).

Definition bind {A B} (m : M A) (k : A -> M B) : M B :=
  fun w => let '(a, w') := m w in k a w'.

Notation "'let*' x ':=' m 'in' k" := (bind m (fun x => k))
  (at level 10, x name, m at level 100, k at level 200).
Notation "'let*' ' pat ':=' m 'in' k" :=
  (bind m (fun x => match x with pat => k end))
  (at level 10, pat pattern, m at level 100, k at level 200).

Definition getWorld : M World := fun w => (w, w).

Definition record (c : Call) : M unit :=
  fun w => (tt, {| now := now w; trace := trace w ++ [c]; store := store w |}).

(** [metav1.Now()]. *)
Definition Now : M metav1.Time := fun w => (now w, w).

(** Blocking for [d] milliseconds, as [time.Sleep] does and as the poll
    does while it waits for its ticker. *)
Definition sleep (d : Z) : M unit :=
  fun w => (tt, {| now := now w + d; trace := trace w ++ [Sleep d];
                   store := store w |}).

(** Time that passes while the caller is busy: the clock moves on, nothing
    is called. *)
Definition elapse (d : Z) : M unit :=
  fun w => (tt, {| now := now w + d; trace := trace w; store := store w |}).

(** Blocking until an event that is due in [d] milliseconds, or is due
    already. *)
Definition await (d : Z) : M unit :=
  if 0 <? d then sleep d else ret tt.

Record APIResource := { ar_Name : string }.

Record APIResourceList :=
  { arl_GroupVersion : string; arl_APIResources : list APIResource }.

(** [util.ClusterClient]: the member cluster behind its [KubeClient].  What
    the cluster answers may depend on the moment and on what happened
    before, so every answer is a function of the world at the call.  How
    long the cluster keeps a health check waiting is its own as well:
    [healthCheckTook] gives, in milliseconds, the time the health check took
    that left the given world. *)
Record ClusterClient := {
  ClusterName : string;
  answerGet : string -> World -> rest.Answer;
  answerServerVersion : World -> result string;
  answerServerGroupsAndResources : World -> result (list APIResourceList);
  answerListNodes : World -> result NodeList;
  answerListPods : World -> result PodList;
  healthCheckTook : World -> Z
}.

Module controllerruntime.
(** [controllerruntime.Result]; durations are in milliseconds. *)
Record Result := { Requeue : bool; RequeueAfter : Z }.
End controllerruntime.

Import controllerruntime.

(** [ClusterStatusController].  [Client] is the control plane store of the
    world; its calls can fail for reasons of their own ([failGet],
    [failUpdate]). *)
Record ClusterStatusController := {
  failGet : string -> World -> option Error;
  failUpdate : Cluster -> World -> option Error;
  ClusterClientSetFunc : Cluster -> World -> result ClusterClient;
  ClusterStatusUpdateFrequency : Z
}.

(** [c.Client.Get]: the stored object, or a not-found error. *)
Definition ClientGet (c : ClusterStatusController) (name : string)
  : M (result Cluster) :=
  let* w := getWorld in
  let* _ := record (GetCluster name) in
  match failGet c name w with
  | Some err => ret (Err err)
  | None =>
      match store w !! name with
      | Some cluster => ret (Ok cluster)
      | None => ret (Err (StatusError http.StatusNotFound))
      end
  end.

(** [c.Client.Status().Update]: replaces the status of the stored object. *)
Definition ClientStatusUpdate (c : ClusterStatusController) (cluster : Cluster)
  : M (option Error) :=
  let* w := getWorld in
  let* _ := record (UpdateClusterStatus cluster) in
  match failUpdate c cluster w with
  | Some err => ret (Some err)
  | None =>
      match store w !! cl_Name cluster with
      | None => ret (Some (StatusError http.StatusNotFound))
      | Some stored =>
          fun w' =>
            (None,
             {| now := now w'; trace := trace w';
                store := <[cl_Name cluster :=
                             withStatus stored (cl_Status cluster)]> (store w') |})
      end
  end.

(** ** wait.Poll *)

(** [wait.Poll(interval, timeout, condition)].  A ticker ticks every
    [interval] from the start of the poll, and the timeout closes the
    channel of the ticks, after the tick of that instant if there is one.
    The caller runs the condition on every tick it receives, and once more
    when it finds the channel closed; the first error or [done] ends the
    wait, and a last run that is not done gives [ErrWaitTimeout].  A tick is
    not kept for a caller that is busy: ticks that fall into a run of the
    condition are dropped.

    [elapsed] is the time since the start of the poll at which the caller
    turns to the channel; [took] says how long a run of the condition took,
    as a function of the world the run left (a run cannot take less than no
    time).  The variables the closure captures are the state [V].  [ticks]
    bounds the ticks that can still be received; [timeout / interval] is
    enough for a poll from its start ([pollLoop_ticks]).  [pollClosed] is
    the run on the closed channel. *)
Definition pollClosed {V} (timeout : Z) (took : World -> Z)
    (condition : V -> M (V * (bool * option Error)))
    (elapsed : Z) (v : V) : M (V * option Error) :=
  let* _ := await (timeout - elapsed) in
  let* '(v, (done, err)) := condition v in
  let* w := getWorld in
  let* _ := elapse (Z.max 0 (took w)) in
  match err with
  | Some e => ret (v, Some e)
  | None => if done then ret (v, None) else ret (v, Some ErrWaitTimeout)
  end.

Fixpoint pollLoop {V} (ticks : nat) (interval timeout : Z)
    (took : World -> Z) (condition : V -> M (V * (bool * option Error)))
    (elapsed : Z) (v : V) : M (V * option Error) :=
  match ticks with
  | O => pollClosed timeout took condition elapsed v
  | S n =>
      let next := (elapsed `div` interval + 1) * interval in
      if next <=? timeout then
        let* _ := sleep (next - elapsed) in
        let* '(v, (done, err)) := condition v in
        let* w := getWorld in
        let d := Z.max 0 (took w) in
        let* _ := elapse d in
        match err with
        | Some e => ret (v, Some e)
        | None => if done then ret (v, None)
                  else pollLoop n interval timeout took condition (next + d) v
        end
      else pollClosed timeout took condition elapsed v
  end.

Definition Poll {V} (interval timeout : Z) (took : World -> Z)
    (condition : V -> M (V * (bool * option Error))) (v : V)
  : M (V * option Error) :=
  pollLoop (Z.to_nat (timeout `div` interval)) interval timeout took
           condition 0 v.

(** ** The controller *)

Definition clusterReady : string := "ClusterReady".
Definition clusterHealthy : string :=
  "cluster is reachable and health endpoint responded with ok".
Definition clusterNotReady : string := "ClusterNotReady".
Definition clusterUnhealthy : string :=
  "cluster is reachable but health endpoint responded without ok".
Definition clusterNotReachableReason : string := "ClusterNotReachable".
Definition clusterNotReachableMsg : string := "cluster is not reachable".
(** The interval between two retries and the maximum time to wait. *)
Definition clusterStatusRetryInterval : Z := 500.
Definition clusterStatusRetryTimeout : Z := 2000.

Definition healthEndpointCheck (client : ClusterClient) (path : string)
  : M (Z * option Error) :=
  let* w := getWorld in
  let* _ := record (ProbeEndpoint path) in
  let resp := rest.Do (answerGet client path w) in
  ret (rest.statusCode resp, rest.err resp).

Definition getClusterHealthStatus (clusterClient : ClusterClient)
  : M (bool * bool) :=
  let* '(healthStatus, err) := healthEndpointCheck clusterClient "/readyz" in
  let* '(healthStatus, err) :=
    (if bool_decide (err <> None) && (healthStatus =? http.StatusNotFound)
     then healthEndpointCheck clusterClient "/healthz"
     else ret (healthStatus, err)) in
  match err with
  | Some _ => ret (false, false)
  | None =>
      if negb (healthStatus =? http.StatusOK) then ret (true, false)
      else ret (true, true)
  end.

Definition generateReadyCondition (online healthy : bool)
  : M (list metav1.Condition) :=
  let* currentTime := Now in
  let newClusterOfflineCondition :=
    {| metav1.Type_ := ClusterConditionReady;
       metav1.Status := metav1.ConditionFalse;
       metav1.Reason := clusterNotReachableReason;
       metav1.Message := clusterNotReachableMsg;
       metav1.LastTransitionTime := currentTime |} in
  let newClusterReadyCondition :=
    {| metav1.Type_ := ClusterConditionReady;
       metav1.Status := metav1.ConditionTrue;
       metav1.Reason := clusterReady;
       metav1.Message := clusterHealthy;
       metav1.LastTransitionTime := currentTime |} in
  let newClusterNotReadyCondition :=
    {| metav1.Type_ := ClusterConditionReady;
       metav1.Status := metav1.ConditionFalse;
       metav1.Reason := clusterNotReady;
       metav1.Message := clusterUnhealthy;
       metav1.LastTransitionTime := currentTime |} in
  if negb online then ret (nil ++ [newClusterOfflineCondition])%list
  else if negb healthy then ret (nil ++ [newClusterNotReadyCondition])%list
  else ret (nil ++ [newClusterReadyCondition])%list.

(** [setTransitionTime] writes into [newClusterStatus]; here it returns the
    new status after the writes. *)
Definition setTransitionTime (oldClusterStatus newClusterStatus : ClusterStatus)
  : ClusterStatus :=
  if Bool.eqb (util.IsClusterReady oldClusterStatus)
              (util.IsClusterReady newClusterStatus)
  then
    match cs_Conditions oldClusterStatus with
    | [] => newClusterStatus
    | old0 :: _ =>
        withConditions newClusterStatus
          (map (metav1.setLastTransitionTime (metav1.LastTransitionTime old0))
               (cs_Conditions newClusterStatus))
    end
  else newClusterStatus.

Definition getKubernetesVersion (clusterClient : ClusterClient)
  : M (result string) :=
  let* w := getWorld in
  let* _ := record ServerVersion in
  match answerServerVersion clusterClient w with
  | Err err => ret (Err err)
  | Ok gitVersion => ret (Ok gitVersion)
  end.

Definition getAPIEnablements (clusterClient : ClusterClient)
  : M (result (list APIEnablement)) :=
  let* w := getWorld in
  let* _ := record ListAPIResources in
  match answerServerGroupsAndResources clusterClient w with
  | Err err => ret (Err err)
  | Ok apiResourceList =>
      ret (Ok (foldl
                 (fun apiEnablements list =>
                    let apiResource :=
                      foldl (fun apiResource resource =>
                               apiResource ++ [ar_Name resource])%list
                            [] (arl_APIResources list) in
                    (apiEnablements ++
                       [{| GroupVersion := arl_GroupVersion list;
                           Resources := apiResource |}])%list)
                 [] apiResourceList))
  end.

Definition getNodeSummary (clusterClient : ClusterClient)
  : M (result NodeSummary) :=
  let* w := getWorld in
  let* _ := record ListNodes in
  match answerListNodes clusterClient w with
  | Err err => ret (Err err)
  | Ok nodeList =>
      let totalNum := Z.of_nat (length (nl_Items nodeList)) in
      let readyNum :=
        foldl (fun readyNum node =>
                 if getReadyStatusForNode (node_Status node)
                 then readyNum + 1 else readyNum)
              0 (nl_Items nodeList) in
      let allocatable := getClusterAllocatable nodeList in
      let* w := getWorld in
      let* _ := record ListAllPods in
      match answerListPods clusterClient w with
      | Err err => ret (Err err)
      | Ok podList =>
          let usedResource := getUsedResource podList in
          ret (Ok {| TotalNum := totalNum; ReadyNum := readyNum;
                     Allocatable := allocatable; Used := usedResource |})
      end
  end.

(** [updateStatusIfNeeded] calls the update only if the status of the
    member cluster is not the same as the old status. *)
Definition updateStatusIfNeeded (c : ClusterStatusController)
    (cluster : Cluster) (currentClusterStatus : ClusterStatus)
  : M (Result * option Error) :=
  if negb (DeepEqual (cl_Status cluster) currentClusterStatus) then
    let cluster := withStatus cluster currentClusterStatus in
    let* err := ClientStatusUpdate c cluster in
    match err with
    | Some err => ret ({| Requeue := true; RequeueAfter := 0 |}, Some err)
    | None =>
        ret ({| Requeue := false;
                RequeueAfter := ClusterStatusUpdateFrequency c |}, None)
    end
  else
    ret ({| Requeue := false;
            RequeueAfter := ClusterStatusUpdateFrequency c |}, None).

(** The closure handed to [wait.Poll]; it assigns the captured [online] and
    [healthy]. *)
Definition retryCondition (clusterClient : ClusterClient)
    (captured : bool * bool) : M ((bool * bool) * (bool * option Error)) :=
  let* '(online, healthy) := getClusterHealthStatus clusterClient in
  if negb online then ret ((online, healthy), (false, None))
  else ret ((online, healthy), (true, None)).

Definition syncClusterStatus (c : ClusterStatusController) (cluster : Cluster)
  : M (Result * option Error) :=
  let* w := getWorld in
  let* _ := record (NewClusterClient (cl_Name cluster)) in
  match ClusterClientSetFunc c cluster w with
  | Err err => ret ({| Requeue := true; RequeueAfter := 0 |}, Some err)
  | Ok clusterClient =>
      let currentClusterStatus := zeroClusterStatus in
      let* '(online, healthy) := getClusterHealthStatus clusterClient in
      let* '((online, healthy), err) :=
        (if negb online then
           Poll clusterStatusRetryInterval clusterStatusRetryTimeout
                (healthCheckTook clusterClient)
                (retryCondition clusterClient) (online, healthy)
         else ret ((online, healthy), None)) in
      match err with
      | Some _ =>
          let* conditions := generateReadyCondition false false in
          let currentClusterStatus :=
            withConditions currentClusterStatus conditions in
          let currentClusterStatus :=
            setTransitionTime (cl_Status cluster) currentClusterStatus in
          updateStatusIfNeeded c cluster currentClusterStatus
      | None =>
          let* clusterVersion := getKubernetesVersion clusterClient in
          match clusterVersion with
          | Err err => ret ({| Requeue := true; RequeueAfter := 0 |}, Some err)
          | Ok clusterVersion =>
          let* apiEnables := getAPIEnablements clusterClient in
          match apiEnables with
          | Err err => ret ({| Requeue := true; RequeueAfter := 0 |}, Some err)
          | Ok apiEnables =>
          let* nodeSummary := getNodeSummary clusterClient in
          match nodeSummary with
          | Err err => ret ({| Requeue := true; RequeueAfter := 0 |}, Some err)
          | Ok nodeSummary =>
              let* conditions := generateReadyCondition online healthy in
              let currentClusterStatus :=
                withConditions currentClusterStatus conditions in
              let currentClusterStatus :=
                setTransitionTime (cl_Status cluster) currentClusterStatus in
              let currentClusterStatus :=
                {| cs_KubernetesVersion := clusterVersion;
                   cs_APIEnablements := apiEnables;
                   cs_Conditions := cs_Conditions currentClusterStatus;
                   cs_NodeSummary := nodeSummary |} in
              updateStatusIfNeeded c cluster currentClusterStatus
          end end end
      end
  end.

(** [Reconcile] syncs the status of the given member cluster. *)
Definition Reconcile (c : ClusterStatusController) (req : string)
  : M (Result * option Error) :=
  let* got := ClientGet c req in
  match got with
  | Err err =>
      if IsNotFound err then ret ({| Requeue := false; RequeueAfter := 0 |}, None)
      else ret ({| Requeue := true; RequeueAfter := 0 |}, Some err)
  | Ok cluster =>
      if negb (IsZero (cl_DeletionTimestamp cluster)) then
        ret ({| Requeue := false; RequeueAfter := 0 |}, None)
      else if negb (ContainsFinalizer cluster util.ClusterControllerFinalizer)
      then ret ({| Requeue := true; RequeueAfter := 0 |}, None)
      else syncClusterStatus c cluster
  end.

(** ** Vocabulary of the statements *)

(** The clusters handed to the status update, oldest first. *)
Definition writes (calls : list Call) : list Cluster :=
  omap (fun call => match call with
                    | UpdateClusterStatus cluster => Some cluster
                    | _ => None
                    end) calls.

(** Calls that only probe a health endpoint, create the client or wait. *)
Definition probing (call : Call) : bool :=
  match call with
  | ProbeEndpoint _ | Sleep _ | NewClusterClient _ => true
  | _ => false
  end.

Definition sleeps (calls : list Call) : list Z :=
  omap (fun call => match call with Sleep d => Some d | _ => None end) calls.

(** The health checks among some calls: every one of them starts with a
    probe of /readyz. *)
Definition isReadyz (call : Call) : bool :=
  match call with
  | ProbeEndpoint path => String.eqb path "/readyz"
  | _ => false
  end.

Definition healthChecks (calls : list Call) : nat :=
  length (List.filter isReadyz calls).

(** What the last endpoint check, taken alone, makes of the probe: lines
    172 to 182 of [getClusterHealthStatus]. *)
Definition verdict (r : rest.Result) : bool * bool :=
  match rest.err r with
  | Some _ => (false, false)
  | None =>
      if negb (rest.statusCode r =? http.StatusOK) then (true, false)
      else (true, true)
  end.

(** The three condition templates of the synthesizer's table. *)
Definition template (online healthy : bool) (t : metav1.Time)
  : metav1.Condition :=
  match online, healthy with
  | false, _ =>
      {| metav1.Type_ := "Ready"; metav1.Status := "False";
         metav1.Reason := "ClusterNotReachable";
         metav1.Message := "cluster is not reachable";
         metav1.LastTransitionTime := t |}
  | true, false =>
      {| metav1.Type_ := "Ready"; metav1.Status := "False";
         metav1.Reason := "ClusterNotReady";
         metav1.Message :=
           "cluster is reachable but health endpoint responded without ok";
         metav1.LastTransitionTime := t |}
  | true, true =>
      {| metav1.Type_ := "Ready"; metav1.Status := "True";
         metav1.Reason := "ClusterReady";
         metav1.Message :=
           "cluster is reachable and health endpoint responded with ok";
         metav1.LastTransitionTime := t |}
  end.

(** How often the loops of [getUsedResource] add a pod's requests: once for
    each condition of a Running pod that has type Ready and status True. *)
Definition readyConditions (pod : Pod) : Z :=
  if String.eqb (pst_Phase (pod_Status pod)) "Running" then
    Z.of_nat (length (List.filter
      (fun c => String.eqb (pc_Type c) "Ready"
                && String.eqb (pc_Status c) "True")
      (pst_Conditions (pod_Status pod))))
  else 0.

Definition sumZ (l : list Z) : Z := foldr Z.add 0 l.

(** The value, in units of 10^-9, a node reports as allocatable under a
    resource name; nothing reported counts as nothing. *)
Definition allocatableOf (name : string) (node : Node) : Z :=
  match ns_Allocatable (node_Status node) !! name with
  | Some q => resource.nano q
  | None => 0
  end.

(** A node is ready when its status contains a condition of type Ready with
    value true. *)
Definition nodeReady (node : Node) : Prop :=
  exists condition, condition ∈ ns_Conditions (node_Status node)
    /\ nc_Type condition = "Ready" /\ nc_Status condition = "True".

(** The part of [syncClusterStatus] before its two calls of
    [updateStatusIfNeeded]: the candidate status, or the error that ends
    the reconciliation.  [syncClusterStatus_synthesize] below shows that
    [syncClusterStatus] is this followed by the conditional write. *)
Definition synthesize (c : ClusterStatusController) (cluster : Cluster)
  : M (result ClusterStatus) :=
  let* w := getWorld in
  let* _ := record (NewClusterClient (cl_Name cluster)) in
  match ClusterClientSetFunc c cluster w with
  | Err err => ret (Err err)
  | Ok clusterClient =>
      let* '(online, healthy) := getClusterHealthStatus clusterClient in
      let* '((online, healthy), err) :=
        (if negb online then
           Poll clusterStatusRetryInterval clusterStatusRetryTimeout
                (healthCheckTook clusterClient)
                (retryCondition clusterClient) (online, healthy)
         else ret ((online, healthy), None)) in
      match err with
      | Some _ =>
          let* conditions := generateReadyCondition false false in
          ret (Ok (setTransitionTime (cl_Status cluster)
                     (withConditions zeroClusterStatus conditions)))
      | None =>
          let* clusterVersion := getKubernetesVersion clusterClient in
          match clusterVersion with
          | Err err => ret (Err err)
          | Ok clusterVersion =>
          let* apiEnables := getAPIEnablements clusterClient in
          match apiEnables with
          | Err err => ret (Err err)
          | Ok apiEnables =>
          let* nodeSummary := getNodeSummary clusterClient in
          match nodeSummary with
          | Err err => ret (Err err)
          | Ok nodeSummary =>
              let* conditions := generateReadyCondition online healthy in
              ret (Ok {| cs_KubernetesVersion := clusterVersion;
                         cs_APIEnablements := apiEnables;
                         cs_Conditions :=
                           cs_Conditions
                             (setTransitionTime (cl_Status cluster)
                                (withConditions zeroClusterStatus conditions));
                         cs_NodeSummary := nodeSummary |})
          end end end
      end
  end.

(** The world after some more calls that change neither clock nor store. *)
Definition called (calls : list Call) (w : World) : World :=
  {| now := now w; trace := trace w ++ calls; store := store w |}.

(** Calls other than the status update. *)
Definition noWrite (call : Call) : bool :=
  match call with
  | UpdateClusterStatus _ => false
  | _ => true
  end.

(** [w1] comes after [w] by calls that all satisfy [P], none of which
    touched the store. *)
Definition quietly (P : Call -> bool) (w w1 : World) : Prop :=
  store w1 = store w
  /\ now w <= now w1
  /\ exists calls : list Call,
       trace w1 = (trace w ++ calls)%list
       /\ Forall (fun call => P call = true) calls.

(** Every object is stored under its own name. *)
Definition wfStore (w : World) : Prop :=
  forall name cluster, store w !! name = Some cluster -> cl_Name cluster = name.

(** The outcome of a reconciliation that went through: requeue after the
    configured frequency, no error. *)
Definition requeueAfterFrequency (c : ClusterStatusController)
  : Result * option Error :=
  ({| Requeue := false; RequeueAfter := ClusterStatusUpdateFrequency c |}, None).

(** The calls made between two worlds of one run. *)
Definition newCalls (w w' : World) : list Call :=
  drop (length (trace w)) (trace w').

(** The ways a reconciliation can end, as seen from outside: the result it
    returns and the world it leaves.
    - [Skipped]: an early exit or an error before a candidate exists; no
      status update call, the store untouched, nothing scheduled;
    - [Unchanged]: a candidate equal to the stored status; no call either;
    - [Written]: a candidate that differs, persisted by one update call;
    - [WriteFailed]: a candidate that differs, one update call that failed,
      the store untouched. *)
Inductive Outcome (c : ClusterStatusController) (req : string) (w : World)
  : Result * option Error -> World -> Prop :=
  | Skipped (r : Result * option Error) (w' : World) :
      quietly noWrite w w' ->
      RequeueAfter (fst r) = 0 ->
      Outcome c req w r w'
  | Unchanged (cluster : Cluster) (current : ClusterStatus) (w' : World) :
      store w !! req = Some cluster ->
      synthesize c cluster (called [GetCluster req] w) = (Ok current, w') ->
      DeepEqual (cl_Status cluster) current = true ->
      Outcome c req w (requeueAfterFrequency c) w'
  | Written (cluster stored : Cluster) (current : ClusterStatus) (w1 : World) :
      store w !! req = Some cluster ->
      synthesize c cluster (called [GetCluster req] w) = (Ok current, w1) ->
      DeepEqual (cl_Status cluster) current = false ->
      store w !! cl_Name cluster = Some stored ->
      Outcome c req w (requeueAfterFrequency c)
        {| now := now w1;
           trace := trace w1 ++ [UpdateClusterStatus (withStatus cluster current)];
           store := <[cl_Name cluster := withStatus stored current]> (store w) |}
  | WriteFailed (cluster : Cluster) (current : ClusterStatus) (w1 : World)
      (err : Error) :
      store w !! req = Some cluster ->
      synthesize c cluster (called [GetCluster req] w) = (Ok current, w1) ->
      DeepEqual (cl_Status cluster) current = false ->
      Outcome c req w ({| Requeue := true; RequeueAfter := 0 |}, Some err)
        (called [UpdateClusterStatus (withStatus cluster current)] w1).

Definition emptyWorld : World := {| now := 0; trace := []; store := ∅ |}.

(** What [synthesize] computes against a steady member cluster, as a
    function of the stored status and the time at which the condition is
    stamped (see [synthesize_steady]). *)
Definition steadySynth (k : ClusterClient) (old : ClusterStatus)
    (t : metav1.Time) : result ClusterStatus :=
  let '(online, healthy) := fst (getClusterHealthStatus k emptyWorld) in
  if negb online then
    Ok (setTransitionTime old
          (withConditions zeroClusterStatus
             [template false false t]))
  else
    match fst (getKubernetesVersion k emptyWorld) with
    | Err err => Err err
    | Ok clusterVersion =>
    match fst (getAPIEnablements k emptyWorld) with
    | Err err => Err err
    | Ok apiEnables =>
    match fst (getNodeSummary k emptyWorld) with
    | Err err => Err err
    | Ok nodeSummary =>
        Ok {| cs_KubernetesVersion := clusterVersion;
              cs_APIEnablements := apiEnables;
              cs_Conditions :=
                cs_Conditions
                  (setTransitionTime old
                     (withConditions zeroClusterStatus
                        [template online healthy t]));
              cs_NodeSummary := nodeSummary |}
    end end end.

(** The persisted status of a cluster, its classification and the
    transition time of its first condition. *)
Definition persisted (w : World) (name : string) : option ClusterStatus :=
  cl_Status <$> store w !! name.

Definition persistedReady (w : World) (name : string) : option bool :=
  util.IsClusterReady <$> persisted w name.

Definition persistedTransitionTime (w : World) (name : string)
  : option metav1.Time :=
  match persisted w name with
  | Some s => metav1.LastTransitionTime <$> head (cs_Conditions s)
  | None => None
  end.

(** Time passing between two reconciliations. *)
Definition idle (d : Z) (w : World) : World :=
  {| now := now w + d; trace := trace w; store := store w |}.

(** The worlds after each of a run of reconciliations of one cluster,
    [gaps] being the idle times before each of them. *)
Fixpoint reconcileSeq (c : ClusterStatusController) (req : string)
    (gaps : list Z) (w : World) : list World :=
  match gaps with
  | [] => []
  | d :: gaps =>
      let w' := snd (Reconcile c req (idle d w)) in
      w' :: reconcileSeq c req gaps w'
  end.

(** A member cluster whose answers do not depend on the moment, and a
    controller whose client factory yields for the cluster, whatever status
    the cluster has got and whenever it is asked, the same such client:
    reconciliations of the cluster with no underlying change. *)
Definition steadyClient (k : ClusterClient) : Prop :=
  forall w w' : World,
    (forall path, answerGet k path w = answerGet k path w')
    /\ answerServerVersion k w = answerServerVersion k w'
    /\ answerServerGroupsAndResources k w = answerServerGroupsAndResources k w'
    /\ answerListNodes k w = answerListNodes k w'
    /\ answerListPods k w = answerListPods k w'.

Definition steady (c : ClusterStatusController) (cluster : Cluster) : Prop :=
  forall (s : ClusterStatus) (w w' : World),
    ClusterClientSetFunc c (withStatus cluster s) w'
    = ClusterClientSetFunc c cluster w
    /\ forall k, ClusterClientSetFunc c cluster w = Ok k -> steadyClient k.

(** What a reconciliation that went through leaves behind when the member
    cluster is steady: the stored object is the one that was loaded but for
    its status, the stored status is semantically equal to the candidate
    [a], and [a] is what the steady cluster makes the pipeline compute from
    the status that was stored before. *)
Definition converged (c : ClusterStatusController) (req : string)
    (w1 : World) : Prop :=
  exists (cluster cluster1 : Cluster) (a : ClusterStatus) (k : ClusterClient)
         (t : metav1.Time),
    store w1 !! req = Some cluster1
    /\ cluster1 = withStatus cluster (cl_Status cluster1)
    /\ (forall s w, ClusterClientSetFunc c (withStatus cluster s) w = Ok k)
    /\ steadyClient k
    /\ steadySynth k (cl_Status cluster) t = Ok a
    /\ DeepEqual (cl_Status cluster1) a = true.

(** A member cluster that is offline whenever it is probed. *)
Definition alwaysOffline (k : ClusterClient) : Prop :=
  forall w : World, fst (fst (getClusterHealthStatus k w)) = false.

(** What a retry poll that started in [w] has done when it ends with
    [(v', err)] in [w']: it only probed and slept, never longer than the
    [interval] at a time and [budget] in all; it made at most [runs] health
    checks, and the last of them, made in the world [last], gave the outcome
    [v'] and decided between going on and [ErrWaitTimeout]; a timeout does
    not come before the [budget] has passed. *)
Definition retried (k : ClusterClient) (took : World -> Z)
    (interval budget : Z) (runs : nat) (w : World)
    (r : (bool * bool) * option Error * World) : Prop :=
  let '((v', err), w') := r in
  exists (last : World) (calls pre : list Call),
    store w' = store w
    /\ now w <= now w'
    /\ trace w' = (trace w ++ calls)%list
    /\ Forall (fun call => probing call = true) calls
    /\ Forall (fun d => 0 < d <= interval) (sleeps calls)
    /\ sumZ (sleeps calls) <= budget
    /\ (1 <= healthChecks calls <= runs)%nat
    /\ store last = store w
    /\ trace last = (trace w ++ pre)%list
    /\ now w <= now last
    /\ w' = snd (elapse (Z.max 0 (took (snd (getClusterHealthStatus k last))))
                       (snd (getClusterHealthStatus k last)))
    /\ v' = fst (getClusterHealthStatus k last)
    /\ (err = None /\ fst v' = true
        \/ err = Some ErrWaitTimeout /\ fst v' = false)
    /\ (err = Some ErrWaitTimeout -> now w + budget <= now w').

(** ** Sample inputs *)

Definition mQ (milli : Z) : resource.Quantity :=
  resource.NewMilliQuantity milli resource.DecimalSI.

Definition bQ (bytes : Z) : resource.Quantity :=
  resource.NewQuantity bytes resource.BinarySI.

Definition Mi : Z := 2 ^ 20.

Definition requests (cpu mem : Z) : ResourceList :=
  <[ResourceCPU := mQ cpu]> (<[ResourceMemory := bQ mem]> ∅).

Definition samplePod (name phase : string) (conds : list PodCondition)
    (cpu mem : Z) : Pod :=
  {| pod_Name := name;
     pod_Spec := {| ps_Containers :=
       [ {| ctr_Name := "main";
            ctr_Resources := {| rr_Requests := requests cpu mem |} |} ] |};
     pod_Status := {| pst_Phase := phase; pst_Conditions := conds |} |}.

Definition podReady : PodCondition :=
  {| pc_Type := "Ready"; pc_Status := "True" |}.

Definition podNotReady : PodCondition :=
  {| pc_Type := "Ready"; pc_Status := "False" |}.

(** The three pods of the aggregation example. *)
Definition samplePods : PodList :=
  {| pl_Items :=
       [ samplePod "a" "Running" [podReady] 500 (128 * Mi);
         samplePod "b" "Running" [podReady] 250 (64 * Mi);
         samplePod "c" "Running" [podNotReady] 100 (32 * Mi) ] |}.

(** One running pod that lists its Ready condition twice. *)
Definition twiceReadyPods : PodList :=
  {| pl_Items :=
       [ samplePod "a" "Running" [podReady; podReady] 500 (128 * Mi) ] |}.

Definition sampleNode (name : string) (conds : list NodeCondition)
    (cpu mem : Z) : Node :=
  {| node_Name := name;
     node_Status := {| ns_Conditions := conds;
                       ns_Allocatable := requests cpu mem |} |}.

(** Node A is Ready, node B has no Ready condition at all. *)
Definition sampleNodes : NodeList :=
  {| nl_Items :=
       [ sampleNode "A" [ {| nc_Type := "Ready"; nc_Status := "True" |} ]
                    4000 (8000 * Mi);
         sampleNode "B" [ {| nc_Type := "MemoryPressure"; nc_Status := "False" |} ]
                    2000 (4000 * Mi) ] |}.

(** A member cluster that answers every probe of /readyz and /healthz the
    same way at all times. *)
Definition sampleClient (readyz healthz : rest.Answer) : ClusterClient :=
  {| ClusterName := "member1";
     answerGet := fun path _ =>
       if String.eqb path "/readyz" then readyz else healthz;
     answerServerVersion := fun _ => Ok "v1.19.1";
     answerServerGroupsAndResources := fun _ =>
       Ok [ {| arl_GroupVersion := "apps/v1";
               arl_APIResources := [ {| ar_Name := "deployments" |} ] |} ];
     answerListNodes := fun _ => Ok sampleNodes;
     answerListPods := fun _ => Ok samplePods;
     healthCheckTook := fun _ => 0 |}.


(** A client factory that builds the client from the cluster it is given:
    the member cluster is the one of [sampleClient], under the name of the
    cluster. *)
Definition clientFor (readyz healthz : rest.Answer) (cluster : Cluster)
  : ClusterClient :=
  let k := sampleClient readyz healthz in
  {| ClusterName := cl_Name cluster;
     answerGet := answerGet k;
     answerServerVersion := answerServerVersion k;
     answerServerGroupsAndResources := answerServerGroupsAndResources k;
     answerListNodes := answerListNodes k;
     answerListPods := answerListPods k;
     healthCheckTook := healthCheckTook k |}.

Definition perClusterController (readyz healthz : rest.Answer)
  : ClusterStatusController :=
  {| failGet := fun _ _ => None;
     failUpdate := fun _ _ => None;
     ClusterClientSetFunc := fun cluster _ => Ok (clientFor readyz healthz cluster);
     ClusterStatusUpdateFrequency := 10000 |}.

Definition sampleController (k : ClusterClient) : ClusterStatusController :=
  {| failGet := fun _ _ => None;
     failUpdate := fun _ _ => None;
     ClusterClientSetFunc := fun _ _ => Ok k;
     ClusterStatusUpdateFrequency := 10000 |}.

Definition sampleCluster (finalizers : list string) (status : ClusterStatus)
  : Cluster :=
  {| cl_Name := "member1"; cl_DeletionTimestamp := None;
     cl_Finalizers := finalizers; cl_Status := status |}.

Definition sampleWorld (cluster : Cluster) : World :=
  {| now := 100000; trace := []; store := {[ cl_Name cluster := cluster ]} |}.

(** A status as an earlier reconciliation of a healthy cluster left it. *)
Definition readyStatus : ClusterStatus :=
  {| cs_KubernetesVersion := "v1.19.1";
     cs_APIEnablements := [];
     cs_Conditions := [ template true true 5000 ];
     cs_NodeSummary := zeroNodeSummary |}.

(** ** Vocabulary of the further properties *)

(** What one container requests, in thousandths of a cpu and in bytes of
    memory; a container that does not name the resource requests nothing. *)
Definition cpuRequest (c : Container) : Z :=
  match rr_Requests (ctr_Resources c) !! ResourceCPU with
  | Some q => resource.MilliValue q
  | None => 0
  end.

Definition memoryRequest (c : Container) : Z :=
  match rr_Requests (ctr_Resources c) !! ResourceMemory with
  | Some q => resource.Value q
  | None => 0
  end.

(** A pod that is Running and has a condition of type Ready with status
    True. *)
Definition qualifies (pod : Pod) : bool :=
  String.eqb (pst_Phase (pod_Status pod)) "Running"
  && existsb (fun c => String.eqb (pc_Type c) "Ready"
                       && String.eqb (pc_Status c) "True")
             (pst_Conditions (pod_Status pod)).

(** The order in which a reconciliation asks the member cluster once the
    health check is over. *)
Definition pipelineOrder : list Call :=
  [ServerVersion; ListAPIResources; ListNodes; ListAllPods].

(** The health phase of [syncClusterStatus], lines 100 to 112: the first
    health check and, when it finds the member cluster offline, the retry
    poll. *)
Definition healthPhase (clusterClient : ClusterClient)
  : M ((bool * bool) * option Error) :=
  let* '(online, healthy) := getClusterHealthStatus clusterClient in
  if negb online then
    Poll clusterStatusRetryInterval clusterStatusRetryTimeout
         (healthCheckTook clusterClient)
         (retryCondition clusterClient) (online, healthy)
  else ret ((online, healthy), None).

(** What the member cluster answers to the four calls of [pipelineOrder]
    made one after the other from the world [w] on: how many of them are
    made when the first that fails is the last, and the error of that
    one. *)
Definition firstFailure (k : ClusterClient) (w : World) : nat * option Error :=
  match answerServerVersion k w with
  | Err err => (1%nat, Some err)
  | Ok _ =>
  match answerServerGroupsAndResources k (called [ServerVersion] w) with
  | Err err => (2%nat, Some err)
  | Ok _ =>
  match answerListNodes k (called [ServerVersion; ListAPIResources] w) with
  | Err err => (3%nat, Some err)
  | Ok _ =>
  match answerListPods k
          (called [ServerVersion; ListAPIResources; ListNodes] w) with
  | Err err => (4%nat, Some err)
  | Ok _ => (4%nat, None)
  end end end end.

(** * Theorems *)

(** ** Health prober *)

Lemma healthEndpointCheck_run (k : ClusterClient) (path : string) (w : World) :
  healthEndpointCheck k path w =
    ((rest.statusCode (rest.Do (answerGet k path w)),
      rest.err (rest.Do (answerGet k path w))),
     {| now := now w; trace := trace w ++ [ProbeEndpoint path];
        store := store w |}).
Proof. reflexivity. Qed.

(** The prober's outcome is the verdict on the last endpoint check it made:
    the one of /healthz when /readyz came back as an error with status 404,
    the one of /readyz otherwise. *)
Lemma getClusterHealthStatus_run (k : ClusterClient) (w : World) :
  let r1 := rest.Do (answerGet k "/readyz" w) in
  let w1 := {| now := now w; trace := trace w ++ [ProbeEndpoint "/readyz"];
               store := store w |} in
  getClusterHealthStatus k w =
    if bool_decide (rest.err r1 <> None)
       && (rest.statusCode r1 =? http.StatusNotFound)
    then (verdict (rest.Do (answerGet k "/healthz" w1)),
          {| now := now w;
             trace := (trace w ++ [ProbeEndpoint "/readyz"])
                        ++ [ProbeEndpoint "/healthz"];
             store := store w |})
    else (verdict r1, w1).
Proof.
  intros r1 w1. unfold getClusterHealthStatus, bind.
  rewrite healthEndpointCheck_run. fold r1. fold w1.
  destruct (bool_decide (rest.err r1 <> None)
            && (rest.statusCode r1 =? http.StatusNotFound)).
  - rewrite healthEndpointCheck_run. unfold verdict, ret. cbn.
    destruct (rest.err _); [reflexivity|].
    destruct (rest.statusCode _ =? http.StatusOK); reflexivity.
  - unfold verdict, ret.
    destruct (rest.err r1); [reflexivity|].
    destruct (rest.statusCode r1 =? http.StatusOK); reflexivity.
Qed.

Lemma transformResponse_error (code : Z) :
  code <> 101 -> ~ (200 <= code <= 206) ->
  rest.transformResponse code =
    {| rest.statusCode := code; rest.err := Some (StatusError code) |}.
Proof.
  intros H1 H2. unfold rest.transformResponse, http.StatusSwitchingProtocols,
    http.StatusOK, http.StatusPartialContent.
  destruct (Z.eqb_spec code 101); [contradiction|].
  destruct (Z.leb_spec 200 code), (Z.leb_spec code 206); cbn; try reflexivity.
  lia.
Qed.

Lemma Do_statusCode_NotFound (a : rest.Answer) :
  bool_decide (rest.err (rest.Do a) <> None)
  && (rest.statusCode (rest.Do a) =? http.StatusNotFound) = true
  <-> a = rest.Response http.StatusNotFound.
Proof.
  split.
  - destruct a as [reason|code]; cbn.
    + discriminate.
    + intros H. apply andb_true_iff in H as [_ H].
      assert (rest.statusCode (rest.transformResponse code) = code) as Hc.
      { unfold rest.transformResponse. destruct (_ || _); reflexivity. }
      rewrite Hc in H. apply Z.eqb_eq in H. now subst.
  - intros ->. reflexivity.
Qed.

(** What the prober makes of each answer to its last endpoint check: no
    response, or a response the client reports as an error, is offline; a
    response without error is online, and healthy exactly at 200. *)
Lemma verdict_Do (a : rest.Answer) :
  verdict (rest.Do a) =
    match a with
    | rest.NoResponse _ => (false, false)
    | rest.Response code =>
        if (code =? 101) || ((200 <=? code) && (code <=? 206))
        then (true, code =? 200)
        else (false, false)
    end.
Proof.
  destruct a as [reason|code]; [reflexivity|].
  unfold rest.Do, rest.transformResponse, http.StatusSwitchingProtocols,
    http.StatusOK, http.StatusPartialContent.
  destruct ((code =? 101) || ((200 <=? code) && (code <=? 206)));
    [|reflexivity].
  unfold verdict, http.StatusOK. cbn.
  destruct (code =? 200); reflexivity.
Qed.

(** C3: a member cluster that is reached and answers /readyz with a
    non-success status the client reports as an error (any code other than
    101, 200..206 and the 404 that triggers the fallback; 500 for one) is
    classified offline, (online, healthy) = (false, false), and not
    (true, false). *)
Theorem getClusterHealthStatus_error_status_offline
    (k : ClusterClient) (w : World) (code : Z) :
  answerGet k "/readyz" w = rest.Response code ->
  code <> 101 -> ~ (200 <= code <= 206) -> code <> 404 ->
  fst (getClusterHealthStatus k w) = (false, false).
Proof.
  intros Hans H101 H2xx H404.
  pose proof (getClusterHealthStatus_run k w) as Hrun. cbn zeta in Hrun.
  rewrite Hrun, Hans. clear Hrun.
  destruct (bool_decide _ && _) eqn:Hfb.
  - apply Do_statusCode_NotFound in Hfb. injection Hfb as ->.
    now contradict H404.
  - cbn [fst]. rewrite verdict_Do.
    destruct (Z.eqb_spec code 101); [contradiction|].
    destruct (Z.leb_spec 200 code), (Z.leb_spec code 206); cbn;
      try reflexivity.
    lia.
Qed.

Lemma getClusterHealthStatus_error_status_offline_witness :
  fst (getClusterHealthStatus
         (sampleClient (rest.Response 500) (rest.Response 200))
         (sampleWorld (sampleCluster [] readyStatus)))
  = (false, false).
Proof.
  apply (getClusterHealthStatus_error_status_offline _ _ 500);
    [reflexivity | lia | lia | lia].
Defined.

(** C4: when /readyz answers not-found, the prober's outcome is the verdict
    on the /healthz check alone; on any other answer of /readyz (another
    status, or no response) the outcome is the verdict on /readyz and the
    only call made is the /readyz probe. *)
Theorem fallback_correctness (k : ClusterClient) (w : World) :
  let w1 := {| now := now w; trace := trace w ++ [ProbeEndpoint "/readyz"];
               store := store w |} in
  (answerGet k "/readyz" w = rest.Response http.StatusNotFound ->
   getClusterHealthStatus k w =
     (verdict (rest.Do (answerGet k "/healthz" w1)),
      {| now := now w;
         trace := trace w ++ [ProbeEndpoint "/readyz"; ProbeEndpoint "/healthz"];
         store := store w |}))
  /\ (answerGet k "/readyz" w <> rest.Response http.StatusNotFound ->
      getClusterHealthStatus k w =
        (verdict (rest.Do (answerGet k "/readyz" w)), w1)).
Proof.
  intros w1. pose proof (getClusterHealthStatus_run k w) as Hrun.
  cbn zeta in Hrun. fold w1 in Hrun. split; intros Hans.
  - rewrite Hrun.
    rewrite (proj2 (Do_statusCode_NotFound _) Hans).
    now rewrite <- app_assoc.
  - rewrite Hrun.
    destruct (bool_decide _ && _) eqn:Hfb; [|reflexivity].
    apply Do_statusCode_NotFound in Hfb. contradiction.
Qed.

Lemma fallback_correctness_witness :
  fst (getClusterHealthStatus
         (sampleClient (rest.Response 404) (rest.Response 200))
         (sampleWorld (sampleCluster [] readyStatus))) = (true, true)
  /\ trace (snd (getClusterHealthStatus
                   (sampleClient (rest.Response 200) (rest.NoResponse "down"))
                   (sampleWorld (sampleCluster [] readyStatus))))
     = [ProbeEndpoint "/readyz"].
Proof.
  split.
  - rewrite (proj1 (fallback_correctness _ _)); reflexivity.
  - rewrite (proj2 (fallback_correctness _ _)); [reflexivity | discriminate].
Defined.

(** ** Resource aggregation *)

Lemma wrap64_small (z : Z) : inInt64 z -> wrap64 z = z.
Proof.
  unfold inInt64, wrap64. intros H.
  rewrite Z.mod_small by lia. lia.
Qed.

Lemma wrap64_add_l (a b : Z) : wrap64 (wrap64 a + b) = wrap64 (a + b).
Proof.
  unfold wrap64. f_equal.
  replace ((a + 2 ^ 63) `mod` 2 ^ 64 - 2 ^ 63 + b + 2 ^ 63)
    with ((a + 2 ^ 63) `mod` 2 ^ 64 + b) by lia.
  rewrite Zplus_mod_idemp_l. f_equal. lia.
Qed.

(** One request list adds its cpu entry, in thousandths, and its memory
    entry, in units, to the accumulator; other resources are skipped. *)
Lemma addResource_spec (r : requestResource) (rl : ResourceList) :
  MilliCPU (addResource r rl) =
    match rl !! ResourceCPU with
    | Some q => wrap64 (MilliCPU r + resource.MilliValue q)
    | None => MilliCPU r
    end
  /\ Memory (addResource r rl) =
    match rl !! ResourceMemory with
    | Some q => wrap64 (Memory r + resource.Value q)
    | None => Memory r
    end.
Proof.
  unfold addResource.
  apply (map_fold_weak_ind (fun (r' : requestResource) (m : ResourceList) =>
    MilliCPU r' = match m !! ResourceCPU with
                  | Some q => wrap64 (MilliCPU r + resource.MilliValue q)
                  | None => MilliCPU r
                  end
    /\ Memory r' = match m !! ResourceMemory with
                   | Some q => wrap64 (Memory r + resource.Value q)
                   | None => Memory r
                   end)).
  - rewrite !lookup_empty. done.
  - intros i x m r' Hi [Hc Hm].
    destruct (String.eqb_spec i ResourceCPU) as [->|Hne1].
    + rewrite lookup_insert_eq, Hi in *. cbn.
      rewrite lookup_insert_ne by done. rewrite Hc. done.
    + destruct (String.eqb_spec i ResourceMemory) as [->|Hne2].
      * rewrite lookup_insert_eq, Hi in *. cbn.
        rewrite lookup_insert_ne by done. rewrite Hm. done.
      * rewrite !lookup_insert_ne by done. done.
Qed.

Lemma sumZ_cons (x : Z) (l : list Z) : sumZ (x :: l) = x + sumZ l.
Proof. reflexivity. Qed.

Lemma usedRequests_conditions (pod : Pod) (conds : list PodCondition)
    (cpu mem : Z) :
  let n := Z.of_nat (length (List.filter
      (fun c => String.eqb (pc_Type c) "Ready"
                && String.eqb (pc_Status c) "True") conds)) in
  foldl
    (fun '(requestCPU, requestMem) c =>
       if String.eqb (pc_Type c) "Ready" && String.eqb (pc_Status c) "True"
       then
         let podRes := addPodRequestResource pod in
         (wrap64 (requestCPU + MilliCPU podRes),
          wrap64 (requestMem + Memory podRes))
       else (requestCPU, requestMem))
    (wrap64 cpu, wrap64 mem) conds
  = (wrap64 (cpu + n * MilliCPU (addPodRequestResource pod)),
     wrap64 (mem + n * Memory (addPodRequestResource pod))).
Proof.
  revert cpu mem. induction conds as [|c conds IH]; intros cpu mem.
  - cbn. do 2 f_equal; lia.
  - cbn [foldl List.filter].
    destruct (String.eqb (pc_Type c) "Ready" && String.eqb (pc_Status c) "True").
    + cbn zeta. rewrite !wrap64_add_l, IH. cbn [length].
      do 2 f_equal; lia.
    + apply IH.
Qed.

(** The accumulators of [getUsedResource]: every pod adds its container
    requests as many times as it has Ready conditions with status True
    while Running, in 64-bit arithmetic. *)
Lemma usedRequests_spec (podList : PodList) :
  usedRequests podList =
    (wrap64 (sumZ (map (fun pod => readyConditions pod
                                   * MilliCPU (addPodRequestResource pod))
                       (pl_Items podList))),
     wrap64 (sumZ (map (fun pod => readyConditions pod
                                   * Memory (addPodRequestResource pod))
                       (pl_Items podList)))).
Proof.
  unfold usedRequests.
  change (0, 0) with (wrap64 0, wrap64 0).
  set (f := fun acc pod => _).
  assert (forall pods cpu mem,
    foldl f (wrap64 cpu, wrap64 mem) pods =
      (wrap64 (cpu + sumZ (map (fun pod => readyConditions pod
                              * MilliCPU (addPodRequestResource pod)) pods)),
       wrap64 (mem + sumZ (map (fun pod => readyConditions pod
                              * Memory (addPodRequestResource pod)) pods))))
    as Hgen.
  { induction pods as [|pod pods IH]; intros cpu mem.
    - cbn. do 2 f_equal; lia.
    - cbn [foldl map]. rewrite !sumZ_cons. unfold f at 2.
      pose proof (eq_refl (readyConditions pod)) as Hrc.
      unfold readyConditions at 2 in Hrc.
      destruct (String.eqb (pst_Phase (pod_Status pod)) "Running").
      + rewrite usedRequests_conditions, IH, Hrc. do 2 f_equal; ring.
      + rewrite IH, Hrc. do 2 f_equal; ring. }
  rewrite Hgen. reflexivity.
Qed.

(** C7: one Running pod that requests 500m and 128Mi and lists its Ready
    condition with status True twice is accumulated twice: the used
    resources come out as 1000m and 256Mi, while the pod's own requests are
    500m and 128Mi. *)
Theorem getUsedResource_twice_ready :
  calculateResource (samplePod "a" "Running" [podReady; podReady] 500 (128 * Mi))
    = {| MilliCPU := 500; Memory := 128 * Mi |}
  /\ getUsedResource twiceReadyPods
     = <[ResourceCPU := mQ 1000]> (<[ResourceMemory := bQ (256 * Mi)]> ∅).
Proof. split; vm_compute; reflexivity. Qed.

(** The aggregation example of the design: of three Running pods only the
    two Ready ones count, 500m/128Mi and 250m/64Mi give 750m and 192Mi. *)
Example getUsedResource_example :
  getUsedResource samplePods
  = <[ResourceCPU := mQ 750]> (<[ResourceMemory := bQ (192 * Mi)]> ∅).
Proof. vm_compute. reflexivity. Qed.

Lemma getReadyStatusForNode_nodeReady (node : Node) :
  getReadyStatusForNode (node_Status node) = true <-> nodeReady node.
Proof.
  unfold getReadyStatusForNode, nodeReady. rewrite existsb_exists.
  split.
  - intros (c & Hin & Hc). apply andb_true_iff in Hc as [Ht Hs].
    apply String.eqb_eq in Ht, Hs. exists c.
    rewrite list_elem_of_In. done.
  - intros (c & Hin & Ht & Hs). exists c. rewrite <- list_elem_of_In.
    split; [done|]. rewrite Ht, Hs. reflexivity.
Qed.

(** The counting loop of [getNodeSummary]. *)
Lemma readyNum_count (nodes : list Node) (n : Z) :
  foldl (fun readyNum node =>
           if getReadyStatusForNode (node_Status node)
           then readyNum + 1 else readyNum) n nodes
  = n + Z.of_nat (length (List.filter
          (fun node => getReadyStatusForNode (node_Status node)) nodes)).
Proof.
  revert n. induction nodes as [|node nodes IH]; intros n; cbn.
  - lia.
  - rewrite IH. destruct (getReadyStatusForNode (node_Status node)); cbn; lia.
Qed.

(** *** The arithmetic of quantities *)

Lemma pow10_split (n m : nat) :
  (m <= n)%nat ->
  10 ^ Z.of_nat n = 10 ^ Z.of_nat (n - m) * 10 ^ Z.of_nat m.
Proof.
  intros H. rewrite <- Z.pow_add_r by lia. f_equal. lia.
Qed.

Lemma wrap64_spec (z : Z) :
  exists m, wrap64 z = z + m * 2 ^ 64 /\ - 2 ^ 63 <= wrap64 z < 2 ^ 63.
Proof.
  unfold wrap64. exists (- ((z + 2 ^ 63) `div` 2 ^ 64)).
  pose proof (Z.div_mod (z + 2 ^ 63) (2 ^ 64) ltac:(lia)).
  pose proof (Z.mod_pos_bound (z + 2 ^ 63) (2 ^ 64) ltac:(lia)).
  lia.
Qed.

(** A product that [int64MultiplyScale] reports as exact is the exact
    product. *)
Lemma int64MultiplyScale_exact (a b c : Z) :
  1 < b < 2 ^ 64 ->
  resource.int64MultiplyScale a b = (c, true) -> c = a * b.
Proof.
  intros Hb. unfold resource.int64MultiplyScale.
  destruct ((a =? 0) || (a =? 1)); [intros [= <-]; done|].
  destruct (a =? resource.mostNegative); [discriminate|].
  cbn zeta. intros [= <- Hq]. apply Z.eqb_eq in Hq.
  destruct (wrap64_spec (a * b)) as (m & Hm & _).
  pose proof (Z.quot_rem' (wrap64 (a * b)) b) as Hqr.
  pose proof (Z.rem_bound_abs (wrap64 (a * b)) b ltac:(lia)) as Hr.
  rewrite Hq in Hqr.
  assert (m = 0) as -> by nia. lia.
Qed.

Lemma scaleByTens_exact (n : nat) (value c : Z) :
  resource.scaleByTens n value = (c, true) -> c = value * 10 ^ Z.of_nat n.
Proof.
  revert value. induction n as [|n IH]; intros value; cbn [resource.scaleByTens].
  - intros [= <-]. cbn. lia.
  - destruct (resource.int64MultiplyScale value 10) as [v ok] eqn:Hv.
    destruct ok; [|discriminate].
    apply int64MultiplyScale_exact in Hv; [|lia].
    intros H. apply IH in H. subst.
    rewrite Nat2Z.inj_succ, Z.pow_succ_r by lia. lia.
Qed.

Lemma positiveScaleInt64_exact (base c : Z) (scale : nat) :
  resource.positiveScaleInt64 base scale = (c, true) ->
  c = base * 10 ^ Z.of_nat scale.
Proof.
  unfold resource.positiveScaleInt64.
  destruct scale as [|[|[|[|[|[|[|[|[|[|scale]]]]]]]]]];
    try (intros [= <-]; cbn; lia);
    try (intros H; apply int64MultiplyScale_exact in H; [subst; reflexivity|lia]);
    apply scaleByTens_exact.
Qed.

Lemma int64Add_exact (a b c : Z) :
  resource.int64Add a b = (c, true) -> c = a + b.
Proof.
  unfold resource.int64Add. destruct (resource.fitsInt64 (a + b)); congruence.
Qed.

Lemma int64AmountAdd_held (a b : Z * nat) (v : Z) (shift : nat) :
  resource.int64AmountAdd a b = Some (v, shift) ->
  resource.held (resource.Int64Amount v shift)
  = resource.held (resource.Int64Amount (fst a) (snd a))
    + resource.held (resource.Int64Amount (fst b) (snd b)).
Proof.
  destruct a as [av ashift], b as [bv bshift].
  unfold resource.int64AmountAdd. cbn [resource.held fst snd].
  destruct (bv =? 0) eqn:Hb; [apply Z.eqb_eq in Hb; intros [= <- <-]; lia|].
  destruct (av =? 0) eqn:Ha; [apply Z.eqb_eq in Ha; intros [= <- <-]; lia|].
  destruct (ashift =? bshift)%nat eqn:He.
  { apply Nat.eqb_eq in He. subst bshift.
    destruct (resource.int64Add av bv) as [c ok] eqn:Hc.
    destruct ok; [|discriminate]. apply int64Add_exact in Hc.
    intros [= <- <-]. lia. }
  destruct (bshift <? ashift)%nat eqn:Hlt.
  - apply Nat.ltb_lt in Hlt.
    destruct (resource.positiveScaleInt64 av (ashift - bshift)) as [c ok] eqn:Hc.
    destruct ok; [|discriminate]. apply positiveScaleInt64_exact in Hc.
    destruct (resource.int64Add c bv) as [c' ok] eqn:Hc'.
    destruct ok; [|discriminate]. apply int64Add_exact in Hc'.
    intros [= <- <-]. rewrite (pow10_split ashift bshift) by lia. lia.
  - apply Nat.ltb_ge in Hlt. apply Nat.eqb_neq in He.
    destruct (resource.positiveScaleInt64 bv (bshift - ashift)) as [c ok] eqn:Hc.
    destruct ok; [|discriminate]. apply positiveScaleInt64_exact in Hc.
    destruct (resource.int64Add av c) as [c' ok] eqn:Hc'.
    destruct ok; [|discriminate]. apply int64Add_exact in Hc'.
    intros [= <- <-]. rewrite (pow10_split bshift ashift) by lia. lia.
Qed.

Lemma decAdd_held (x y : Z * nat) :
  resource.held (resource.decAdd x y)
  = fst x * 10 ^ Z.of_nat (snd x) + fst y * 10 ^ Z.of_nat (snd y).
Proof.
  unfold resource.decAdd. cbn [resource.held].
  rewrite (pow10_split (snd x) (Nat.min (snd x) (snd y))) by lia.
  rewrite (pow10_split (snd y) (Nat.min (snd x) (snd y))) by lia.
  lia.
Qed.

(** [Add] is exact, in either way of holding the operands and the sum. *)
Lemma nano_Add (q y : resource.Quantity) :
  resource.nano (resource.Add q y) = resource.nano q + resource.nano y.
Proof.
  unfold resource.Add, resource.nano.
  destruct (resource.amount q) as [qv qs|qu qs] eqn:Hq,
           (resource.amount y) as [yv ys|yu ys] eqn:Hy;
    cbn [resource.amount];
    try (rewrite decAdd_held; unfold resource.AsDec; rewrite Hq, Hy;
         reflexivity).
  destruct (resource.int64AmountAdd (qv, qs) (yv, ys)) as [[v shift]|] eqn:Ha;
    cbn [resource.amount].
  - apply int64AmountAdd_held in Ha. exact Ha.
  - rewrite decAdd_held. unfold resource.AsDec. rewrite Hq, Hy. reflexivity.
Qed.

(** A zero receiver takes over the format of what is added, any other
    receiver keeps its own. *)
Lemma format_Add (q y : resource.Quantity) :
  resource.format (resource.Add q y)
  = if resource.nano q =? 0 then resource.format y else resource.format q.
Proof.
  assert (forall v (s : nat), (v * 10 ^ Z.of_nat s =? 0) = (v =? 0)) as Hz.
  { intros v s. assert (0 < 10 ^ Z.of_nat s) by (apply Z.pow_pos_nonneg; lia).
    destruct (Z.eqb_spec v 0) as [->|Hv]; [apply Z.eqb_eq; lia|].
    apply Z.eqb_neq. nia. }
  unfold resource.Add, resource.nano, resource.IsZero.
  destruct (resource.amount q) as [qv qs|qu qs],
           (resource.amount y) as [yv ys|yu ys];
    cbn [resource.held resource.format]; rewrite ?Hz; try reflexivity.
  destruct (resource.int64AmountAdd (qv, qs) (yv, ys)) as [[v shift]|];
    reflexivity.
Qed.

Lemma wrap64_inInt64 (z : Z) : inInt64 (wrap64 z).
Proof. destruct (wrap64_spec z) as (m & _ & H). exact H. Qed.

Lemma int64MultiplyScale_int64 (a b : Z) :
  inInt64 a -> 0 <= b <= 10 ^ 9 ->
  inInt64 (fst (resource.int64MultiplyScale a b)).
Proof.
  intros Ha Hb. unfold resource.int64MultiplyScale, inInt64 in *.
  destruct (Z.eqb_spec a 0) as [->|H0]; [cbn; lia|].
  destruct (Z.eqb_spec a 1) as [->|H1]; [cbn; lia|].
  cbn [orb]. destruct (a =? resource.mostNegative); [cbn; lia|].
  apply wrap64_inInt64.
Qed.

Lemma scaleByTens_int64 (n : nat) (value : Z) :
  inInt64 value -> inInt64 (fst (resource.scaleByTens n value)).
Proof.
  revert value. induction n as [|n IH]; intros value Hv; [exact Hv|].
  cbn [resource.scaleByTens].
  pose proof (int64MultiplyScale_int64 value 10 Hv ltac:(lia)) as H.
  destruct (resource.int64MultiplyScale value 10) as [v ok]. cbn [fst] in H.
  destruct ok; [now apply IH|]. cbn. unfold inInt64. lia.
Qed.

Lemma positiveScaleInt64_int64 (base : Z) (scale : nat) :
  inInt64 base -> inInt64 (fst (resource.positiveScaleInt64 base scale)).
Proof.
  intros Hb. unfold resource.positiveScaleInt64.
  destruct scale as [|[|[|[|[|[|[|[|[|[|scale]]]]]]]]]];
    try exact Hb;
    try (apply int64MultiplyScale_int64; [exact Hb|lia]);
    now apply scaleByTens_int64.
Qed.

Lemma dropDigits_int64 (n : nat) (base value : Z) (fraction : bool) :
  (if fraction then - 2 ^ 62 < value < 2 ^ 62 else inInt64 value) ->
  inInt64 (resource.dropDigits n base value fraction).
Proof.
  revert value fraction. induction n as [|n IH]; intros value fraction Hv;
    cbn [resource.dropDigits].
  - unfold inInt64 in *. destruct fraction; [|exact Hv].
    destruct (0 <? base); lia.
  - assert (- 2 ^ 62 < value `quot` 10 < 2 ^ 62) as Hq.
    { assert (- 2 ^ 63 <= value < 2 ^ 63)
        by (unfold inInt64 in Hv; destruct fraction; lia).
      clear Hv IH. Z.quot_rem_to_equations. lia. }
    destruct (value `quot` 10 =? 0).
    + unfold inInt64. destruct (fraction || _); [destruct (0 <? base)|]; lia.
    + apply IH. unfold inInt64. destruct (fraction || _); lia.
Qed.

Lemma negativeScaleInt64_int64 (base : Z) (scale : nat) :
  inInt64 base -> inInt64 (resource.negativeScaleInt64 base scale).
Proof.
  intros Hb. unfold resource.negativeScaleInt64.
  destruct scale; [exact Hb|]. now apply dropDigits_int64.
Qed.

Lemma bigInt64_int64 (x : Z) : inInt64 (resource.bigInt64 x).
Proof.
  unfold resource.bigInt64. cbn zeta.
  destruct (x <? 0); apply wrap64_inInt64.
Qed.

Lemma scaledValue_int64 (unscaled : Z) (shift scale : nat) :
  inInt64 (resource.scaledValue unscaled shift scale).
Proof.
  unfold resource.scaledValue. cbn zeta.
  destruct (_ =? 0); [apply bigInt64_int64|].
  destruct (Z.ltb_spec (Z.of_nat scale - Z.of_nat shift) 0);
    [apply wrap64_inInt64|].
  destruct ((unscaled <? resource.maxInt64) && _) eqn:Hfast.
  - destruct (_ =? 0); [|apply wrap64_inInt64].
    apply andb_true_iff in Hfast as [_ Hd]. apply Z.ltb_lt in Hd.
    unfold resource.pow10Int64.
    destruct (Z.leb_spec (Z.of_nat scale - Z.of_nat shift) 18); [|lia].
    pose proof (bigInt64_int64 unscaled) as Hx. unfold inInt64 in *.
    assert (0 < 10 ^ (Z.of_nat scale - Z.of_nat shift))
      by (apply Z.pow_pos_nonneg; lia).
    revert Hx H1. generalize (resource.bigInt64 unscaled) as x.
    generalize (10 ^ (Z.of_nat scale - Z.of_nat shift)) as d.
    intros d x Hx Hd'. Z.quot_rem_to_equations. nia.
  - destruct (_ =? 0); [apply bigInt64_int64|apply wrap64_inInt64].
Qed.

(** [MilliValue] and [Value] are [int64] readings, in either way of
    holding the quantity. *)
Lemma ScaledValue_int64 (q : resource.Quantity) (scale : nat) :
  match resource.amount q with
  | resource.Int64Amount value _ => inInt64 value
  | resource.InfDec _ _ => True
  end ->
  inInt64 (resource.ScaledValue q scale).
Proof.
  unfold resource.ScaledValue.
  destruct (resource.amount q) as [value shift|unscaled shift]; intros Hv.
  - unfold resource.AsScaledInt64. destruct (_ <? _)%nat.
    + now apply negativeScaleInt64_int64.
    + now apply positiveScaleInt64_int64.
  - apply scaledValue_int64.
Qed.

(** One node's allocatable map folded into the running total, entry by
    entry. *)
Lemma addAllocatable_lookup (allocatable val : ResourceList) (key : string) :
  addAllocatable allocatable val !! key =
    match val !! key with
    | Some v => Some (match allocatable !! key with
                      | Some tmpCap => resource.Add tmpCap v
                      | None => v
                      end)
    | None => allocatable !! key
    end.
Proof.
  unfold addAllocatable. revert key.
  apply (map_fold_weak_ind (fun (r : ResourceList) (m : ResourceList) =>
    forall key, r !! key =
      match m !! key with
      | Some v => Some (match allocatable !! key with
                        | Some tmpCap => resource.Add tmpCap v
                        | None => v
                        end)
      | None => allocatable !! key
      end)).
  - intros key. rewrite lookup_empty. done.
  - intros i x m r Hi IH key. cbn zeta.
    destruct (decide (i = key)) as [->|Hne].
    + rewrite !lookup_insert_eq. rewrite (IH key), Hi. done.
    + rewrite !lookup_insert_ne by done. apply IH.
Qed.

(** Under every resource name the total holds the sum of what the nodes
    report under it, and it has an entry exactly when some node has. *)
Lemma getClusterAllocatable_lookup (nodes : list Node) (acc : ResourceList)
    (key : string) :
  let total :=
    foldl (fun allocatable node =>
             addAllocatable allocatable (ns_Allocatable (node_Status node)))
          acc nodes in
  (total !! key = None <->
     acc !! key = None
     /\ Forall (fun node => ns_Allocatable (node_Status node) !! key = None)
               nodes)
  /\ from_option resource.nano 0 (total !! key)
     = from_option resource.nano 0 (acc !! key)
       + sumZ (map (allocatableOf key) nodes).
Proof.
  revert acc. induction nodes as [|node nodes IH]; intros acc; cbn zeta.
  - cbn. split; [|lia]. split; [intros H; split; [done|constructor]|tauto].
  - cbn [foldl map]. rewrite sumZ_cons.
    destruct (IH (addAllocatable acc (ns_Allocatable (node_Status node))))
      as [IHn IHs].
    rewrite IHn, IHs, addAllocatable_lookup. clear IHn IHs.
    pose proof (eq_refl (allocatableOf key node)) as Ha.
    unfold allocatableOf at 2 in Ha.
    destruct (ns_Allocatable (node_Status node) !! key) as [v|] eqn:Hv.
    + split.
      * split; [intros [? _]; done|].
        intros [_ Hall]. inversion Hall; congruence.
      * rewrite Ha. destruct (acc !! key); cbn; rewrite ?nano_Add; lia.
    + split.
      * rewrite Forall_cons. tauto.
      * lia.
Qed.

(** C8: when both list calls succeed, the summary has the number of nodes
    as totalNum, the number of ready nodes as readyNum (a node is ready
    exactly when it has a condition of type Ready with status True), and
    under every resource name the sum of the nodes' allocatable
    quantities, with an entry exactly when some node reports one. *)
Theorem getNodeSummary_counts (k : ClusterClient) (w : World)
    (nodeList : NodeList) (podList : PodList) :
  let w1 := {| now := now w; trace := trace w ++ [ListNodes];
               store := store w |} in
  answerListNodes k w = Ok nodeList ->
  answerListPods k w1 = Ok podList ->
  exists summary w',
    getNodeSummary k w = (Ok summary, w')
    /\ TotalNum summary = Z.of_nat (length (nl_Items nodeList))
    /\ ReadyNum summary
       = Z.of_nat (length (List.filter
           (fun node => getReadyStatusForNode (node_Status node))
           (nl_Items nodeList)))
    /\ (forall node, getReadyStatusForNode (node_Status node) = true
                     <-> nodeReady node)
    /\ forall name,
         (Allocatable summary !! name = None <->
            Forall (fun node => ns_Allocatable (node_Status node) !! name = None)
                   (nl_Items nodeList))
         /\ from_option resource.nano 0 (Allocatable summary !! name)
            = sumZ (map (allocatableOf name) (nl_Items nodeList)).
Proof.
  intros w1 Hnodes Hpods.
  unfold getNodeSummary, bind, getWorld, record, ret. rewrite Hnodes.
  fold w1. rewrite Hpods.
  eexists _, _. split; [reflexivity|]. cbn [TotalNum ReadyNum Allocatable].
  split; [reflexivity|]. split; [apply readyNum_count|].
  split; [apply getReadyStatusForNode_nodeReady|].
  intros name. unfold getClusterAllocatable.
  destruct (getClusterAllocatable_lookup (nl_Items nodeList) ∅ name)
    as [Hnone Hsum].
  rewrite lookup_empty in Hnone, Hsum. cbn in Hsum.
  split; [rewrite Hnone; tauto | exact Hsum].
Qed.

Lemma getNodeSummary_counts_witness :
  exists summary w',
    getNodeSummary (sampleClient (rest.Response 200) (rest.Response 200))
                   (sampleWorld (sampleCluster [] readyStatus))
      = (Ok summary, w')
    /\ TotalNum summary = 2 /\ ReadyNum summary = 1
    /\ from_option resource.nano 0 (Allocatable summary !! "cpu")
       = 6000 * 10 ^ 6.
Proof.
  destruct (getNodeSummary_counts
              (sampleClient (rest.Response 200) (rest.Response 200))
              (sampleWorld (sampleCluster [] readyStatus))
              sampleNodes samplePods eq_refl eq_refl)
    as (summary & w' & Hrun & Htot & Hready & _ & Halloc).
  exists summary, w'. split; [exact Hrun|].
  split; [exact Htot|]. split; [exact Hready|].
  destruct (Halloc "cpu") as [_ ->]. reflexivity.
Defined.

(** ** Condition synthesizer and transition tracker *)

Lemma generateReadyCondition_run (online healthy : bool) (w : World) :
  generateReadyCondition online healthy w
  = ([template online healthy (now w)], w).
Proof. destruct online, healthy; reflexivity. Qed.

Lemma IsClusterReady_template (s : ClusterStatus) (online healthy : bool)
    (t : metav1.Time) :
  cs_Conditions s = [template online healthy t] ->
  util.IsClusterReady s = online && healthy.
Proof.
  unfold util.IsClusterReady. intros ->.
  destruct online, healthy; reflexivity.
Qed.

Lemma IsClusterReady_conditions (s s' : ClusterStatus) :
  cs_Conditions s = cs_Conditions s' ->
  util.IsClusterReady s = util.IsClusterReady s'.
Proof. unfold util.IsClusterReady. now intros ->. Qed.

Lemma setLastTransitionTime_template (online healthy : bool)
    (t t' : metav1.Time) :
  metav1.setLastTransitionTime t' (template online healthy t)
  = template online healthy t'.
Proof. destruct online, healthy; reflexivity. Qed.

(** The tracker on a freshly generated condition: the old first
    condition's time when the classification is unchanged and there is an
    old condition, the fresh time otherwise. *)
Lemma setTransitionTime_template (old : ClusterStatus)
    (online healthy : bool) (t : metav1.Time) :
  cs_Conditions
    (setTransitionTime old
       (withConditions zeroClusterStatus [template online healthy t]))
  = [template online healthy
       (match cs_Conditions old with
        | old0 :: _ =>
            if Bool.eqb (util.IsClusterReady old) (online && healthy)
            then metav1.LastTransitionTime old0 else t
        | [] => t
        end)].
Proof.
  unfold setTransitionTime.
  rewrite (IsClusterReady_template
             (withConditions zeroClusterStatus [template online healthy t])
             online healthy t) by reflexivity.
  destruct (Bool.eqb _ _); destruct (cs_Conditions old); cbn;
    try reflexivity.
  now rewrite setLastTransitionTime_template.
Qed.

Lemma setTransitionTime_rest (old new : ClusterStatus) :
  cs_KubernetesVersion (setTransitionTime old new) = cs_KubernetesVersion new
  /\ cs_APIEnablements (setTransitionTime old new) = cs_APIEnablements new
  /\ cs_NodeSummary (setTransitionTime old new) = cs_NodeSummary new
  /\ length (cs_Conditions (setTransitionTime old new))
     = length (cs_Conditions new).
Proof.
  unfold setTransitionTime.
  destruct (Bool.eqb _ _); destruct (cs_Conditions old); cbn;
    rewrite ?length_map; done.
Qed.

(** ** Conditional write *)

Lemma quantitiesEqual_refl (a : ResourceList) : quantitiesEqual a a = true.
Proof. unfold quantitiesEqual. now apply bool_decide_eq_true. Qed.

Lemma DeepEqual_refl (s : ClusterStatus) : DeepEqual s s = true.
Proof.
  unfold DeepEqual. rewrite !quantitiesEqual_refl, !Z.eqb_refl.
  rewrite !bool_decide_eq_true_2 by reflexivity. reflexivity.
Qed.

Lemma DeepEqual_conditions (a b : ClusterStatus) :
  DeepEqual a b = true -> cs_Conditions a = cs_Conditions b.
Proof.
  unfold DeepEqual. rewrite !andb_true_iff.
  intros [[[[[[_ _] H] _] _] _] _]. now apply bool_decide_eq_true in H.
Qed.

Lemma updateStatusIfNeeded_equal (c : ClusterStatusController)
    (cluster : Cluster) (current : ClusterStatus) (w : World) :
  DeepEqual (cl_Status cluster) current = true ->
  updateStatusIfNeeded c cluster current w = (requeueAfterFrequency c, w).
Proof. unfold updateStatusIfNeeded. now intros ->. Qed.

(** A candidate that differs is handed to the status update exactly once;
    the store changes only if the update succeeds, and then it holds the
    candidate. *)
Lemma updateStatusIfNeeded_differ (c : ClusterStatusController)
    (cluster : Cluster) (current : ClusterStatus) (w : World) :
  DeepEqual (cl_Status cluster) current = false ->
  let cluster' := withStatus cluster current in
  let w1 := {| now := now w;
               trace := trace w ++ [UpdateClusterStatus cluster'];
               store := store w |} in
  updateStatusIfNeeded c cluster current w =
    match failUpdate c cluster' w with
    | Some err => (({| Requeue := true; RequeueAfter := 0 |}, Some err), w1)
    | None =>
        match store w !! cl_Name cluster with
        | None =>
            (({| Requeue := true; RequeueAfter := 0 |},
              Some (StatusError http.StatusNotFound)), w1)
        | Some stored =>
            (requeueAfterFrequency c,
             {| now := now w;
                trace := trace w ++ [UpdateClusterStatus cluster'];
                store := <[cl_Name cluster := withStatus stored current]>
                           (store w) |})
        end
    end.
Proof.
  intros Hne cluster' w1. unfold updateStatusIfNeeded. rewrite Hne.
  cbn [negb]. unfold bind, ClientStatusUpdate, getWorld, record, ret.
  fold cluster'. cbn.
  destruct (failUpdate c cluster' w); [reflexivity|].
  destruct (store w !! cl_Name cluster); reflexivity.
Qed.

(** ** The pipeline *)

Lemma syncClusterStatus_synthesize (c : ClusterStatusController)
    (cluster : Cluster) (w : World) :
  syncClusterStatus c cluster w =
    let '(r, w1) := synthesize c cluster w in
    match r with
    | Err err => (({| Requeue := true; RequeueAfter := 0 |}, Some err), w1)
    | Ok current => updateStatusIfNeeded c cluster current w1
    end.
Proof.
  unfold syncClusterStatus, synthesize, bind, getWorld, record, ret.
  destruct (ClusterClientSetFunc c cluster w) as [k|err]; [|reflexivity].
  destruct (getClusterHealthStatus k _) as [[online healthy] w1].
  destruct (if negb online then _ else _) as [[[online' healthy'] err] w2].
  destruct err as [err|].
  - rewrite generateReadyCondition_run. reflexivity.
  - destruct (getKubernetesVersion k w2) as [[v|err] w3]; [|reflexivity].
    destruct (getAPIEnablements k w3) as [[a|err] w4]; [|reflexivity].
    destruct (getNodeSummary k w4) as [[n|err] w5]; [|reflexivity].
    rewrite generateReadyCondition_run. reflexivity.
Qed.


Lemma quietly_trans (P : Call -> bool) (w w1 w2 : World) :
  quietly P w w1 -> quietly P w1 w2 -> quietly P w w2.
Proof.
  intros (Hs & Hn & l & Ht & Hl) (Hs' & Hn' & l' & Ht' & Hl').
  repeat split; [congruence | lia |].
  exists (l ++ l')%list. rewrite Ht', Ht, app_assoc.
  split; [done | now apply Forall_app].
Qed.

Lemma quietly_weaken (P Q : Call -> bool) (w w1 : World) :
  (forall call, P call = true -> Q call = true) ->
  quietly P w w1 -> quietly Q w w1.
Proof.
  intros HPQ (Hs & Hn & l & Ht & Hl). repeat split; [done..|].
  exists l. split; [done|]. eapply Forall_impl; [exact Hl|]. exact HPQ.
Qed.

Lemma quietly_called (P : Call -> bool) (calls : list Call) (w : World) :
  Forall (fun call => P call = true) calls -> quietly P w (called calls w).
Proof. intros H. repeat split; cbn; [lia|]. now exists calls. Qed.

Lemma probing_noWrite (call : Call) : probing call = true -> noWrite call = true.
Proof. now destruct call. Qed.

Lemma getClusterHealthStatus_quiet (k : ClusterClient) (w : World) :
  quietly probing w (snd (getClusterHealthStatus k w)).
Proof.
  pose proof (getClusterHealthStatus_run k w) as Hrun. cbn zeta in Hrun.
  rewrite Hrun. destruct (_ && _); cbn [snd].
  - rewrite <- app_assoc.
    apply (quietly_called probing
             [ProbeEndpoint "/readyz"; ProbeEndpoint "/healthz"]).
    repeat constructor.
  - apply (quietly_called probing [ProbeEndpoint "/readyz"]).
    repeat constructor.
Qed.

Lemma retryCondition_run (k : ClusterClient) (v : bool * bool) (w : World) :
  retryCondition k v w =
    ((fst (getClusterHealthStatus k w),
      (fst (fst (getClusterHealthStatus k w)), None)),
     snd (getClusterHealthStatus k w)).
Proof.
  unfold retryCondition, bind, ret.
  destruct (getClusterHealthStatus k w) as [[[|] healthy] w1]; reflexivity.
Qed.

(** One health check: a probe of /readyz, perhaps one of /healthz, and
    nothing else. *)
Lemma getClusterHealthStatus_calls (k : ClusterClient) (w : World) :
  exists more : list Call,
    snd (getClusterHealthStatus k w)
    = called (ProbeEndpoint "/readyz" :: more) w
    /\ (more = [] \/ more = [ProbeEndpoint "/healthz"]).
Proof.
  pose proof (getClusterHealthStatus_run k w) as Hrun. cbn zeta in Hrun.
  rewrite Hrun. destruct (_ && _); cbn [snd].
  - exists [ProbeEndpoint "/healthz"]. split; [|now right].
    unfold called. now rewrite <- app_assoc.
  - exists []. split; [|now left]. reflexivity.
Qed.

(** *** The retry poll *)

Lemma pollClosed_eq {V} (timeout : Z) (took : World -> Z)
    (condition : V -> M (V * (bool * option Error))) (e : Z) (v : V)
    (w : World) :
  pollClosed timeout took condition e v w =
    let ws := snd (await (timeout - e) w) in
    let '((v1, (done, err)), w1) := condition v ws in
    let w2 := snd (elapse (Z.max 0 (took w1)) w1) in
    match err with
    | Some e' => ((v1, Some e'), w2)
    | None => if done then ((v1, None), w2)
              else ((v1, Some ErrWaitTimeout), w2)
    end.
Proof.
  unfold pollClosed, bind, getWorld, ret.
  destruct (await (timeout - e) w) as [[] ws]. cbn [snd].
  destruct (condition v ws) as [[v1 [done [e'|]]] w1]; cbn;
    [|destruct done]; reflexivity.
Qed.

Lemma pollLoop_S {V} (n : nat) (interval timeout : Z) (took : World -> Z)
    (condition : V -> M (V * (bool * option Error))) (e : Z) (v : V)
    (w : World) :
  pollLoop (S n) interval timeout took condition e v w =
    let next := (e `div` interval + 1) * interval in
    if next <=? timeout then
      let ws := snd (sleep (next - e) w) in
      let '((v1, (done, err)), w1) := condition v ws in
      let d := Z.max 0 (took w1) in
      let w2 := snd (elapse d w1) in
      match err with
      | Some e' => ((v1, Some e'), w2)
      | None => if done then ((v1, None), w2)
                else pollLoop n interval timeout took condition (next + d) v1 w2
      end
    else pollClosed timeout took condition e v w.
Proof.
  cbn [pollLoop]. cbn zeta.
  destruct ((e `div` interval + 1) * interval <=? timeout); [|reflexivity].
  unfold bind, getWorld, ret. cbn [sleep snd].
  destruct (condition v _) as [[v1 [done [e'|]]] w1]; cbn;
    [|destruct done]; reflexivity.
Qed.

(** The tick after [e]: later than [e], by at most one interval. *)
Lemma next_tick (interval e : Z) :
  0 < interval ->
  let next := (e `div` interval + 1) * interval in
  e < next <= e + interval /\ next `div` interval = e `div` interval + 1.
Proof.
  intros Hi next. subst next.
  pose proof (Z.div_mod e interval ltac:(lia)).
  pose proof (Z.mod_pos_bound e interval Hi).
  split; [nia|]. now apply Z.div_mul; lia.
Qed.

Lemma sleeps_app (l1 l2 : list Call) :
  sleeps (l1 ++ l2) = (sleeps l1 ++ sleeps l2)%list.
Proof. unfold sleeps. apply omap_app. Qed.

Lemma sumZ_app (l1 l2 : list Z) : sumZ (l1 ++ l2) = sumZ l1 + sumZ l2.
Proof. unfold sumZ. induction l1 as [|x l1 IH]; cbn; lia. Qed.

Lemma healthChecks_app (l1 l2 : list Call) :
  healthChecks (l1 ++ l2) = (healthChecks l1 + healthChecks l2)%nat.
Proof. unfold healthChecks. now rewrite List.filter_app, length_app. Qed.

(** One run of the retry condition, with the time it takes: one health
    check on the member cluster. *)
Lemma retryCondition_calls (k : ClusterClient) (took : World -> Z)
    (ws : World) :
  let w1 := snd (getClusterHealthStatus k ws) in
  let w2 := snd (elapse (Z.max 0 (took w1)) w1) in
  store w2 = store ws /\ now w2 = now ws + Z.max 0 (took w1)
  /\ exists more : list Call,
       trace w2 = (trace ws ++ ProbeEndpoint "/readyz" :: more)%list
       /\ Forall (fun call => probing call = true)
                 (ProbeEndpoint "/readyz" :: more)
       /\ sleeps (ProbeEndpoint "/readyz" :: more) = []
       /\ healthChecks (ProbeEndpoint "/readyz" :: more) = 1%nat.
Proof.
  intros w1 w2. subst w1 w2.
  destruct (getClusterHealthStatus_calls k ws) as (more & -> & Hmore).
  cbn. repeat split. exists more.
  destruct Hmore as [-> | ->]; repeat split; repeat constructor.
Qed.

(** What a retry poll leaves behind, whatever the member cluster answers
    and however long it takes to answer: only probes and sleeps, no sleep
    longer than the interval, [budget] slept at most in total, at most
    [runs] health checks of which the last decides. *)
Lemma retried_mono (k : ClusterClient) (took : World -> Z) (interval : Z)
    (budget : Z) (runs runs' : nat) (w : World)
    (r : (bool * bool) * option Error * World) :
  (runs <= runs')%nat ->
  retried k took interval budget runs w r ->
  retried k took interval budget runs' w r.
Proof.
  intros Hr. destruct r as [[v' err] w']. unfold retried.
  intros (last & calls & pre & H1 & H2 & H3 & H4 & H5 & H6 & H7 & H8).
  exists last, calls, pre. repeat split; try tauto; lia.
Qed.

Lemma pollClosed_retried (k : ClusterClient) (interval timeout : Z)
    (took : World -> Z) (e : Z) (v : bool * bool) (w : World) :
  0 < interval ->
  timeout < (e `div` interval + 1) * interval ->
  retried k took interval (Z.max 0 (timeout - e)) 1 w
    (pollClosed timeout took (retryCondition k) e v w).
Proof.
  intros Hi Hnext. rewrite pollClosed_eq. cbn zeta.
  pose proof (next_tick interval e Hi) as [Hn _]. cbn zeta in Hn.
  set (ws := snd (await (timeout - e) w)).
  assert (store ws = store w /\ now w + Z.max 0 (timeout - e) = now ws
          /\ exists sl, trace ws = (trace w ++ sl)%list
               /\ Forall (fun call => probing call = true) sl
               /\ Forall (fun d => 0 < d <= interval) (sleeps sl)
               /\ sumZ (sleeps sl) <= Z.max 0 (timeout - e)
               /\ healthChecks sl = 0%nat)
    as (Hs & Hnow & sl & Ht & Hp & Hd & Hsum & Hh).
  { subst ws. unfold await.
    destruct (Z.ltb_spec 0 (timeout - e)); cbn.
    - repeat split; [lia|]. exists [Sleep (timeout - e)].
      repeat split; repeat constructor; cbn; lia.
    - repeat split; [lia|]. exists []. rewrite app_nil_r.
      repeat split; try constructor. cbn. lia. }
  assert (now w <= now ws) as Hnow' by lia.
  rewrite retryCondition_run.
  destruct (retryCondition_calls k took ws)
    as (Hs2 & Hnow2 & more & Ht2 & Hp2 & Hsl2 & Hh2).
  cbn zeta in Hs2, Hnow2, Ht2.
  set (w2 := snd (elapse _ (snd (getClusterHealthStatus k ws)))) in *.
  assert (retried k took interval (Z.max 0 (timeout - e)) 1 w
            ((fst (getClusterHealthStatus k ws),
              if fst (fst (getClusterHealthStatus k ws)) then None
              else Some ErrWaitTimeout), w2)) as Hret.
  { unfold retried.
    exists ws, (sl ++ ProbeEndpoint "/readyz" :: more)%list, sl.
    repeat split.
    - congruence.
    - lia.
    - rewrite Ht2, Ht. now rewrite <- app_assoc.
    - now apply Forall_app.
    - rewrite sleeps_app, Hsl2, app_nil_r. exact Hd.
    - rewrite sleeps_app, Hsl2, app_nil_r. exact Hsum.
    - rewrite healthChecks_app, Hh, Hh2. lia.
    - rewrite healthChecks_app, Hh, Hh2. lia.
    - exact Hs.
    - exact Ht.
    - exact Hnow'.
    - destruct (fst (fst (getClusterHealthStatus k ws))); [left|right];
        now split.
    - intros _. lia. }
  destruct (fst (fst (getClusterHealthStatus k ws))); exact Hret.
Qed.

Lemma pollLoop_retried (k : ClusterClient) (interval timeout : Z)
    (took : World -> Z) (ticks : nat) (e : Z) (v : bool * bool) (w : World) :
  0 < interval ->
  timeout `div` interval - e `div` interval <= Z.of_nat ticks ->
  retried k took interval (Z.max 0 (timeout - e)) (S ticks) w
    (pollLoop ticks interval timeout took (retryCondition k) e v w).
Proof.
  intros Hi. revert e v w. induction ticks as [|n IH]; intros e v w Hfuel.
  - cbn [pollLoop]. apply pollClosed_retried; [done|].
    pose proof (Z.div_mod timeout interval ltac:(lia)).
    pose proof (Z.mod_pos_bound timeout interval Hi). nia.
  - rewrite pollLoop_S. cbn zeta.
    pose proof (next_tick interval e Hi) as [Hn Hdiv]. cbn zeta in Hn, Hdiv.
    set (next := (e `div` interval + 1) * interval) in *.
    destruct (Z.leb_spec next timeout) as [Hle|Hgt].
    2:{ eapply retried_mono; [|apply pollClosed_retried; done]. lia. }
    set (ws := snd (sleep (next - e) w)).
    assert (now ws = now w + (next - e) /\ store ws = store w
            /\ trace ws = (trace w ++ [Sleep (next - e)])%list)
      as (Hwn & Hws & Hwt) by done.
    rewrite retryCondition_run.
    destruct (retryCondition_calls k took ws)
      as (Hs2 & Hnow2 & more & Ht2 & Hp2 & Hsl2 & Hh2).
    cbn zeta in Hs2, Hnow2, Ht2.
    set (d := Z.max 0 (took (snd (getClusterHealthStatus k ws)))) in *.
    set (w2 := snd (elapse d (snd (getClusterHealthStatus k ws)))) in *.
    rewrite Hws in Hs2. rewrite Hwt, <- app_assoc in Ht2.
    change ([Sleep (next - e)] ++ ProbeEndpoint "/readyz" :: more)%list
      with (Sleep (next - e) :: ProbeEndpoint "/readyz" :: more) in Ht2.
    assert (sleeps (Sleep (next - e) :: ProbeEndpoint "/readyz" :: more)
            = [next - e]) as Hsl
      by (change (next - e :: sleeps (ProbeEndpoint "/readyz" :: more)
                  = [next - e]); now rewrite Hsl2).
    assert (healthChecks (Sleep (next - e) :: ProbeEndpoint "/readyz" :: more)
            = 1%nat) as Hh by exact Hh2.
    assert (Forall (fun call => probing call = true)
              (Sleep (next - e) :: ProbeEndpoint "/readyz" :: more)) as Hp
      by (constructor; [done|exact Hp2]).
    destruct (fst (fst (getClusterHealthStatus k ws))) eqn:Honline.
    + unfold retried.
      exists ws, (Sleep (next - e) :: ProbeEndpoint "/readyz" :: more),
        [Sleep (next - e)].
      split; [exact Hs2|]. split; [lia|]. split; [exact Ht2|].
      split; [exact Hp|]. rewrite Hsl, Hh.
      split; [repeat constructor; lia|]. split; [cbn; lia|].
      split; [lia|]. split; [exact Hws|]. split; [exact Hwt|].
      split; [lia|]. split; [reflexivity|]. split; [reflexivity|].
      split; [left; now split|discriminate].
    + assert (timeout `div` interval - (next + d) `div` interval
              <= Z.of_nat n) as Hfuel'.
      { assert (next `div` interval <= (next + d) `div` interval)
          by (apply Z.div_le_mono; lia).
        lia. }
      specialize (IH (next + d) (fst (getClusterHealthStatus k ws)) w2 Hfuel').
      destruct (pollLoop n interval timeout took (retryCondition k)
                  (next + d) (fst (getClusterHealthStatus k ws)) w2)
        as [[v' err] w'].
      unfold retried in IH |- *.
      destruct IH as (last & calls & pre & H1 & H2 & H3 & H4 & H5 & H6
                      & [H7 H7'] & H8 & H9 & H10 & H11 & H12 & H13 & H14).
      exists last,
        ((Sleep (next - e) :: ProbeEndpoint "/readyz" :: more) ++ calls)%list,
        ((Sleep (next - e) :: ProbeEndpoint "/readyz" :: more) ++ pre)%list.
      split; [congruence|]. split; [lia|].
      split; [rewrite H3, Ht2; now rewrite <- app_assoc|].
      split; [now apply Forall_app|].
      rewrite sleeps_app, healthChecks_app, Hsl, Hh.
      split; [constructor; [lia|exact H5]|].
      split; [cbn [app sumZ foldr]; fold (sumZ (sleeps calls)); subst d; lia|].
      split; [lia|]. split; [congruence|].
      split; [rewrite H9, Ht2; now rewrite <- app_assoc|].
      split; [lia|]. split; [exact H11|]. split; [exact H12|].
      split; [exact H13|]. intros Herr. specialize (H14 Herr).
      subst d. lia.
Qed.

(** [timeout / interval] ticks are all a poll can receive: more make no
    difference. *)
Lemma pollLoop_ticks {V} (interval timeout : Z) (took : World -> Z)
    (condition : V -> M (V * (bool * option Error))) (n m : nat) (e : Z)
    (v : V) (w : World) :
  0 < interval ->
  timeout `div` interval - e `div` interval <= Z.of_nat n ->
  pollLoop (n + m) interval timeout took condition e v w
  = pollLoop n interval timeout took condition e v w.
Proof.
  intros Hi. revert e v w. induction n as [|n IH]; intros e v w Hfuel.
  - cbn [Nat.add pollLoop]. destruct m as [|m]; [reflexivity|].
    rewrite pollLoop_S. cbn zeta.
    destruct (Z.leb_spec ((e `div` interval + 1) * interval) timeout)
      as [Hle|]; [|reflexivity].
    pose proof (Z.div_mod timeout interval ltac:(lia)).
    pose proof (Z.mod_pos_bound timeout interval Hi). nia.
  - cbn [Nat.add]. rewrite !pollLoop_S. cbn zeta.
    pose proof (next_tick interval e Hi) as [Hn Hdiv]. cbn zeta in Hn, Hdiv.
    destruct (_ <=? timeout); [|reflexivity].
    destruct (condition v _) as [[v1 [done [e'|]]] w1]; [reflexivity|].
    destruct done; [reflexivity|].
    apply IH.
    assert (((e `div` interval + 1) * interval) `div` interval
            <= ((e `div` interval + 1) * interval + Z.max 0 (took w1))
                 `div` interval)
      by (apply Z.div_le_mono; lia).
    lia.
Qed.

Lemma Poll_retried (k : ClusterClient) (v : bool * bool) (w : World) :
  retried k (healthCheckTook k) clusterStatusRetryInterval
    clusterStatusRetryTimeout 5 w
    (Poll clusterStatusRetryInterval clusterStatusRetryTimeout
          (healthCheckTook k) (retryCondition k) v w).
Proof.
  unfold Poll.
  change (Z.to_nat (clusterStatusRetryTimeout `div` clusterStatusRetryInterval))
    with 4%nat.
  apply (pollLoop_retried k clusterStatusRetryInterval
           clusterStatusRetryTimeout (healthCheckTook k) 4 0 v w); done.
Qed.

Lemma retried_quiet (k : ClusterClient) (took : World -> Z)
    (interval budget : Z) (runs : nat) (w : World)
    (r : (bool * bool) * option Error * World) :
  retried k took interval budget runs w r -> quietly probing w (snd r).
Proof.
  destruct r as [[v' err] w']. unfold retried.
  intros (last & calls & pre & H1 & H2 & H3 & H4 & _).
  repeat split; [done..|]. now exists calls.
Qed.

Lemma Poll_quiet (k : ClusterClient) (v : bool * bool) (w : World) :
  quietly probing w
    (snd (Poll clusterStatusRetryInterval clusterStatusRetryTimeout
               (healthCheckTook k) (retryCondition k) v w)).
Proof. eapply retried_quiet. apply Poll_retried. Qed.

Lemma getKubernetesVersion_run (k : ClusterClient) (w : World) :
  getKubernetesVersion k w = (answerServerVersion k w, called [ServerVersion] w).
Proof.
  unfold getKubernetesVersion, bind, getWorld, record, ret.
  destruct (answerServerVersion k w); reflexivity.
Qed.

Lemma getAPIEnablements_world (k : ClusterClient) (w : World) :
  snd (getAPIEnablements k w) = called [ListAPIResources] w.
Proof.
  unfold getAPIEnablements, bind, getWorld, record, ret.
  destruct (answerServerGroupsAndResources k w); reflexivity.
Qed.

Lemma getNodeSummary_quiet (k : ClusterClient) (w : World) :
  quietly noWrite w (snd (getNodeSummary k w)).
Proof.
  unfold getNodeSummary, bind, getWorld, record, ret.
  destruct (answerListNodes k w) as [nodeList|err].
  - destruct (answerListPods k _); cbn [snd];
      apply (quietly_trans _ _ (called [ListNodes] w));
      solve [ apply (quietly_called noWrite [ListNodes]); repeat constructor
            | apply (quietly_called noWrite [ListAllPods] (called [ListNodes] w));
              repeat constructor ].
  - apply (quietly_called noWrite [ListNodes]). repeat constructor.
Qed.

(** Synthesizing a candidate never writes: it leaves the store alone and
    makes no status update call, whatever path it takes. *)
Lemma synthesize_quiet (c : ClusterStatusController) (cluster : Cluster)
    (w : World) :
  quietly noWrite w (snd (synthesize c cluster w)).
Proof.
  unfold synthesize, bind, getWorld, record, ret.
  set (w0 := {| now := now w; trace := trace w ++ [NewClusterClient _];
                store := store w |}).
  assert (quietly noWrite w w0) as H0.
  { apply (quietly_called noWrite [NewClusterClient (cl_Name cluster)]).
    repeat constructor. }
  destruct (ClusterClientSetFunc c cluster w) as [k|err]; [|exact H0].
  pose proof (getClusterHealthStatus_quiet k w0) as H1.
  destruct (getClusterHealthStatus k w0) as [[online healthy] w1].
  cbn [snd] in H1.
  assert (quietly noWrite w w1) as H01.
  { eapply quietly_trans; [exact H0|].
    eapply quietly_weaken; [exact probing_noWrite | exact H1]. }
  clear H0 H1.
  match goal with
  | |- context [(if negb online then ?a else ?b) w1] =>
      assert (quietly noWrite w (snd ((if negb online then a else b) w1)))
        as H2;
      [ destruct online; cbn [negb snd]; [exact H01|];
        eapply quietly_trans; [exact H01|];
        eapply quietly_weaken; [exact probing_noWrite | apply Poll_quiet]
      | destruct ((if negb online then a else b) w1)
          as [[[online' healthy'] err] w2] ]
  end.
  cbn [snd] in H2. clear H01.
  destruct err as [err|].
  - rewrite generateReadyCondition_run. exact H2.
  - rewrite getKubernetesVersion_run.
    assert (quietly noWrite w (called [ServerVersion] w2)) as H3.
    { eapply quietly_trans; [exact H2|].
      apply quietly_called. repeat constructor. }
    destruct (answerServerVersion k w2) as [v|err]; [|exact H3].
    pose proof (getAPIEnablements_world k (called [ServerVersion] w2)) as H4.
    destruct (getAPIEnablements k _) as [apis w4]. cbn [snd] in H4. subst w4.
    assert (quietly noWrite w
              (called [ListAPIResources] (called [ServerVersion] w2))) as H5.
    { eapply quietly_trans; [exact H3|].
      apply quietly_called. repeat constructor. }
    destruct apis as [apis|err]; [|exact H5].
    pose proof (getNodeSummary_quiet k
                  (called [ListAPIResources] (called [ServerVersion] w2)))
      as H6.
    destruct (getNodeSummary k _) as [[ns|err] w6]; cbn [snd] in H6.
    + rewrite generateReadyCondition_run. cbn [snd].
      eapply quietly_trans; eassumption.
    + cbn [snd]. eapply quietly_trans; eassumption.
Qed.

(** Every candidate carries exactly one condition: one of the three
    templates, stamped by the tracker against the stored status at the
    moment the candidate was assembled. *)
Lemma synthesize_conditions (c : ClusterStatusController) (cluster : Cluster)
    (w : World) (current : ClusterStatus) :
  fst (synthesize c cluster w) = Ok current ->
  exists online healthy,
    cs_Conditions current =
      cs_Conditions
        (setTransitionTime (cl_Status cluster)
           (withConditions zeroClusterStatus
              [template online healthy (now (snd (synthesize c cluster w)))])).
Proof.
  unfold synthesize, bind, getWorld, record, ret.
  destruct (ClusterClientSetFunc c cluster w) as [k|err]; [|discriminate].
  destruct (getClusterHealthStatus k _) as [[online healthy] w1].
  match goal with
  | |- context [(if negb online then ?a else ?b) w1] =>
      destruct ((if negb online then a else b) w1)
        as [[[online' healthy'] err] w2]
  end.
  destruct err as [err|].
  - rewrite generateReadyCondition_run. cbn [fst snd].
    intros [= <-]. now exists false, false.
  - destruct (getKubernetesVersion k w2) as [[v|err] w3]; [|discriminate].
    destruct (getAPIEnablements k w3) as [[a|err] w4]; [|discriminate].
    destruct (getNodeSummary k w4) as [[n|err] w5]; [|discriminate].
    rewrite generateReadyCondition_run. cbn [fst snd].
    intros [= <-]. now exists online', healthy'.
Qed.

(** The reconciler's early exits, then the pipeline. *)
Lemma Reconcile_run (c : ClusterStatusController) (req : string) (w : World) :
  let w0 := called [GetCluster req] w in
  Reconcile c req w =
    match failGet c req w with
    | Some err =>
        (if IsNotFound err
         then ({| Requeue := false; RequeueAfter := 0 |}, None)
         else ({| Requeue := true; RequeueAfter := 0 |}, Some err), w0)
    | None =>
        match store w !! req with
        | None => (({| Requeue := false; RequeueAfter := 0 |}, None), w0)
        | Some cluster =>
            if negb (IsZero (cl_DeletionTimestamp cluster)) then
              (({| Requeue := false; RequeueAfter := 0 |}, None), w0)
            else if negb (ContainsFinalizer cluster
                            util.ClusterControllerFinalizer)
            then (({| Requeue := true; RequeueAfter := 0 |}, None), w0)
            else syncClusterStatus c cluster w0
        end
    end.
Proof.
  intros w0. unfold Reconcile, ClientGet, bind, getWorld, record, ret.
  fold (called [GetCluster req] w). fold w0.
  destruct (failGet c req w) as [err|].
  - destruct (IsNotFound err); reflexivity.
  - destruct (store w !! req) as [cluster|]; [|reflexivity].
    destruct (negb (IsZero _)); [reflexivity|].
    destruct (negb (ContainsFinalizer _ _)); reflexivity.
Qed.

Lemma newCalls_app (w w' : World) (calls : list Call) :
  trace w' = (trace w ++ calls)%list -> newCalls w w' = calls.
Proof. unfold newCalls. intros ->. apply drop_app_length. Qed.

Lemma writes_noWrite (calls : list Call) :
  Forall (fun call => noWrite call = true) calls -> writes calls = [].
Proof.
  induction 1 as [|call calls Hc _ IH]; [reflexivity|].
  destruct call; try discriminate; exact IH.
Qed.

Lemma writes_app (l l' : list Call) : writes (l ++ l') = (writes l ++ writes l')%list.
Proof. apply omap_app. Qed.

Lemma quietly_writes (w w' : World) :
  quietly noWrite w w' -> writes (newCalls w w') = [] /\ store w' = store w.
Proof.
  intros (Hs & _ & calls & Ht & Hc).
  rewrite (newCalls_app _ _ _ Ht). split; [now apply writes_noWrite | done].
Qed.

(** Every reconciliation ends in one of the four outcomes. *)
Lemma Reconcile_outcome (c : ClusterStatusController) (req : string)
    (w : World) :
  Outcome c req w (fst (Reconcile c req w)) (snd (Reconcile c req w)).
Proof.
  pose proof (Reconcile_run c req w) as Hrun. cbn zeta in Hrun.
  rewrite Hrun. clear Hrun.
  assert (quietly noWrite w (called [GetCluster req] w)) as H0.
  { apply quietly_called. repeat constructor. }
  destruct (failGet c req w) as [err|].
  { apply Skipped; [exact H0|]. cbn. now destruct (IsNotFound err). }
  destruct (store w !! req) as [cluster|] eqn:Hget;
    [|now apply Skipped].
  destruct (negb (IsZero _)); [now apply Skipped|].
  destruct (negb (ContainsFinalizer _ _)); [now apply Skipped|].
  rewrite syncClusterStatus_synthesize.
  pose proof (synthesize_quiet c cluster (called [GetCluster req] w)) as Hq.
  destruct (synthesize c cluster (called [GetCluster req] w))
    as [[current|err] w1] eqn:Hsyn; cbn [snd] in Hq.
  2:{ apply Skipped; [|reflexivity]. eapply quietly_trans; eassumption. }
  destruct (DeepEqual (cl_Status cluster) current) eqn:Heq.
  - rewrite updateStatusIfNeeded_equal by exact Heq.
    eapply Unchanged; eassumption.
  - pose proof (updateStatusIfNeeded_differ c cluster current w1 Heq) as Hup.
    cbn zeta in Hup. rewrite Hup. clear Hup.
    destruct Hq as (Hs1 & _). change (store w1 = store w) in Hs1.
    destruct (failUpdate c _ w1) as [err|].
    { eapply WriteFailed; eassumption. }
    destruct (store w1 !! cl_Name cluster) as [stored|] eqn:Hst.
    + rewrite Hs1 in Hst |- *. cbn [fst snd]. eapply Written; eassumption.
    + eapply WriteFailed; eassumption.
Qed.

Lemma ClientGet_run (c : ClusterStatusController) (req : string) (w : World) :
  ClientGet c req w =
    (match failGet c req w with
     | Some err => Err err
     | None => match store w !! req with
               | Some cluster => Ok cluster
               | None => Err (StatusError http.StatusNotFound)
               end
     end, called [GetCluster req] w).
Proof.
  unfold ClientGet, bind, getWorld, record, ret.
  destruct (failGet c req w); [reflexivity|].
  destruct (store w !! req); reflexivity.
Qed.

(** C6: the early exits of [Reconcile], in order.  Whatever the load
    returns, the only call made before the pipeline is the load itself
    ([called [GetCluster req] w]): no status write.  A not-found load ends
    with the empty result and no error; another load error is returned with
    an immediate requeue; a cluster marked for deletion ends with the empty
    result; a cluster without the finalizer gets an immediate requeue and
    no error; otherwise the result is the one of the pipeline. *)
Theorem Reconcile_early_exits (c : ClusterStatusController) (req : string)
    (w : World) :
  let w0 := called [GetCluster req] w in
  let got := fst (ClientGet c req w) in
  (forall err, got = Err err -> IsNotFound err = true ->
     Reconcile c req w = (({| Requeue := false; RequeueAfter := 0 |}, None), w0))
  /\ (forall err, got = Err err -> IsNotFound err = false ->
        Reconcile c req w
        = (({| Requeue := true; RequeueAfter := 0 |}, Some err), w0))
  /\ (forall cluster, got = Ok cluster ->
        IsZero (cl_DeletionTimestamp cluster) = false ->
        Reconcile c req w
        = (({| Requeue := false; RequeueAfter := 0 |}, None), w0))
  /\ (forall cluster, got = Ok cluster ->
        IsZero (cl_DeletionTimestamp cluster) = true ->
        ContainsFinalizer cluster util.ClusterControllerFinalizer = false ->
        Reconcile c req w
        = (({| Requeue := true; RequeueAfter := 0 |}, None), w0))
  /\ (forall cluster, got = Ok cluster ->
        IsZero (cl_DeletionTimestamp cluster) = true ->
        ContainsFinalizer cluster util.ClusterControllerFinalizer = true ->
        Reconcile c req w = syncClusterStatus c cluster w0).
Proof.
  intros w0 got. subst got. rewrite ClientGet_run. cbn [fst].
  unfold Reconcile, bind. rewrite ClientGet_run. fold w0.
  repeat split.
  - intros err -> Hnf. now rewrite Hnf.
  - intros err -> Hnf. now rewrite Hnf.
  - intros cluster -> Hz. now rewrite Hz.
  - intros cluster -> Hz Hf. now rewrite Hz, Hf.
  - intros cluster -> Hz Hf. now rewrite Hz, Hf.
Qed.

Lemma Reconcile_early_exits_witness :
  Reconcile (sampleController (sampleClient (rest.Response 200) (rest.Response 200)))
            "member1" (sampleWorld (sampleCluster [] readyStatus))
  = (({| Requeue := true; RequeueAfter := 0 |}, None),
     called [GetCluster "member1"] (sampleWorld (sampleCluster [] readyStatus))).
Proof.
  apply (proj1 (proj2 (proj2 (proj2
           (Reconcile_early_exits
              (sampleController
                 (sampleClient (rest.Response 200) (rest.Response 200)))
              "member1" (sampleWorld (sampleCluster [] readyStatus))))))
         (sampleCluster [] readyStatus));
    reflexivity.
Defined.

(** The poll starts by sleeping one interval and then checks the health of
    the member cluster. *)
Lemma Poll_first (k : ClusterClient) (v : bool * bool) (w : World) :
  exists rest : list Call,
    trace (snd (Poll clusterStatusRetryInterval clusterStatusRetryTimeout
                     (healthCheckTook k) (retryCondition k) v w))
    = (trace w ++ Sleep clusterStatusRetryInterval
                 :: ProbeEndpoint "/readyz" :: rest)%list.
Proof.
  unfold Poll.
  change (Z.to_nat (clusterStatusRetryTimeout `div` clusterStatusRetryInterval))
    with 4%nat.
  rewrite pollLoop_S. cbn zeta.
  change ((0 `div` clusterStatusRetryInterval + 1) * clusterStatusRetryInterval)
    with clusterStatusRetryInterval.
  change (clusterStatusRetryInterval <=? clusterStatusRetryTimeout) with true.
  cbn match. rewrite Z.sub_0_r.
  set (ws := snd (sleep clusterStatusRetryInterval w)).
  assert (trace ws = (trace w ++ [Sleep clusterStatusRetryInterval])%list)
    as Hwt by done.
  rewrite retryCondition_run.
  destruct (retryCondition_calls k (healthCheckTook k) ws)
    as (_ & _ & more & Ht2 & _).
  cbn zeta in Ht2. rewrite Hwt, <- app_assoc in Ht2.
  set (d := Z.max 0 (healthCheckTook k (snd (getClusterHealthStatus k ws))))
    in *.
  set (w2 := snd (elapse d (snd (getClusterHealthStatus k ws)))) in *.
  destruct (fst (fst (getClusterHealthStatus k ws))).
  - exists more. exact Ht2.
  - pose proof (pollLoop_retried k clusterStatusRetryInterval
                  clusterStatusRetryTimeout (healthCheckTook k) 3
                  (clusterStatusRetryInterval + d)
                  (fst (getClusterHealthStatus k ws)) w2 ltac:(done)) as Hr.
    apply retried_quiet in Hr as (_ & _ & calls & Ht & _).
    + exists (more ++ calls)%list. rewrite Ht, Ht2.
      rewrite <- !app_assoc. reflexivity.
    + assert (clusterStatusRetryInterval `div` clusterStatusRetryInterval
              <= (clusterStatusRetryInterval + d)
                   `div` clusterStatusRetryInterval)
        by (apply Z.div_le_mono; unfold clusterStatusRetryInterval; lia).
      change (clusterStatusRetryInterval `div` clusterStatusRetryInterval)
        with 1 in H.
      change (clusterStatusRetryTimeout `div` clusterStatusRetryInterval)
        with 4.
      lia.
Qed.

(** A retry poll that ends with an error ends the synthesis: the candidate
    is the offline template stamped by the tracker, everything else zero,
    and no further call is made. *)
Lemma synthesize_timeout (c : ClusterStatusController) (cluster : Cluster)
    (w : World) (k : ClusterClient) (v' : bool * bool) (e : Error)
    (w2 : World) :
  ClusterClientSetFunc c cluster w = Ok k ->
  let first :=
    getClusterHealthStatus k (called [NewClusterClient (cl_Name cluster)] w) in
  fst (fst first) = false ->
  Poll clusterStatusRetryInterval clusterStatusRetryTimeout
       (healthCheckTook k) (retryCondition k) (fst first) (snd first)
  = ((v', Some e), w2) ->
  synthesize c cluster w =
    (Ok (setTransitionTime (cl_Status cluster)
           (withConditions zeroClusterStatus
              [template false false (now w2)])), w2).
Proof.
  intros Hk first Hoff Hpoll. subst first.
  unfold synthesize, bind, getWorld, record, ret. rewrite Hk.
  change {| now := now w; trace := trace w ++ [NewClusterClient (cl_Name cluster)];
            store := store w |}
    with (called [NewClusterClient (cl_Name cluster)] w).
  destruct (getClusterHealthStatus k _) as [[online healthy] w1].
  cbn [fst snd] in *. subst online. cbn [negb].
  rewrite Hpoll. destruct v' as [online' healthy'].
  rewrite generateReadyCondition_run. reflexivity.
Qed.


(** On the unreachable path the candidate is the offline template stamped
    by the tracker, everything else zero; up to there the controller has
    only created the client, probed and slept. *)
Lemma synthesize_offline (c : ClusterStatusController) (cluster : Cluster)
    (w : World) (k : ClusterClient) :
  ClusterClientSetFunc c cluster w = Ok k ->
  alwaysOffline k ->
  exists (w1 : World) (calls : list Call),
    synthesize c cluster w =
      (Ok (setTransitionTime (cl_Status cluster)
             (withConditions zeroClusterStatus
                [template false false (now w1)])), w1)
    /\ store w1 = store w
    /\ now w <= now w1
    /\ trace w1 = (trace w ++ calls)%list
    /\ Forall (fun call => probing call = true) calls.
Proof.
  intros Hk Hoff.
  set (w0 := called [NewClusterClient (cl_Name cluster)] w).
  pose proof (Hoff w0) as Ho.
  destruct (getClusterHealthStatus_quiet k w0)
    as (Hs1 & Hn1 & calls1 & Ht1 & Hc1).
  pose proof (Poll_retried k (fst (getClusterHealthStatus k w0))
                (snd (getClusterHealthStatus k w0))) as Hr.
  destruct (Poll _ _ _ _ _ _) as [[v' err] w2] eqn:Hpoll.
  pose proof Hr as Hq. apply retried_quiet in Hq as (Hs2 & Hn2 & calls2 & Ht2 & Hc2).
  cbn [snd] in Hs2, Hn2, Ht2.
  destruct Hr as (last & calls & pre & _ & _ & _ & _ & _ & _ & _ & _ & _ & _
                  & _ & Hv & Herr & _).
  rewrite Hv in Herr. rewrite (Hoff last) in Herr.
  destruct Herr as [[_ ?]|[-> _]]; [discriminate|].
  exists w2, (NewClusterClient (cl_Name cluster) :: calls1 ++ calls2)%list.
  split; [exact (synthesize_timeout c cluster w k v' _ w2 Hk Ho Hpoll)|].
  split; [rewrite Hs2, Hs1; reflexivity|].
  split; [change (now w0) with (now w) in Hn1; lia|].
  split; [rewrite Ht2, Ht1; cbn; now rewrite <- !app_assoc|].
  constructor; [done|]. now apply Forall_app.
Qed.






Lemma synthesize_single (c : ClusterStatusController) (cluster : Cluster)
    (w : World) (current : ClusterStatus) :
  fst (synthesize c cluster w) = Ok current ->
  exists online healthy t, cs_Conditions current = [template online healthy t].
Proof.
  intros H. apply synthesize_conditions in H as (online & healthy & ->).
  rewrite setTransitionTime_template. eauto.
Qed.

(** What a reconciliation hands to the status update: nothing, or the one
    candidate it synthesized for the cluster it loaded. *)
Lemma Reconcile_writes (c : ClusterStatusController) (req : string)
    (w : World) :
  writes (newCalls w (snd (Reconcile c req w))) = []
  \/ exists cluster current,
       store w !! req = Some cluster
       /\ fst (synthesize c cluster (called [GetCluster req] w)) = Ok current
       /\ writes (newCalls w (snd (Reconcile c req w)))
          = [withStatus cluster current].
Proof.
  pose proof (Reconcile_outcome c req w) as H.
  destruct (Reconcile c req w) as [r w']. cbn [fst snd] in *.
  assert (forall cluster current w1,
    synthesize c cluster (called [GetCluster req] w) = (Ok current, w1) ->
    exists calls, trace w1 = (trace w ++ calls)%list /\ writes calls = [])
    as Hsyn.
  { intros cluster current w1 Hs.
    pose proof (synthesize_quiet c cluster (called [GetCluster req] w)) as Hq.
    rewrite Hs in Hq. cbn [snd] in Hq.
    destruct Hq as (_ & _ & calls & Ht & Hc).
    exists (GetCluster req :: calls). cbn [trace called] in Ht.
    rewrite Ht, <- app_assoc. split; [reflexivity|].
    now apply (writes_noWrite (GetCluster req :: calls)), Forall_cons. }
  destruct H as [r w' Hq _ | cluster current w' Hget Hs Heq
                | cluster stored current w1 Hget Hs Hne Hst
                | cluster current w1 err Hget Hs Hne].
  - left. now apply quietly_writes.
  - left. destruct (Hsyn _ _ _ Hs) as (calls & Ht & Hw).
    now rewrite (newCalls_app _ _ _ Ht).
  - right. exists cluster, current. rewrite Hs.
    destruct (Hsyn _ _ _ Hs) as (calls & Ht & Hw).
    repeat split; [done|].
    rewrite (newCalls_app _ _
               (calls ++ [UpdateClusterStatus (withStatus cluster current)])).
    + rewrite writes_app, Hw. reflexivity.
    + cbn [trace]. now rewrite Ht, app_assoc.
  - right. exists cluster, current. rewrite Hs.
    destruct (Hsyn _ _ _ Hs) as (calls & Ht & Hw).
    repeat split; [done|].
    rewrite (newCalls_app _ _
               (calls ++ [UpdateClusterStatus (withStatus cluster current)])).
    + rewrite writes_app, Hw. reflexivity.
    + cbn [trace called]. now rewrite Ht, app_assoc.
Qed.

(** C9: [generateReadyCondition] returns exactly one condition, of type
    Ready, stamped with the current time: the template the table gives for
    (online, healthy) -- ClusterNotReachable with status False when
    offline, ClusterNotReady with status False when online and unhealthy,
    ClusterReady with status True when online and healthy.  Every candidate
    the pipeline synthesizes, and with it every status handed to the status
    update, carries exactly one condition. *)
Theorem single_ready_condition :
  (forall online healthy w,
     generateReadyCondition online healthy w
     = ([template online healthy (now w)], w))
  /\ (forall online healthy t,
        metav1.Type_ (template online healthy t) = ClusterConditionReady
        /\ metav1.Status (template online healthy t)
           = (if online && healthy then metav1.ConditionTrue
              else metav1.ConditionFalse)
        /\ metav1.Reason (template online healthy t)
           = (if negb online then clusterNotReachableReason
              else if negb healthy then clusterNotReady else clusterReady)
        /\ metav1.Message (template online healthy t)
           = (if negb online then clusterNotReachableMsg
              else if negb healthy then clusterUnhealthy else clusterHealthy)
        /\ metav1.LastTransitionTime (template online healthy t) = t)
  /\ (forall c cluster w,
        match fst (synthesize c cluster w) with
        | Ok current => length (cs_Conditions current) = 1%nat
        | Err _ => True
        end)
  /\ (forall c req w,
        Forall (fun cluster =>
                  length (cs_Conditions (cl_Status cluster)) = 1%nat)
               (writes (newCalls w (snd (Reconcile c req w))))).
Proof.
  split; [exact generateReadyCondition_run|].
  split; [intros [|] [|] t; done|].
  split.
  - intros c cluster w.
    destruct (fst (synthesize c cluster w)) as [current|err] eqn:Hs; [|done].
    apply synthesize_single in Hs as (online & healthy & t & ->). done.
  - intros c req w.
    destruct (Reconcile_writes c req w)
      as [-> | (cluster & current & _ & Hs & ->)]; [constructor|].
    apply synthesize_single in Hs as (online & healthy & t & Hc).
    repeat constructor. cbn. now rewrite Hc.
Qed.

(** ** Reconciling again and again *)

Lemma setTransitionTime_equal (old new : ClusterStatus)
    (old0 : metav1.Condition) :
  head (cs_Conditions old) = Some old0 ->
  util.IsClusterReady old = util.IsClusterReady new ->
  cs_Conditions (setTransitionTime old new)
  = map (metav1.setLastTransitionTime (metav1.LastTransitionTime old0))
        (cs_Conditions new).
Proof.
  intros Hhead Hready. unfold setTransitionTime.
  rewrite Hready, eqb_reflx.
  destruct (cs_Conditions old) as [|c0 l]; [discriminate|].
  injection Hhead as ->. reflexivity.
Qed.

Lemma setTransitionTime_differ (old new : ClusterStatus) :
  util.IsClusterReady old <> util.IsClusterReady new ->
  setTransitionTime old new = new.
Proof.
  intros Hready. unfold setTransitionTime.
  now rewrite (proj2 (eqb_false_iff _ _) Hready).
Qed.

(** One reconciliation of a cluster whose stored status has a condition:
    the stored status keeps having one; if its classification is the same
    afterwards, so is its transition time; if the classification flipped,
    the transition time is a reading of the clock during this
    reconciliation. *)
Lemma Reconcile_step (c : ClusterStatusController) (req : string) (w : World)
    (cluster : Cluster) :
  wfStore w ->
  store w !! req = Some cluster ->
  cs_Conditions (cl_Status cluster) <> [] ->
  let w' := snd (Reconcile c req w) in
  wfStore w'
  /\ (exists cluster', store w' !! req = Some cluster'
                       /\ cs_Conditions (cl_Status cluster') <> [])
  /\ (persistedReady w' req = persistedReady w req ->
      persistedTransitionTime w' req = persistedTransitionTime w req)
  /\ (persistedReady w' req <> persistedReady w req ->
      exists t, persistedTransitionTime w' req = Some t
                /\ now w <= t <= now w').
Proof.
  intros Hwf Hget Hcond w'. subst w'.
  pose proof (Reconcile_outcome c req w) as H.
  destruct (Reconcile c req w) as [r w']. cbn [fst snd] in *.
  assert (forall w2, store w2 = store w ->
    wfStore w2
    /\ (exists cluster', store w2 !! req = Some cluster'
                         /\ cs_Conditions (cl_Status cluster') <> [])
    /\ (persistedReady w2 req = persistedReady w req ->
        persistedTransitionTime w2 req = persistedTransitionTime w req)
    /\ (persistedReady w2 req <> persistedReady w req ->
        exists t, persistedTransitionTime w2 req = Some t
                  /\ now w <= t <= now w2)) as Hsame.
  { intros w2 Hs. unfold wfStore, persistedReady, persistedTransitionTime,
      persisted. rewrite Hs. repeat split; [exact Hwf | eauto | done..]. }
  destruct H as [r w' Hq _ | cluster0 current w' Hget0 Hs Heq
                | cluster0 stored current w1 Hget0 Hs Hne Hst
                | cluster0 current w1 err Hget0 Hs Hne].
  - apply Hsame. apply Hq.
  - apply Hsame.
    pose proof (synthesize_quiet c cluster0 (called [GetCluster req] w)) as Hq.
    rewrite Hs in Hq. apply Hq.
  - rewrite Hget in Hget0. injection Hget0 as <-.
    pose proof (Hwf _ _ Hget) as Hname. rewrite Hname in *.
    rewrite Hget in Hst. injection Hst as <-.
    pose proof (synthesize_quiet c cluster (called [GetCluster req] w)) as Hq.
    pose proof (synthesize_conditions c cluster (called [GetCluster req] w)
                  current) as Hc.
    rewrite Hs in Hq, Hc. cbn [fst snd] in Hq, Hc.
    destruct (Hc eq_refl) as (online & healthy & Hcur). clear Hc.
    rewrite setTransitionTime_template in Hcur.
    destruct Hq as (_ & Hnow & _). cbn [now called] in Hnow.
    unfold persistedReady, persistedTransitionTime, persisted.
    cbn [store now]. rewrite lookup_insert_eq, Hget. cbn [fmap option_fmap option_map].
    cbn [cl_Status withStatus].
    rewrite (IsClusterReady_template current online healthy _ Hcur).
    repeat split.
    + intros name cl. cbn [store].
      destruct (decide (req = name)) as [<-|Hneq].
      * rewrite lookup_insert_eq. intros [= <-]. exact Hname.
      * rewrite lookup_insert_ne by done. apply Hwf.
    + eexists. split; [reflexivity|]. cbn. now rewrite Hcur.
    + intros [= Hready]. rewrite Hcur.
      destruct (cs_Conditions (cl_Status cluster)) as [|old0 l]; [done|].
      rewrite <- Hready, eqb_reflx. destruct online, healthy; reflexivity.
    + intros Hready. exists (now w1). rewrite Hcur. split; [|lia].
      destruct (cs_Conditions (cl_Status cluster)) as [|old0 l]; [done|].
      destruct (Bool.eqb _ _) eqn:Heqb.
      * apply eqb_prop in Heqb. now rewrite Heqb in Hready.
      * destruct online, healthy; reflexivity.
  - apply Hsame. cbn [store called].
    pose proof (synthesize_quiet c cluster0 (called [GetCluster req] w)) as Hq.
    rewrite Hs in Hq. apply Hq.
Qed.

(** A reconciliation whose candidate classifies like the stored status
    leaves the persisted classification as it is. *)
Lemma Reconcile_same_observation (c : ClusterStatusController) (req : string)
    (w : World) :
  wfStore w ->
  (forall cluster current,
     store w !! req = Some cluster ->
     fst (synthesize c cluster (called [GetCluster req] w)) = Ok current ->
     util.IsClusterReady current = util.IsClusterReady (cl_Status cluster)) ->
  persistedReady (snd (Reconcile c req w)) req = persistedReady w req.
Proof.
  intros Hwf Hobs.
  pose proof (Reconcile_outcome c req w) as H.
  destruct (Reconcile c req w) as [r w']. cbn [fst snd] in *.
  unfold persistedReady, persisted.
  destruct H as [r w' Hq _ | cluster current w' Hget Hs Heq
                | cluster stored current w1 Hget Hs Hne Hst
                | cluster current w1 err Hget Hs Hne].
  - now destruct Hq as (-> & _).
  - pose proof (synthesize_quiet c cluster (called [GetCluster req] w)) as Hq.
    rewrite Hs in Hq. cbn [snd] in Hq. now destruct Hq as (-> & _).
  - cbn [store]. rewrite (Hwf _ _ Hget), lookup_insert_eq, Hget. cbn.
    f_equal. apply (Hobs cluster current Hget). now rewrite Hs.
  - cbn [store called].
    pose proof (synthesize_quiet c cluster (called [GetCluster req] w)) as Hq.
    rewrite Hs in Hq. cbn [snd] in Hq. now destruct Hq as (-> & _).
Qed.

Lemma quietly_now (P : Call -> bool) (w w' : World) :
  quietly P w w' -> now w <= now w'.
Proof. now intros (_ & H & _). Qed.

(** Over a run of reconciliations that never flips the persisted
    classification the persisted transition time never changes. *)
Lemma reconcileSeq_time (c : ClusterStatusController) (req : string)
    (gaps : list Z) (w : World) (cluster : Cluster) :
  wfStore w ->
  store w !! req = Some cluster ->
  cs_Conditions (cl_Status cluster) <> [] ->
  Forall (fun w' => persistedReady w' req = persistedReady w req)
         (reconcileSeq c req gaps w) ->
  Forall (fun w' => persistedTransitionTime w' req
                    = persistedTransitionTime w req)
         (reconcileSeq c req gaps w).
Proof.
  revert w cluster. induction gaps as [|d gaps IH];
    intros w cluster Hwf Hget Hcond Hall; [constructor|].
  cbn [reconcileSeq] in *.
  set (w' := snd (Reconcile c req (idle d w))) in *.
  apply Forall_cons in Hall as [Hhead Hrest].
  destruct (Reconcile_step c req (idle d w) cluster Hwf Hget Hcond)
    as (Hwf' & (cluster' & Hget' & Hcond') & Hsame & _).
  fold w' in Hwf', Hget', Hsame.
  assert (persistedTransitionTime w' req = persistedTransitionTime w req)
    as Htime by (apply Hsame; exact Hhead).
  apply Forall_cons. split; [exact Htime|].
  rewrite <- Htime.
  apply (IH w' cluster' Hwf' Hget' Hcond').
  rewrite Hhead. exact Hrest.
Qed.

(** A reconciliation that passes the early exits, observes a
    classification other than the stored one and whose status update does
    not fail: the candidate is persisted, stamped with the clock as read
    when its condition was generated. *)
Lemma Reconcile_flip (c : ClusterStatusController) (req : string) (w : World)
    (cluster : Cluster) (current : ClusterStatus) (w1 : World) :
  wfStore w ->
  store w !! req = Some cluster ->
  failGet c req w = None ->
  IsZero (cl_DeletionTimestamp cluster) = true ->
  ContainsFinalizer cluster util.ClusterControllerFinalizer = true ->
  synthesize c cluster (called [GetCluster req] w) = (Ok current, w1) ->
  util.IsClusterReady current <> util.IsClusterReady (cl_Status cluster) ->
  failUpdate c (withStatus cluster current) w1 = None ->
  Reconcile c req w
  = (requeueAfterFrequency c,
     {| now := now w1;
        trace := trace w1 ++ [UpdateClusterStatus (withStatus cluster current)];
        store := <[req := withStatus cluster current]> (store w) |})
  /\ now w <= now w1
  /\ exists online healthy,
       cs_Conditions current = [template online healthy (now w1)].
Proof.
  intros Hwf Hget Hfail Hz Hf Hs Hflip Hup.
  pose proof (Hwf _ _ Hget) as Hname.
  pose proof (synthesize_quiet c cluster (called [GetCluster req] w)) as Hq.
  pose proof (synthesize_conditions c cluster (called [GetCluster req] w)
                current) as Hc.
  rewrite Hs in Hq, Hc. cbn [fst snd] in Hq, Hc.
  destruct (Hc eq_refl) as (online & healthy & Hcur). clear Hc.
  destruct Hq as (Hstore & Hnow & _). cbn [now store called] in Hstore, Hnow.
  assert (cs_Conditions current = [template online healthy (now w1)])
    as Hcur'.
  { rewrite Hcur, setTransitionTime_differ; [reflexivity|].
    rewrite (IsClusterReady_template
               (withConditions zeroClusterStatus
                  [template online healthy (now w1)])
               online healthy (now w1) eq_refl).
    rewrite setTransitionTime_template in Hcur.
    rewrite (IsClusterReady_template current online healthy _ Hcur) in Hflip.
    congruence. }
  assert (DeepEqual (cl_Status cluster) current = false) as Hne.
  { destruct (DeepEqual (cl_Status cluster) current) eqn:Heq; [|reflexivity].
    apply DeepEqual_conditions, IsClusterReady_conditions in Heq.
    congruence. }
  split; [|split; [exact Hnow|now exists online, healthy]].
  pose proof (Reconcile_run c req w) as Hrun. cbn zeta in Hrun.
  rewrite Hrun, Hfail, Hget, Hz, Hf. cbn [negb]. clear Hrun.
  rewrite syncClusterStatus_synthesize, Hs.
  pose proof (updateStatusIfNeeded_differ c cluster current w1 Hne) as Hrun.
  cbn zeta in Hrun. rewrite Hrun, Hup, Hstore, Hname, Hget. reflexivity.
Qed.

(** C1: the tracker copies the transition time of the old first condition
    onto the new conditions when the two statuses classify the same and the
    old status has a condition, and leaves the new status as generated when
    they classify differently.  For the persisted status of a cluster that
    has a condition: a reconciliation after which the persisted
    classification is unchanged leaves the persisted transition time
    unchanged; one that flips it sets the time to a clock reading of that
    reconciliation; and over any run of reconciliations that never flips
    the persisted classification the persisted transition time never
    changes.  A reconciliation that gets past the early exits and observes
    a flip -- its candidate classifies differently from the stored status
    -- and whose status update does not fail persists the flip: afterwards
    the persisted classification is the observed one and the persisted
    transition time is the clock as read when the condition was generated,
    within this reconciliation; it made one status update call, with that
    candidate; and the reconciliations that follow keep that time for as
    long as the persisted classification stays. *)
Theorem transition_time_tracking :
  (forall old new old0,
     head (cs_Conditions old) = Some old0 ->
     util.IsClusterReady old = util.IsClusterReady new ->
     cs_Conditions (setTransitionTime old new)
     = map (metav1.setLastTransitionTime (metav1.LastTransitionTime old0))
           (cs_Conditions new))
  /\ (forall old new,
        util.IsClusterReady old <> util.IsClusterReady new ->
        setTransitionTime old new = new)
  /\ (forall c req w cluster,
        wfStore w ->
        store w !! req = Some cluster ->
        cs_Conditions (cl_Status cluster) <> [] ->
        let w' := snd (Reconcile c req w) in
        (persistedReady w' req = persistedReady w req ->
         persistedTransitionTime w' req = persistedTransitionTime w req)
        /\ (persistedReady w' req <> persistedReady w req ->
            exists t, persistedTransitionTime w' req = Some t
                      /\ now w <= t <= now w'))
  /\ (forall c req gaps w cluster,
        wfStore w ->
        store w !! req = Some cluster ->
        cs_Conditions (cl_Status cluster) <> [] ->
        Forall (fun w' => persistedReady w' req = persistedReady w req)
               (reconcileSeq c req gaps w) ->
        Forall (fun w' => persistedTransitionTime w' req
                          = persistedTransitionTime w req)
               (reconcileSeq c req gaps w))
  /\ (forall c req w cluster current w1,
        wfStore w ->
        store w !! req = Some cluster ->
        failGet c req w = None ->
        IsZero (cl_DeletionTimestamp cluster) = true ->
        ContainsFinalizer cluster util.ClusterControllerFinalizer = true ->
        synthesize c cluster (called [GetCluster req] w) = (Ok current, w1) ->
        util.IsClusterReady current <> util.IsClusterReady (cl_Status cluster) ->
        failUpdate c (withStatus cluster current) w1 = None ->
        let w' := snd (Reconcile c req w) in
        persistedReady w req = Some (util.IsClusterReady (cl_Status cluster))
        /\ persistedReady w' req = Some (util.IsClusterReady current)
        /\ persistedTransitionTime w' req = Some (now w1)
        /\ now w <= now w1 <= now w'
        /\ writes (newCalls w w') = [withStatus cluster current]
        /\ (forall gaps,
              Forall (fun w'' => persistedReady w'' req = persistedReady w' req)
                     (reconcileSeq c req gaps w') ->
              Forall (fun w'' => persistedTransitionTime w'' req
                                 = Some (now w1))
                     (reconcileSeq c req gaps w'))).
Proof.
  split; [exact setTransitionTime_equal|].
  split; [exact setTransitionTime_differ|].
  split; [|split; [exact reconcileSeq_time|]].
  - intros c req w cluster Hwf Hget Hcond.
    destruct (Reconcile_step c req w cluster Hwf Hget Hcond)
      as (_ & _ & Hsame & Hflip). split; assumption.
  - intros c req w cluster current w1 Hwf Hget Hfail Hz Hf Hs Hflip Hup w'.
    destruct (Reconcile_flip c req w cluster current w1
                Hwf Hget Hfail Hz Hf Hs Hflip Hup)
      as (Hrun & Hnow & online & healthy & Hcur).
    pose proof (synthesize_quiet c cluster (called [GetCluster req] w)) as Hq.
    rewrite Hs in Hq. cbn [snd] in Hq. destruct Hq as (_ & _ & calls & Ht & Hc).
    cbn [trace called] in Ht.
    subst w'. rewrite Hrun. cbn [snd].
    set (w' := {| now := now w1; trace := _; store := _ |}).
    assert (persistedReady w' req = Some (util.IsClusterReady current)) as Hr'.
    { unfold persistedReady, persisted. cbn [store w'].
      now rewrite lookup_insert_eq. }
    assert (persistedTransitionTime w' req = Some (now w1)) as Ht'.
    { unfold persistedTransitionTime, persisted. cbn [store w'].
      rewrite lookup_insert_eq. cbn. rewrite Hcur.
      now destruct online, healthy. }
    split; [unfold persistedReady, persisted; now rewrite Hget|].
    split; [exact Hr'|]. split; [exact Ht'|].
    split; [cbn [now w']; lia|].
    split.
    { rewrite (newCalls_app w w'
                 (GetCluster req
                  :: calls ++ [UpdateClusterStatus (withStatus cluster current)])).
      - change (writes (calls ++ [UpdateClusterStatus (withStatus cluster current)])
                = [withStatus cluster current]).
        now rewrite writes_app, (writes_noWrite calls Hc).
      - cbn [trace w']. rewrite Ht. now rewrite <- !app_assoc. }
    intros gaps Hall. rewrite <- Ht'.
    apply (reconcileSeq_time c req gaps w' (withStatus cluster current)).
    + intros name cl. cbn [store w'].
      destruct (decide (req = name)) as [<-|Hneq].
      * rewrite lookup_insert_eq. intros [= <-]. exact (Hwf _ _ Hget).
      * rewrite lookup_insert_ne by done. apply Hwf.
    + cbn [store w']. apply lookup_insert_eq.
    + cbn. rewrite Hcur. discriminate.
    + exact Hall.
Qed.

(** ** Idempotence against a steady member cluster *)

Lemma setTransitionTime_template_status (old : ClusterStatus)
    (online healthy : bool) (t : metav1.Time) :
  setTransitionTime old
    (withConditions zeroClusterStatus [template online healthy t])
  = withConditions zeroClusterStatus
      (cs_Conditions
         (setTransitionTime old
            (withConditions zeroClusterStatus [template online healthy t]))).
Proof.
  unfold setTransitionTime.
  destruct (Bool.eqb _ _); destruct (cs_Conditions old); reflexivity.
Qed.

(** The tracker run against a status that already carries its own output
    reproduces that output, whatever the fresh time. *)
Lemma tracker_fix (old old' : ClusterStatus) (online healthy : bool)
    (t t' : metav1.Time) :
  cs_Conditions old'
  = cs_Conditions
      (setTransitionTime old
         (withConditions zeroClusterStatus [template online healthy t])) ->
  setTransitionTime old'
    (withConditions zeroClusterStatus [template online healthy t'])
  = setTransitionTime old
      (withConditions zeroClusterStatus [template online healthy t]).
Proof.
  intros H.
  rewrite (setTransitionTime_template_status old).
  rewrite (setTransitionTime_template_status old').
  f_equal. rewrite <- H. rewrite setTransitionTime_template in *.
  rewrite (IsClusterReady_template old' online healthy _ H), eqb_reflx, H.
  destruct online, healthy; reflexivity.
Qed.

Lemma steadySynth_fix (k : ClusterClient) (st st' a : ClusterStatus)
    (t t' : metav1.Time) :
  steadySynth k st t = Ok a ->
  cs_Conditions st' = cs_Conditions a ->
  steadySynth k st' t' = Ok a.
Proof.
  unfold steadySynth.
  destruct (fst (getClusterHealthStatus k emptyWorld)) as [online healthy].
  destruct (negb online).
  - intros [= <-] H. f_equal.
    exact (tracker_fix st st' false false t t' H).
  - destruct (fst (getKubernetesVersion k emptyWorld)); [|discriminate].
    destruct (fst (getAPIEnablements k emptyWorld)); [|discriminate].
    destruct (fst (getNodeSummary k emptyWorld)); [|discriminate].
    intros [= <-] H. cbn [cs_Conditions] in H.
    do 2 f_equal. now rewrite (tracker_fix st st' online healthy t t' H).
Qed.

Lemma getClusterHealthStatus_steady (k : ClusterClient) (w w' : World) :
  steadyClient k ->
  fst (getClusterHealthStatus k w) = fst (getClusterHealthStatus k w')
  /\ now (snd (getClusterHealthStatus k w)) = now w.
Proof.
  intros Hk.
  pose proof (getClusterHealthStatus_run k w) as Hw.
  pose proof (getClusterHealthStatus_run k w') as Hw'.
  cbn zeta in Hw, Hw'. rewrite Hw, Hw'. clear Hw Hw'.
  destruct (Hk w w') as (Hget & _).
  rewrite (Hget "/readyz").
  destruct (Hk {| now := now w; trace := trace w ++ [ProbeEndpoint "/readyz"];
                  store := store w |}
               {| now := now w'; trace := trace w' ++ [ProbeEndpoint "/readyz"];
                  store := store w' |}) as (Hget' & _).
  rewrite (Hget' "/healthz").
  destruct (_ && _); done.
Qed.

Lemma getAPIEnablements_steady (k : ClusterClient) (w w' : World) :
  steadyClient k ->
  fst (getAPIEnablements k w) = fst (getAPIEnablements k w').
Proof.
  intros Hk. destruct (Hk w w') as (_ & _ & Hapi & _).
  unfold getAPIEnablements, bind, getWorld, record, ret. rewrite Hapi.
  destruct (answerServerGroupsAndResources k w'); reflexivity.
Qed.

Lemma getNodeSummary_fst (k : ClusterClient) (w : World) :
  fst (getNodeSummary k w) =
    match answerListNodes k w with
    | Err err => Err err
    | Ok nodeList =>
        match answerListPods k (called [ListNodes] w) with
        | Err err => Err err
        | Ok podList =>
            Ok {| TotalNum := Z.of_nat (length (nl_Items nodeList));
                  ReadyNum :=
                    foldl (fun readyNum node =>
                             if getReadyStatusForNode (node_Status node)
                             then readyNum + 1 else readyNum)
                          0 (nl_Items nodeList);
                  Allocatable := getClusterAllocatable nodeList;
                  Used := getUsedResource podList |}
        end
    end
  /\ now (snd (getNodeSummary k w)) = now w.
Proof.
  unfold getNodeSummary, bind, getWorld, record, ret.
  destruct (answerListNodes k w) as [nodeList|err]; [|done].
  fold (called [ListNodes] w).
  destruct (answerListPods k (called [ListNodes] w)); done.
Qed.

Lemma getNodeSummary_steady (k : ClusterClient) (w w' : World) :
  steadyClient k ->
  fst (getNodeSummary k w) = fst (getNodeSummary k w')
  /\ now (snd (getNodeSummary k w)) = now w.
Proof.
  intros Hk. split; [|apply getNodeSummary_fst].
  rewrite (proj1 (getNodeSummary_fst k w)), (proj1 (getNodeSummary_fst k w')).
  destruct (Hk w w') as (_ & _ & _ & -> & _).
  destruct (Hk (called [ListNodes] w) (called [ListNodes] w'))
    as (_ & _ & _ & _ & ->).
  reflexivity.
Qed.

(** Against a steady member cluster the candidate is a function of the
    stored status and of the time at which it is stamped. *)
Lemma synthesize_steady (c : ClusterStatusController) (cluster : Cluster)
    (w : World) (k : ClusterClient) :
  ClusterClientSetFunc c cluster w = Ok k ->
  steadyClient k ->
  fst (synthesize c cluster w)
  = steadySynth k (cl_Status cluster) (now (snd (synthesize c cluster w))).
Proof.
  intros Hc Hk. unfold steadySynth.
  destruct (fst (getClusterHealthStatus k emptyWorld))
    as [online healthy] eqn:Hh.
  destruct online; cbn [negb].
  2:{ assert (alwaysOffline k) as Hoff.
      { intros w'.
        rewrite (proj1 (getClusterHealthStatus_steady k w' emptyWorld Hk)).
        now rewrite Hh. }
      destruct (synthesize_offline c cluster w k Hc Hoff)
        as (w1 & calls & -> & _). reflexivity. }
  unfold synthesize, bind, getWorld, record, ret. rewrite Hc.
  set (w0 := {| now := now w; trace := trace w ++ [NewClusterClient _];
                store := store w |}).
  destruct (getClusterHealthStatus_steady k w0 emptyWorld Hk) as [Hf Hn].
  rewrite Hh in Hf.
  destruct (getClusterHealthStatus k w0) as [[online' healthy'] w1].
  cbn [fst snd] in Hf, Hn. injection Hf as -> ->. cbn [negb].
  rewrite !getKubernetesVersion_run. cbn [fst].
  destruct (Hk w1 emptyWorld) as (_ & -> & _).
  destruct (answerServerVersion k emptyWorld) as [v|err]; [|reflexivity].
  pose proof (getAPIEnablements_steady k (called [ServerVersion] w1)
                emptyWorld Hk) as Ha.
  pose proof (getAPIEnablements_world k (called [ServerVersion] w1)) as Haw.
  destruct (getAPIEnablements k (called [ServerVersion] w1)) as [apis w4].
  cbn [fst snd] in Ha, Haw. rewrite <- Ha. subst w4.
  destruct apis as [apis|err]; [|reflexivity].
  destruct (getNodeSummary_steady k
              (called [ListAPIResources] (called [ServerVersion] w1))
              emptyWorld Hk) as [Hs Hsn].
  destruct (getNodeSummary k _) as [ns w5]. cbn [fst snd] in Hs, Hsn.
  rewrite <- Hs. destruct ns as [ns|err]; [|reflexivity].
  rewrite generateReadyCondition_run. cbn [fst snd]. reflexivity.
Qed.

Lemma withStatus_same (cluster : Cluster) :
  withStatus cluster (cl_Status cluster) = cluster.
Proof. now destruct cluster. Qed.

Lemma withStatus_twice (cluster : Cluster) (s s' : ClusterStatus) :
  withStatus (withStatus cluster s) s' = withStatus cluster s'.
Proof. reflexivity. Qed.

Lemma synthesize_client_error (c : ClusterStatusController) (cluster : Cluster)
    (w : World) (err : Error) :
  ClusterClientSetFunc c cluster w = Err err ->
  fst (synthesize c cluster w) = Err err.
Proof.
  intros H. unfold synthesize, bind, getWorld, record, ret. now rewrite H.
Qed.

(** A reconciliation whose candidates all equal the stored status makes no
    status update call and leaves the store as it was. *)
Lemma Outcome_quiet (c : ClusterStatusController) (req : string) (w w' : World)
    (r : Result * option Error) :
  Outcome c req w r w' ->
  (forall cluster current w1,
     store w !! req = Some cluster ->
     synthesize c cluster (called [GetCluster req] w) = (Ok current, w1) ->
     DeepEqual (cl_Status cluster) current = true) ->
  quietly noWrite w w'.
Proof.
  intros H Heq.
  destruct H as [r w' Hq _ | cluster current w' Hget Hs _
                | cluster stored current w1 Hget Hs Hne Hst
                | cluster current w1 err Hget Hs Hne].
  - exact Hq.
  - apply (quietly_trans _ _ (called [GetCluster req] w)).
    + apply quietly_called. repeat constructor.
    + pose proof (synthesize_quiet c cluster (called [GetCluster req] w)) as Hq.
      now rewrite Hs in Hq.
  - rewrite (Heq _ _ _ Hget Hs) in Hne. discriminate.
  - rewrite (Heq _ _ _ Hget Hs) in Hne. discriminate.
Qed.

Lemma quietly_trace_writes (w w' : World) :
  quietly noWrite w w' ->
  store w' = store w /\ writes (trace w') = writes (trace w).
Proof.
  intros (Hs & _ & calls & Ht & Hc). split; [exact Hs|].
  rewrite Ht, writes_app, (writes_noWrite calls Hc). apply app_nil_r.
Qed.

Lemma Reconcile_converges (c : ClusterStatusController) (req : string)
    (w : World) :
  (forall cluster, store w !! req = Some cluster -> steady c cluster) ->
  wfStore w ->
  0 < ClusterStatusUpdateFrequency c ->
  fst (Reconcile c req w) = requeueAfterFrequency c ->
  converged c req (snd (Reconcile c req w)).
Proof.
  intros Hsteady Hwf Hfreq Hr.
  pose proof (Reconcile_outcome c req w) as H1.
  destruct (Reconcile c req w) as [r w1]. cbn [fst snd] in *. subst r.
  assert (forall cluster a w',
    store w !! req = Some cluster ->
    synthesize c cluster (called [GetCluster req] w) = (Ok a, w') ->
    exists k t,
      (forall s w, ClusterClientSetFunc c (withStatus cluster s) w = Ok k)
      /\ steadyClient k
      /\ steadySynth k (cl_Status cluster) t = Ok a) as Hsyn.
  { intros cluster a w' Hget Hs.
    specialize (Hsteady cluster Hget).
    destruct (ClusterClientSetFunc c cluster (called [GetCluster req] w))
      as [k|err] eqn:Hc.
    - assert (steadyClient k) as Hk.
      { now apply (proj2 (Hsteady (cl_Status cluster)
                            (called [GetCluster req] w)
                            (called [GetCluster req] w))). }
      exists k, (now w').
      split; [|split; [exact Hk|]].
      + intros s w2. rewrite <- Hc. apply Hsteady.
      + pose proof (synthesize_steady c cluster _ k Hc Hk) as Hst.
        rewrite Hs in Hst. cbn [fst snd] in Hst. now rewrite <- Hst.
    - apply synthesize_client_error in Hc. rewrite Hs in Hc. discriminate. }
  remember (requeueAfterFrequency c) as r eqn:Hr.
  destruct H1 as [r w1 Hq Hzero | cluster current w1 Hget Hs Heq
                 | cluster stored current w1' Hget Hs Hne Hst
                 | cluster current w1' err Hget Hs Hne].
  - subst r. cbn in Hzero. lia.
  - destruct (Hsyn _ _ _ Hget Hs) as (k & t & Hk & Hst & Hsy).
    exists cluster, cluster, current, k, t.
    split; [|split; [now rewrite withStatus_same|
             split; [exact Hk|split; [exact Hst|split; [exact Hsy|exact Heq]]]]].
    pose proof (synthesize_quiet c cluster (called [GetCluster req] w)) as Hq.
    rewrite Hs in Hq. cbn [snd] in Hq. destruct Hq as (-> & _). exact Hget.
  - destruct (Hsyn _ _ _ Hget Hs) as (k & t & Hk & Hstc & Hsy).
    rewrite (Hwf _ _ Hget), Hget in Hst. injection Hst as <-.
    exists cluster, (withStatus cluster current), current, k, t.
    split; [|split; [reflexivity|
             split; [exact Hk|split; [exact Hstc|split; [exact Hsy|]]]]].
    + cbn [store]. rewrite (Hwf _ _ Hget). apply lookup_insert_eq.
    + apply DeepEqual_refl.
  - discriminate.
Qed.

(** Reconciling a converged cluster writes nothing, and the cluster stays
    converged. *)
Lemma converged_step (c : ClusterStatusController) (req : string)
    (w : World) :
  converged c req w ->
  quietly noWrite w (snd (Reconcile c req w))
  /\ converged c req (snd (Reconcile c req w)).
Proof.
  intros Hconv.
  assert (quietly noWrite w (snd (Reconcile c req w))) as Hq.
  { destruct Hconv as (cluster & cluster1 & a & k & t
                       & Hget1 & Hsame & Hk & Hst & Hsy & Heq).
    apply (Outcome_quiet c req w _ (fst (Reconcile c req w)));
      [apply Reconcile_outcome|].
    intros cluster2 current2 w3 Hget2 Hs2.
    rewrite Hget1 in Hget2. injection Hget2 as <-.
    assert (ClusterClientSetFunc c cluster1 (called [GetCluster req] w) = Ok k)
      as Hk1 by (rewrite Hsame; apply Hk).
    pose proof (synthesize_steady c cluster1 (called [GetCluster req] w) k
                  Hk1 Hst) as Hf.
    rewrite Hs2 in Hf. cbn [fst snd] in Hf.
    rewrite (steadySynth_fix k (cl_Status cluster) (cl_Status cluster1) a
               t _ Hsy (DeepEqual_conditions _ _ Heq)) in Hf.
    injection Hf as ->. exact Heq. }
  split; [exact Hq|].
  destruct Hconv as (cluster & cluster1 & a & k & t
                     & Hget1 & Hrest).
  exists cluster, cluster1, a, k, t. split; [|exact Hrest].
  destruct Hq as (-> & _). exact Hget1.
Qed.

(** C2: a candidate that is semantically equal to the stored status is not
    written -- [updateStatusIfNeeded] leaves the world as it is, so no
    status update call is made -- and the result still is a requeue after
    the configured frequency with no error.  Hence idempotence: after a
    reconciliation that went through, every further reconciliation with
    nothing changed in the member cluster, however many and whenever,
    makes no status update call and leaves the store as it is.  Nothing
    changed ([steady]) means that the client factory, which may build a
    client of its own for every cluster, builds the same one for this
    cluster whatever status the cluster has got, and that the answers of
    the member cluster behind it do not depend on the moment. *)
Theorem no_write_when_unchanged :
  (forall c cluster current w,
     DeepEqual (cl_Status cluster) current = true ->
     updateStatusIfNeeded c cluster current w
     = (({| Requeue := false;
            RequeueAfter := ClusterStatusUpdateFrequency c |}, None), w))
  /\ (forall c req w gaps,
        (forall cluster, store w !! req = Some cluster -> steady c cluster) ->
        wfStore w ->
        0 < ClusterStatusUpdateFrequency c ->
        fst (Reconcile c req w) = requeueAfterFrequency c ->
        let w1 := snd (Reconcile c req w) in
        Forall (fun w' => store w' = store w1
                          /\ writes (trace w') = writes (trace w1))
               (reconcileSeq c req gaps w1)).
Proof.
  split; [exact updateStatusIfNeeded_equal|].
  intros c req w gaps Hsteady Hwf Hfreq Hr w1.
  pose proof (Reconcile_converges c req w Hsteady Hwf Hfreq Hr) as Hconv.
  fold w1 in Hconv. clearbody w1. clear Hr Hwf Hsteady w.
  revert w1 Hconv. induction gaps as [|d gaps IH]; intros w1 Hconv;
    [constructor|].
  cbn [reconcileSeq].
  destruct (converged_step c req (idle d w1) Hconv) as [Hq Hconv'].
  apply quietly_trace_writes in Hq as [Hs Ht]. cbn [store trace idle] in Hs, Ht.
  apply Forall_cons. split; [done|].
  rewrite <- Hs, <- Ht. apply IH. exact Hconv'.
Qed.

Lemma no_write_when_unchanged_witness :
  let c := perClusterController (rest.Response 200) (rest.Response 200) in
  let cluster := sampleCluster [util.ClusterControllerFinalizer] readyStatus in
  let w := sampleWorld cluster in
  updateStatusIfNeeded c cluster readyStatus w
  = (({| Requeue := false; RequeueAfter := 10000 |}, None), w)
  /\ (let w1 := snd (Reconcile c "member1" w) in
      length (writes (trace w1)) = 1%nat
      /\ Forall (fun w' => store w' = store w1
                           /\ writes (trace w') = writes (trace w1))
                (reconcileSeq c "member1" [10000; 10000] w1)).
Proof.
  intros c cluster w. split.
  - apply (proj1 no_write_when_unchanged c cluster readyStatus w).
    vm_compute. reflexivity.
  - split; [vm_compute; reflexivity|].
    apply (proj2 no_write_when_unchanged c "member1" w [10000; 10000]).
    + intros cl _ s w1 w2. split; [reflexivity|].
      intros k' [= <-] w3 w4. repeat split; reflexivity.
    + intros name cl H.
      change (({[cl_Name cluster := cluster]} : gmap string Cluster) !! name
              = Some cl) in H.
      apply lookup_singleton_Some in H as [<- <-]. reflexivity.
    + cbn. lia.
    + vm_compute. reflexivity.
Defined.

Lemma transition_time_tracking_witness :
  let k := sampleClient (rest.Response 200) (rest.Response 200) in
  let c := sampleController k in
  let cluster := sampleCluster [util.ClusterControllerFinalizer] readyStatus in
  let w := sampleWorld cluster in
  let down := sampleController
                (sampleClient (rest.Response 500) (rest.Response 200)) in
  let w' := snd (Reconcile down "member1" w) in
  cs_Conditions
    (setTransitionTime readyStatus
       (withConditions zeroClusterStatus [template true true 100000]))
  = [template true true 5000]
  /\ setTransitionTime readyStatus
       (withConditions zeroClusterStatus [template false false 100000])
     = withConditions zeroClusterStatus [template false false 100000]
  /\ persistedTransitionTime (snd (Reconcile c "member1" w)) "member1"
     = Some 5000
  /\ Forall (fun w' => persistedTransitionTime w' "member1" = Some 5000)
            (reconcileSeq c "member1" [10000; 10000] w)
  /\ (persistedReady w "member1" = Some true
      /\ persistedTransitionTime w "member1" = Some 5000
      /\ persistedReady w' "member1" = Some false
      /\ persistedTransitionTime w' "member1" = Some 102000
      /\ Forall (fun w'' => persistedTransitionTime w'' "member1"
                            = Some 102000)
                (reconcileSeq down "member1" [10000; 10000] w')).
Proof.
  intros k c cluster w down w'.
  assert (wfStore w) as Hwf.
  { intros name cl H.
    change (({[cl_Name cluster := cluster]} : gmap string Cluster) !! name
            = Some cl) in H.
    apply lookup_singleton_Some in H as [<- <-]. reflexivity. }
  assert (store w !! "member1" = Some cluster) as Hget by reflexivity.
  assert (cs_Conditions (cl_Status cluster) <> []) as Hcond by discriminate.
  split; [|split; [|split; [|split]]].
  - rewrite (proj1 transition_time_tracking readyStatus
               (withConditions zeroClusterStatus [template true true 100000])
               (template true true 5000) eq_refl eq_refl).
    reflexivity.
  - apply (proj1 (proj2 transition_time_tracking)). discriminate.
  - apply (proj1 (proj1 (proj2 (proj2 transition_time_tracking))
                    c "member1" w cluster Hwf Hget Hcond)).
    vm_compute. reflexivity.
  - apply (proj1 (proj2 (proj2 (proj2 transition_time_tracking)))
             c "member1" [10000; 10000] w cluster Hwf Hget Hcond).
    repeat constructor.
  - destruct (proj2 (proj2 (proj2 (proj2 transition_time_tracking)))
                down "member1" w cluster
                (withConditions zeroClusterStatus
                   [template false false 102000])
                (snd (synthesize down cluster (called [GetCluster "member1"] w)))
                Hwf Hget eq_refl eq_refl eq_refl)
      as (H1 & H2 & H3 & _ & _ & H6).
    + vm_compute. reflexivity.
    + vm_compute. discriminate.
    + reflexivity.
    + split; [exact H1|]. split; [reflexivity|]. split; [exact H2|].
      split; [exact H3|]. apply (H6 [10000; 10000]).
      vm_compute. repeat constructor.
Defined.
(** * Further properties of the controller *)

(** ** Health prober *)



Lemma verdict_healthy (a : rest.Answer) :
  verdict (rest.Do a) = (true, true) <-> a = rest.Response http.StatusOK.
Proof.
  rewrite verdict_Do. split.
  - destruct a as [reason|code]; [discriminate|].
    destruct ((code =? 101) || _); [|discriminate].
    intros [= H]. apply Z.eqb_eq in H. now subst.
  - intros ->. reflexivity.
Qed.

(** X2: the prober reports online and healthy exactly when /readyz answers
    200, or /readyz answers 404 and /healthz then answers 200. *)
Theorem getClusterHealthStatus_healthy_iff (k : ClusterClient) (w : World) :
  fst (getClusterHealthStatus k w) = (true, true)
  <-> answerGet k "/readyz" w = rest.Response http.StatusOK
      \/ (answerGet k "/readyz" w = rest.Response http.StatusNotFound
          /\ answerGet k "/healthz" (called [ProbeEndpoint "/readyz"] w)
             = rest.Response http.StatusOK).
Proof.
  pose proof (getClusterHealthStatus_run k w) as Hrun. cbn zeta in Hrun.
  rewrite Hrun. clear Hrun.
  destruct (bool_decide _ && _) eqn:Hfb; cbn [fst].
  - apply Do_statusCode_NotFound in Hfb. rewrite verdict_healthy.
    split.
    + intros H. right. split; [exact Hfb | exact H].
    + intros [H|[_ H]]; [|exact H]. rewrite Hfb in H. discriminate.
  - rewrite verdict_healthy. split; [now left|].
    intros [H|[H _]]; [exact H|].
    apply Do_statusCode_NotFound in H. rewrite H in Hfb. discriminate.
Qed.

Lemma getClusterHealthStatus_healthy_iff_witness :
  fst (getClusterHealthStatus
         (sampleClient (rest.Response 404) (rest.Response 200))
         (sampleWorld (sampleCluster [] readyStatus))) = (true, true).
Proof.
  apply (proj2 (getClusterHealthStatus_healthy_iff _ _)).
  right. split; reflexivity.
Defined.

(** ** Transition tracker *)

Lemma IsClusterReady_setLastTransitionTime (s : ClusterStatus)
    (t : metav1.Time) :
  util.IsClusterReady
    (withConditions s (map (metav1.setLastTransitionTime t) (cs_Conditions s)))
  = util.IsClusterReady s.
Proof.
  unfold util.IsClusterReady. cbn [cs_Conditions withConditions].
  induction (cs_Conditions s) as [|c l IH]; [reflexivity|].
  cbn [map existsb]. now rewrite IH.
Qed.

(** X3: the tracker touches nothing but transition times: version, API
    enablements and node summary of the new status are kept, as are the
    number of conditions and the type, status, reason and message of each,
    and with them the readiness classification. *)
Theorem setTransitionTime_only_time (old new : ClusterStatus) :
  cs_KubernetesVersion (setTransitionTime old new) = cs_KubernetesVersion new
  /\ cs_APIEnablements (setTransitionTime old new) = cs_APIEnablements new
  /\ cs_NodeSummary (setTransitionTime old new) = cs_NodeSummary new
  /\ length (cs_Conditions (setTransitionTime old new))
     = length (cs_Conditions new)
  /\ map (metav1.setLastTransitionTime 0)
         (cs_Conditions (setTransitionTime old new))
     = map (metav1.setLastTransitionTime 0) (cs_Conditions new)
  /\ util.IsClusterReady (setTransitionTime old new)
     = util.IsClusterReady new.
Proof.
  destruct (setTransitionTime_rest old new) as (Hv & Ha & Hn & Hl).
  repeat split; try assumption.
  - unfold setTransitionTime.
    destruct (Bool.eqb _ _); destruct (cs_Conditions old); try reflexivity.
    cbn [cs_Conditions withConditions]. rewrite map_map. reflexivity.
  - unfold setTransitionTime.
    destruct (Bool.eqb _ _); destruct (cs_Conditions old); try reflexivity.
    apply IsClusterReady_setLastTransitionTime.
Qed.

(** X4: running the tracker a second time against the same old status
    changes nothing more. *)
Theorem setTransitionTime_idempotent (old new : ClusterStatus) :
  setTransitionTime old (setTransitionTime old new)
  = setTransitionTime old new.
Proof.
  unfold setTransitionTime at 2 3.
  destruct (Bool.eqb (util.IsClusterReady old) (util.IsClusterReady new))
    eqn:Hready.
  - destruct (cs_Conditions old) as [|old0 l] eqn:Hold.
    + unfold setTransitionTime. now rewrite Hready, Hold.
    + unfold setTransitionTime.
      rewrite IsClusterReady_setLastTransitionTime, Hready, Hold.
      unfold withConditions. cbn [cs_Conditions cs_KubernetesVersion
        cs_APIEnablements cs_NodeSummary]. rewrite map_map. reflexivity.
  - unfold setTransitionTime. now rewrite Hready.
Qed.

(** ** Requests of pods *)

Lemma requestResource_eq (a b : requestResource) :
  MilliCPU a = MilliCPU b -> Memory a = Memory b -> a = b.
Proof. destruct a, b. cbn. now intros -> ->. Qed.

(** X5: [addResource] only reads the cpu and memory entries of a request
    list: an entry under any other resource name makes no difference. *)
Theorem addResource_other_resource (r : requestResource) (rl : ResourceList)
    (name : string) (q : resource.Quantity) :
  name <> ResourceCPU -> name <> ResourceMemory ->
  addResource r (<[name := q]> rl) = addResource r rl.
Proof.
  intros Hc Hm.
  destruct (addResource_spec r (<[name := q]> rl)) as [H1 H2].
  destruct (addResource_spec r rl) as [H3 H4].
  rewrite lookup_insert_ne in H1 by done.
  rewrite lookup_insert_ne in H2 by done.
  apply requestResource_eq; congruence.
Qed.

Lemma addResource_other_resource_witness :
  addResource {| MilliCPU := 0; Memory := 0 |}
    (<["nvidia.com/gpu" := bQ 2]> (requests 500 (128 * Mi)))
  = addResource {| MilliCPU := 0; Memory := 0 |} (requests 500 (128 * Mi)).
Proof. apply addResource_other_resource; discriminate. Defined.

Lemma calculateResource_fold (cs : list Container) (r : requestResource)
    (cpu mem : Z) :
  MilliCPU r = wrap64 cpu -> Memory r = wrap64 mem ->
  let res := foldl (fun res c => addResource res (rr_Requests (ctr_Resources c)))
                   r cs in
  MilliCPU res = wrap64 (cpu + sumZ (map cpuRequest cs))
  /\ Memory res = wrap64 (mem + sumZ (map memoryRequest cs)).
Proof.
  revert r cpu mem. induction cs as [|c cs IH]; intros r cpu mem Hc Hm.
  - cbn. rewrite Hc, Hm. split; f_equal; lia.
  - cbn [foldl map]. rewrite !sumZ_cons.
    destruct (addResource_spec r (rr_Requests (ctr_Resources c))) as [H1 H2].
    destruct (IH (addResource r (rr_Requests (ctr_Resources c)))
                 (cpu + cpuRequest c) (mem + memoryRequest c)) as [IH1 IH2].
    + rewrite H1. unfold cpuRequest.
      destruct (_ !! ResourceCPU).
      * now rewrite Hc, wrap64_add_l.
      * rewrite Hc. f_equal. lia.
    + rewrite H2. unfold memoryRequest.
      destruct (_ !! ResourceMemory).
      * now rewrite Hm, wrap64_add_l.
      * rewrite Hm. f_equal. lia.
    + cbn zeta in IH1, IH2 |- *. rewrite IH1, IH2.
      split; f_equal; lia.
Qed.

(** X6: the requests of a pod are the sums, in 64-bit arithmetic, of what
    its containers request: cpu in thousandths, memory in bytes; a
    container without a cpu or memory request adds nothing, and a pod
    without containers requests nothing. *)
Theorem calculateResource_sum (pod : Pod) :
  MilliCPU (calculateResource pod)
  = wrap64 (sumZ (map cpuRequest (ps_Containers (pod_Spec pod))))
  /\ Memory (calculateResource pod)
     = wrap64 (sumZ (map memoryRequest (ps_Containers (pod_Spec pod)))).
Proof.
  unfold calculateResource.
  apply (calculateResource_fold _ {| MilliCPU := 0; Memory := 0 |} 0 0);
    reflexivity.
Qed.

(** ** Used resources *)

Lemma wrap64_range (z : Z) : - 2 ^ 63 <= wrap64 z < 2 ^ 63.
Proof.
  unfold wrap64.
  pose proof (Z.mod_pos_bound (z + 2 ^ 63) (2 ^ 64)) as H. lia.
Qed.

(** X7: whatever the pods are, also when there are none, the used
    resources have exactly two entries: cpu, a decimal quantity of
    thousandths, and memory, a binary quantity of bytes, both within the
    range of a 64-bit integer.  Other resources the pods request never
    show up. *)
Theorem getUsedResource_entries (podList : PodList) :
  exists cpu mem : Z,
    - 2 ^ 63 <= cpu < 2 ^ 63 /\ - 2 ^ 63 <= mem < 2 ^ 63
    /\ getUsedResource podList !! ResourceCPU
       = Some (resource.NewMilliQuantity cpu resource.DecimalSI)
    /\ getUsedResource podList !! ResourceMemory
       = Some (resource.NewQuantity mem resource.BinarySI)
    /\ forall name, name <> ResourceCPU -> name <> ResourceMemory ->
                    getUsedResource podList !! name = None.
Proof.
  unfold getUsedResource. rewrite usedRequests_spec.
  eexists _, _. split; [apply wrap64_range|]. split; [apply wrap64_range|].
  split; [apply lookup_insert_eq|]. split.
  - rewrite lookup_insert_ne by discriminate. apply lookup_insert_eq.
  - intros name Hc Hm. rewrite !lookup_insert_ne by done. apply lookup_empty.
Qed.

Lemma readyConditions_qualifies (pod : Pod) :
  (qualifies pod = false -> readyConditions pod = 0)
  /\ (qualifies pod = true -> 1 <= readyConditions pod).
Proof.
  unfold qualifies, readyConditions.
  destruct (String.eqb (pst_Phase (pod_Status pod)) "Running"); cbn [andb];
    [|split; [reflexivity | discriminate]].
  induction (pst_Conditions (pod_Status pod)) as [|c l [IH0 IH1]];
    [split; [reflexivity | discriminate]|].
  cbn [existsb List.filter].
  destruct (String.eqb (pc_Type c) "Ready" && String.eqb (pc_Status c) "True");
    cbn [orb length].
  - split; [discriminate | lia].
  - split; assumption.
Qed.

Lemma sumZ_zero (A : Type) (f : A -> Z) (l : list A) :
  Forall (fun x => f x = 0) l -> sumZ (map f l) = 0.
Proof.
  induction 1 as [|x l Hx _ IH]; [reflexivity|].
  cbn [map]. rewrite sumZ_cons, Hx, IH. reflexivity.
Qed.

(** X8: when no pod is both Running and Ready, the used resources are
    zero cpu and zero memory, whatever the pods request. *)
Theorem getUsedResource_nothing_qualifies (podList : PodList) :
  Forall (fun pod => qualifies pod = false) (pl_Items podList) ->
  getUsedResource podList
  = <[ResourceCPU := resource.NewMilliQuantity 0 resource.DecimalSI]>
      (<[ResourceMemory := resource.NewQuantity 0 resource.BinarySI]> ∅).
Proof.
  intros Hall. unfold getUsedResource. rewrite usedRequests_spec.
  rewrite !sumZ_zero; [reflexivity|..];
    (eapply Forall_impl; [exact Hall|]; intros pod Hq; cbn beta;
     now rewrite (proj1 (readyConditions_qualifies pod) Hq)).
Qed.

Lemma getUsedResource_nothing_qualifies_witness :
  getUsedResource
    {| pl_Items := [ samplePod "c" "Running" [podNotReady] 100 (32 * Mi);
                     samplePod "d" "Pending" [podReady] 200 (64 * Mi) ] |}
  = <[ResourceCPU := resource.NewMilliQuantity 0 resource.DecimalSI]>
      (<[ResourceMemory := resource.NewQuantity 0 resource.BinarySI]> ∅).
Proof.
  apply getUsedResource_nothing_qualifies. repeat constructor.
Defined.

Lemma sumZ_qualifying (f : Pod -> Z) (pods : list Pod) :
  Forall (fun pod => readyConditions pod <= 1) pods ->
  sumZ (map (fun pod => readyConditions pod * f pod) pods)
  = sumZ (map f (List.filter qualifies pods)).
Proof.
  induction 1 as [|pod pods Hpod _ IH]; [reflexivity|].
  cbn [map List.filter]. rewrite sumZ_cons, IH.
  destruct (readyConditions_qualifies pod) as [H0 H1].
  destruct (qualifies pod).
  - cbn [map]. rewrite sumZ_cons. specialize (H1 eq_refl).
    replace (readyConditions pod) with 1 by lia. lia.
  - rewrite (H0 eq_refl). lia.
Qed.

(** X9: when no pod lists more than one Ready condition with status True,
    the used cpu and memory are the sums, in 64-bit arithmetic, of the
    requests of the pods that are Running and Ready, each pod counted
    once. *)
Theorem getUsedResource_each_pod_once (podList : PodList) :
  Forall (fun pod => readyConditions pod <= 1) (pl_Items podList) ->
  let counted := List.filter qualifies (pl_Items podList) in
  getUsedResource podList
  = <[ResourceCPU :=
        resource.NewMilliQuantity
          (wrap64 (sumZ (map (fun pod => MilliCPU (calculateResource pod))
                             counted)))
          resource.DecimalSI]>
      (<[ResourceMemory :=
           resource.NewQuantity
             (wrap64 (sumZ (map (fun pod => Memory (calculateResource pod))
                                counted)))
             resource.BinarySI]> ∅).
Proof.
  intros Hall counted. unfold getUsedResource. rewrite usedRequests_spec.
  unfold addPodRequestResource.
  rewrite (sumZ_qualifying (fun pod => MilliCPU (calculateResource pod)))
    by exact Hall.
  rewrite (sumZ_qualifying (fun pod => Memory (calculateResource pod)))
    by exact Hall.
  reflexivity.
Qed.

Lemma getUsedResource_each_pod_once_witness :
  getUsedResource samplePods
  = <[ResourceCPU := resource.NewMilliQuantity 750 resource.DecimalSI]>
      (<[ResourceMemory :=
           resource.NewQuantity (192 * Mi) resource.BinarySI]> ∅).
Proof.
  rewrite (getUsedResource_each_pod_once samplePods).
  - vm_compute. reflexivity.
  - repeat constructor; vm_compute; discriminate.
Defined.

Lemma sumZ_Permutation (l l' : list Z) : l ≡ₚ l' -> sumZ l = sumZ l'.
Proof.
  induction 1 as [|x l l' _ IH|x y l|l l' l'' _ IH1 _ IH2].
  - reflexivity.
  - rewrite !sumZ_cons. lia.
  - rewrite !sumZ_cons. lia.
  - congruence.
Qed.

(** X10: the used resources do not depend on the order in which the pods
    are listed. *)
Theorem getUsedResource_order (podList podList' : PodList) :
  pl_Items podList ≡ₚ pl_Items podList' ->
  getUsedResource podList = getUsedResource podList'.
Proof.
  intros Hperm. unfold getUsedResource. rewrite !usedRequests_spec.
  rewrite (sumZ_Permutation
             (map (fun pod => readyConditions pod
                              * MilliCPU (addPodRequestResource pod))
                  (pl_Items podList))
             (map (fun pod => readyConditions pod
                              * MilliCPU (addPodRequestResource pod))
                  (pl_Items podList')))
    by now apply Permutation_map.
  rewrite (sumZ_Permutation
             (map (fun pod => readyConditions pod
                              * Memory (addPodRequestResource pod))
                  (pl_Items podList))
             (map (fun pod => readyConditions pod
                              * Memory (addPodRequestResource pod))
                  (pl_Items podList')))
    by now apply Permutation_map.
  reflexivity.
Qed.

Lemma getUsedResource_order_witness :
  getUsedResource {| pl_Items := rev (pl_Items samplePods) |}
  = getUsedResource samplePods.
Proof.
  apply getUsedResource_order. cbn [pl_Items]. symmetry.
  apply Permutation_rev.
Defined.

(** ** Node summary and API enablements *)

(** X11: listing the nodes in another order gives an allocatable total
    that is semantically equal: the same resource names with the same
    values (the print format of an entry may follow another node). *)
Theorem getClusterAllocatable_order (nodeList nodeList' : NodeList) :
  nl_Items nodeList ≡ₚ nl_Items nodeList' ->
  quantitiesEqual (getClusterAllocatable nodeList)
                  (getClusterAllocatable nodeList') = true.
Proof.
  intros Hperm. unfold quantitiesEqual. apply bool_decide_eq_true.
  apply map_eq. intros key. rewrite !lookup_fmap.
  unfold getClusterAllocatable.
  destruct (getClusterAllocatable_lookup (nl_Items nodeList) ∅ key)
    as [Hnone Hsum].
  destruct (getClusterAllocatable_lookup (nl_Items nodeList') ∅ key)
    as [Hnone' Hsum'].
  rewrite lookup_empty in Hnone, Hsum, Hnone', Hsum'.
  assert (Forall (fun node => ns_Allocatable (node_Status node) !! key = None)
                 (nl_Items nodeList)
          <-> Forall (fun node => ns_Allocatable (node_Status node) !! key = None)
                     (nl_Items nodeList')) as Hall.
  { split; apply Permutation_Forall; [exact Hperm | now symmetry]. }
  rewrite (sumZ_Permutation _ _ (Permutation_map (allocatableOf key) Hperm))
    in Hsum.
  rewrite <- Hsum' in Hsum. clear Hsum'.
  destruct (foldl _ ∅ (nl_Items nodeList) !! key) as [q|] eqn:Hq;
    destruct (foldl _ ∅ (nl_Items nodeList') !! key) as [q'|] eqn:Hq';
    cbn in *.
  - now rewrite Hsum.
  - exfalso. assert (Some q = None) as Hc; [|discriminate].
    apply Hnone. split; [reflexivity|]. apply Hall. now apply Hnone'.
  - exfalso. assert (Some q' = None) as Hc; [|discriminate].
    apply Hnone'. split; [reflexivity|]. apply Hall. now apply Hnone.
  - reflexivity.
Qed.

Lemma getClusterAllocatable_order_witness :
  quantitiesEqual
    (getClusterAllocatable {| nl_Items := rev (nl_Items sampleNodes) |})
    (getClusterAllocatable sampleNodes) = true.
Proof.
  apply getClusterAllocatable_order. cbn [nl_Items]. symmetry.
  apply Permutation_rev.
Defined.

(** X12: a node summary that is returned has no more ready nodes than
    nodes, and neither count is negative. *)
Theorem getNodeSummary_ready_le_total (k : ClusterClient) (w : World) :
  match fst (getNodeSummary k w) with
  | Ok summary => 0 <= ReadyNum summary <= TotalNum summary
  | Err _ => True
  end.
Proof.
  rewrite (proj1 (getNodeSummary_fst k w)).
  destruct (answerListNodes k w) as [nodeList|err]; [|exact I].
  destruct (answerListPods k _) as [podList|err]; [|exact I].
  cbn [ReadyNum TotalNum]. rewrite readyNum_count.
  pose proof (List.filter_length_le
                (fun node => getReadyStatusForNode (node_Status node))
                (nl_Items nodeList)) as Hle.
  lia.
Qed.

Lemma foldl_snoc_map {A B : Type} (f : A -> B) (l : list A) (init : list B) :
  foldl (fun acc x => acc ++ [f x])%list init l = (init ++ map f l)%list.
Proof.
  revert init. induction l as [|x l IH]; intros init; cbn.
  - now rewrite app_nil_r.
  - rewrite IH, <- app_assoc. reflexivity.
Qed.

(** X13: the API enablements are the discovered resource lists one for
    one and in their order, each with its group version and the names of
    its resources in their order; a discovery error is returned as it is,
    with no enablements. *)
Theorem getAPIEnablements_lists (k : ClusterClient) (w : World) :
  getAPIEnablements k w =
    (match answerServerGroupsAndResources k w with
     | Err err => Err err
     | Ok apiResourceList =>
         Ok (map (fun list =>
                    {| GroupVersion := arl_GroupVersion list;
                       Resources := map ar_Name (arl_APIResources list) |})
                 apiResourceList)
     end, called [ListAPIResources] w).
Proof.
  unfold getAPIEnablements, bind, getWorld, record, ret.
  destruct (answerServerGroupsAndResources k w) as [l|err]; [|reflexivity].
  unfold called. do 2 f_equal.
  rewrite (foldl_snoc_map
             (fun list =>
                {| GroupVersion := arl_GroupVersion list;
                   Resources :=
                     foldl (fun apiResource resource =>
                              apiResource ++ [ar_Name resource])%list
                           [] (arl_APIResources list) |}) l []).
  cbn [app]. apply map_ext. intros list.
  now rewrite (foldl_snoc_map ar_Name).
Qed.

(** ** Calls and waiting of one reconciliation *)

Lemma called_app (l1 l2 : list Call) (w : World) :
  called l2 (called l1 w) = called (l1 ++ l2) w.
Proof. unfold called. cbn. now rewrite app_assoc. Qed.

Lemma healthPhase_run (k : ClusterClient) (w0 : World) :
  healthPhase k w0 =
    if fst (fst (getClusterHealthStatus k w0))
    then ((fst (getClusterHealthStatus k w0), None),
          snd (getClusterHealthStatus k w0))
    else Poll clusterStatusRetryInterval clusterStatusRetryTimeout
              (healthCheckTook k) (retryCondition k)
              (fst (getClusterHealthStatus k w0))
              (snd (getClusterHealthStatus k w0)).
Proof.
  unfold healthPhase, bind, ret.
  destruct (getClusterHealthStatus k w0) as [[[|] healthy] w1]; reflexivity.
Qed.

(** The health phase, whatever the member cluster answers and however long
    it takes to answer: probes and sleeps only; a cluster found online at
    once is checked once and not waited for; one found offline is checked
    again after one retry interval; no sleep is longer than the interval,
    all of them together are not longer than the timeout, and there are at
    most six health checks; the phase ends without error exactly when its
    last health check found the cluster online. *)
Lemma healthPhase_spec (k : ClusterClient) (w0 : World) :
  exists (v : bool * bool) (err : option Error) (w2 : World)
         (calls : list Call),
    healthPhase k w0 = ((v, err), w2)
    /\ store w2 = store w0
    /\ now w0 <= now w2
    /\ trace w2 = (trace w0 ++ calls)%list
    /\ Forall (fun call => probing call = true) calls
    /\ Forall (fun d => 0 < d <= clusterStatusRetryInterval) (sleeps calls)
    /\ sumZ (sleeps calls) <= clusterStatusRetryTimeout
    /\ (1 <= healthChecks calls <= 6)%nat
    /\ (err = None /\ fst v = true
        \/ err = Some ErrWaitTimeout /\ fst v = false)
    /\ (fst (fst (getClusterHealthStatus k w0)) = true ->
        sleeps calls = [] /\ healthChecks calls = 1%nat /\ now w2 = now w0)
    /\ (fst (fst (getClusterHealthStatus k w0)) = false ->
        exists more rest,
          calls = (ProbeEndpoint "/readyz" :: more
                   ++ Sleep clusterStatusRetryInterval
                   :: ProbeEndpoint "/readyz" :: rest)%list
          /\ (more = [] \/ more = [ProbeEndpoint "/healthz"])).
Proof.
  rewrite healthPhase_run.
  destruct (getClusterHealthStatus_calls k w0) as (more & Hw1 & Hmore).
  assert (Forall (fun call => probing call = true)
                 (ProbeEndpoint "/readyz" :: more)
          /\ sleeps (ProbeEndpoint "/readyz" :: more) = []
          /\ healthChecks (ProbeEndpoint "/readyz" :: more) = 1%nat)
    as (Hp1 & Hsl1 & Hh1)
    by (destruct Hmore as [-> | ->]; repeat split; repeat constructor).
  destruct (fst (fst (getClusterHealthStatus k w0))) eqn:Honline.
  - exists (fst (getClusterHealthStatus k w0)), None,
      (snd (getClusterHealthStatus k w0)), (ProbeEndpoint "/readyz" :: more).
    rewrite Hw1, Hsl1, Hh1. cbn [store now trace called].
    split; [reflexivity|]. split; [reflexivity|]. split; [lia|].
    split; [reflexivity|]. split; [exact Hp1|]. split; [constructor|].
    split; [cbn; unfold clusterStatusRetryTimeout; lia|]. split; [lia|].
    split; [left; now split|]. split; [done|discriminate].
  - pose proof (Poll_retried k (fst (getClusterHealthStatus k w0))
                  (snd (getClusterHealthStatus k w0))) as Hr.
    pose proof (Poll_first k (fst (getClusterHealthStatus k w0))
                  (snd (getClusterHealthStatus k w0))) as (rest & Hfirst).
    destruct (Poll _ _ _ _ _ _) as [[v' err] w2].
    cbn [snd] in Hfirst.
    destruct Hr as (last & calls & pre & H1 & H2 & H3 & H4 & H5 & H6 & H7
                    & _ & _ & _ & _ & _ & H13 & _).
    rewrite Hw1 in H1, H2, H3, Hfirst. cbn [store now trace called] in *.
    rewrite H3 in Hfirst. apply app_inv_head in Hfirst.
    exists v', err, w2, ((ProbeEndpoint "/readyz" :: more) ++ calls)%list.
    split; [reflexivity|]. split; [exact H1|]. split; [exact H2|].
    split; [rewrite H3; now rewrite <- app_assoc|].
    split; [now apply Forall_app|].
    rewrite sleeps_app, healthChecks_app, Hsl1, Hh1.
    split; [exact H5|]. split; [exact H6|]. split; [lia|].
    split; [exact H13|]. split; [discriminate|].
    intros _. exists more, rest. split; [|exact Hmore].
    rewrite Hfirst. reflexivity.
Qed.

(** After the health phase: on a timeout the candidate is the bare
    unreachable status and nothing more is called; otherwise the member
    cluster is asked in the fixed order up to the first call that fails,
    and a candidate exists exactly when none fails. *)
Lemma synthesize_health (c : ClusterStatusController) (cluster : Cluster)
    (w : World) (k : ClusterClient) (v : bool * bool) (err : option Error)
    (w2 : World) :
  ClusterClientSetFunc c cluster w = Ok k ->
  healthPhase k (called [NewClusterClient (cl_Name cluster)] w)
  = ((v, err), w2) ->
  match err with
  | Some _ =>
      synthesize c cluster w
      = (Ok (setTransitionTime (cl_Status cluster)
               (withConditions zeroClusterStatus
                  [template false false (now w2)])), w2)
  | None =>
      snd (synthesize c cluster w)
      = called (take (fst (firstFailure k w2)) pipelineOrder) w2
      /\ match snd (firstFailure k w2) with
         | Some e => fst (synthesize c cluster w) = Err e
         | None => exists current, fst (synthesize c cluster w) = Ok current
         end
  end.
Proof.
  intros Hk Hhealth.
  unfold synthesize, bind, getWorld, record, ret. rewrite Hk.
  change {| now := now w; trace := trace w ++ [NewClusterClient (cl_Name cluster)];
            store := store w |}
    with (called [NewClusterClient (cl_Name cluster)] w).
  unfold healthPhase, bind, ret in Hhealth.
  destruct (getClusterHealthStatus k _) as [[online healthy] w1].
  rewrite Hhealth. clear Hhealth. destruct v as [online' healthy'].
  destruct err as [err|].
  { rewrite generateReadyCondition_run. reflexivity. }
  rewrite getKubernetesVersion_run. unfold firstFailure.
  destruct (answerServerVersion k w2) as [version|err]; [|done].
  unfold getAPIEnablements, bind, getWorld, record, ret.
  fold (called [ServerVersion] w2).
  destruct (answerServerGroupsAndResources k (called [ServerVersion] w2))
    as [lists|err].
  2:{ cbn [fst snd]. split; [|reflexivity].
      change {| now := now (called [ServerVersion] w2);
                trace := trace (called [ServerVersion] w2) ++ [ListAPIResources];
                store := store (called [ServerVersion] w2) |}
        with (called [ListAPIResources] (called [ServerVersion] w2)).
      now rewrite called_app. }
  change {| now := now (called [ServerVersion] w2);
            trace := trace (called [ServerVersion] w2) ++ [ListAPIResources];
            store := store (called [ServerVersion] w2) |}
    with (called [ListAPIResources] (called [ServerVersion] w2)).
  rewrite called_app. cbn [app].
  unfold getNodeSummary, bind, getWorld, record, ret.
  destruct (answerListNodes k (called [ServerVersion; ListAPIResources] w2))
    as [nodeList|err].
  2:{ cbn [fst snd]. split; [|reflexivity].
      change {| now := now (called [ServerVersion; ListAPIResources] w2);
                trace := trace (called [ServerVersion; ListAPIResources] w2)
                         ++ [ListNodes];
                store := store (called [ServerVersion; ListAPIResources] w2) |}
        with (called [ListNodes] (called [ServerVersion; ListAPIResources] w2)).
      now rewrite called_app. }
  change {| now := now (called [ServerVersion; ListAPIResources] w2);
            trace := trace (called [ServerVersion; ListAPIResources] w2)
                     ++ [ListNodes];
            store := store (called [ServerVersion; ListAPIResources] w2) |}
    with (called [ListNodes] (called [ServerVersion; ListAPIResources] w2)).
  rewrite called_app. cbn [app].
  destruct (answerListPods k
              (called [ServerVersion; ListAPIResources; ListNodes] w2))
    as [podList|err].
  - rewrite generateReadyCondition_run. cbn [fst snd].
    split; [|eexists; reflexivity].
    change {| now := now (called [ServerVersion; ListAPIResources; ListNodes] w2);
              trace := trace (called [ServerVersion; ListAPIResources; ListNodes] w2)
                       ++ [ListAllPods];
              store := store (called [ServerVersion; ListAPIResources; ListNodes] w2) |}
      with (called [ListAllPods]
              (called [ServerVersion; ListAPIResources; ListNodes] w2)).
    now rewrite called_app.
  - cbn [fst snd]. split; [|reflexivity].
    change {| now := now (called [ServerVersion; ListAPIResources; ListNodes] w2);
              trace := trace (called [ServerVersion; ListAPIResources; ListNodes] w2)
                       ++ [ListAllPods];
              store := store (called [ServerVersion; ListAPIResources; ListNodes] w2) |}
      with (called [ListAllPods]
              (called [ServerVersion; ListAPIResources; ListNodes] w2)).
    now rewrite called_app.
Qed.

Lemma firstFailure_stage (k : ClusterClient) (w : World) :
  (1 <= fst (firstFailure k w) <= 4)%nat
  /\ (snd (firstFailure k w) = None -> fst (firstFailure k w) = 4%nat).
Proof.
  unfold firstFailure.
  destruct (answerServerVersion k w); [|cbn; split; [lia|discriminate]].
  destruct (answerServerGroupsAndResources k _);
    [|cbn; split; [lia|discriminate]].
  destruct (answerListNodes k _); [|cbn; split; [lia|discriminate]].
  destruct (answerListPods k _); cbn; split; (lia || done).
Qed.

Lemma sleeps_take_pipelineOrder (stage : nat) :
  sleeps (take stage pipelineOrder) = []
  /\ healthChecks (take stage pipelineOrder) = 0%nat.
Proof. do 5 (destruct stage as [|stage]; [done|]). done. Qed.

Lemma updateStatusIfNeeded_trace (c : ClusterStatusController)
    (cluster : Cluster) (current : ClusterStatus) (w : World) :
  now (snd (updateStatusIfNeeded c cluster current w)) = now w
  /\ ((DeepEqual (cl_Status cluster) current = true
       /\ trace (snd (updateStatusIfNeeded c cluster current w)) = trace w)
      \/ (DeepEqual (cl_Status cluster) current = false
          /\ trace (snd (updateStatusIfNeeded c cluster current w))
             = (trace w ++ [UpdateClusterStatus (withStatus cluster current)])%list)).
Proof.
  destruct (DeepEqual (cl_Status cluster) current) eqn:Heq.
  - rewrite updateStatusIfNeeded_equal by exact Heq. cbn. split; [done|].
    now left.
  - pose proof (updateStatusIfNeeded_differ c cluster current w Heq) as Hrun.
    cbn zeta in Hrun. rewrite Hrun.
    destruct (failUpdate c _ w); [|destruct (store w !! _)];
      (split; [reflexivity | right; split; reflexivity]).
Qed.

(** The calls of one run of [syncClusterStatus]: client creation, probes
    and sleeps; then calls to the member cluster in the fixed order; then
    at most one status update. *)
Lemma syncClusterStatus_trace (c : ClusterStatusController) (cluster : Cluster)
    (w : World) :
  exists (stage : nat) (pre upd : list Call),
    trace (snd (syncClusterStatus c cluster w))
    = (trace w ++ pre ++ take stage pipelineOrder ++ upd)%list
    /\ Forall (fun call => probing call = true) pre
    /\ Forall (fun d => 0 < d <= clusterStatusRetryInterval) (sleeps pre)
    /\ sumZ (sleeps pre) <= clusterStatusRetryTimeout
    /\ (healthChecks pre <= 6)%nat
    /\ now w <= now (snd (syncClusterStatus c cluster w))
    /\ (upd = []
        \/ exists current,
             upd = [UpdateClusterStatus (withStatus cluster current)]
             /\ (stage = 0%nat \/ stage = 4%nat)
             /\ DeepEqual (cl_Status cluster) current = false).
Proof.
  rewrite syncClusterStatus_synthesize.
  assert (forall (stage : nat) (pre : list Call) (w2 : World),
    snd (synthesize c cluster w) = called (take stage pipelineOrder) w2 ->
    trace w2 = (trace w ++ pre)%list ->
    now w <= now w2 ->
    (forall current, fst (synthesize c cluster w) = Ok current ->
                     stage = 0%nat \/ stage = 4%nat) ->
    exists upd,
      trace (snd (let '(r, w1) := synthesize c cluster w in
                  match r with
                  | Ok current => updateStatusIfNeeded c cluster current w1
                  | Err err =>
                      ({| Requeue := true; RequeueAfter := 0 |}, Some err, w1)
                  end))
      = (trace w ++ pre ++ take stage pipelineOrder ++ upd)%list
      /\ now w <= now (snd (let '(r, w1) := synthesize c cluster w in
                  match r with
                  | Ok current => updateStatusIfNeeded c cluster current w1
                  | Err err =>
                      ({| Requeue := true; RequeueAfter := 0 |}, Some err, w1)
                  end))
      /\ (upd = []
          \/ exists current,
               upd = [UpdateClusterStatus (withStatus cluster current)]
               /\ (stage = 0%nat \/ stage = 4%nat)
               /\ DeepEqual (cl_Status cluster) current = false)) as Hfinish.
  { intros stage pre w2 Hw Ht Hnow Hstage.
    destruct (synthesize c cluster w) as [[current|err] w1];
      cbn [fst snd] in *; subst w1.
    - destruct (updateStatusIfNeeded_trace c cluster current
                  (called (take stage pipelineOrder) w2))
        as [Hn [[Heq Htr]|[Hne Htr]]].
      + exists []. rewrite Htr, Hn. cbn [trace now called].
        rewrite Ht, app_nil_r, <- app_assoc. repeat split; [lia|now left].
      + exists [UpdateClusterStatus (withStatus cluster current)].
        rewrite Htr, Hn. cbn [trace now called].
        rewrite Ht, <- !app_assoc. repeat split; [lia|].
        right. exists current. repeat split; [exact (Hstage current eq_refl)|exact Hne].
    - exists []. cbn [trace now called].
      rewrite Ht, app_nil_r, <- app_assoc. repeat split; [lia|now left]. }
  destruct (ClusterClientSetFunc c cluster w) as [k|err] eqn:Hk.
  2:{ destruct (Hfinish 0%nat [NewClusterClient (cl_Name cluster)]
                  (called [NewClusterClient (cl_Name cluster)] w))
        as (upd & Ht & Hn & Hupd).
      - unfold synthesize, bind, getWorld, record, ret. rewrite Hk.
        cbn. unfold called. cbn. now rewrite app_nil_r.
      - reflexivity.
      - cbn. lia.
      - now left.
      - exists 0%nat, [NewClusterClient (cl_Name cluster)], upd.
        split; [exact Ht|]. split; [repeat constructor|].
        split; [constructor|].
        split; [cbn; unfold clusterStatusRetryTimeout; lia|].
        split; [cbn; lia|]. split; [exact Hn|exact Hupd]. }
  destruct (healthPhase_spec k (called [NewClusterClient (cl_Name cluster)] w))
    as (v & err & w2 & calls & Hh & Hs & Hn & Ht & Hp & Hd & Hsum & Hc & _).
  pose proof (synthesize_health c cluster w k v err w2 Hk Hh) as Hsyn.
  cbn [trace now called] in Ht, Hn. rewrite <- app_assoc in Ht.
  assert (Forall (fun call => probing call = true)
            ([NewClusterClient (cl_Name cluster)] ++ calls)) as Hp'
    by (constructor; [done|exact Hp]).
  destruct err as [e|].
  - destruct (Hfinish 0%nat ([NewClusterClient (cl_Name cluster)] ++ calls)%list
                w2) as (upd & Ht' & Hn' & Hupd).
    + rewrite Hsyn. cbn. unfold called. rewrite app_nil_r. now destruct w2.
    + exact Ht.
    + exact Hn.
    + now left.
    + exists 0%nat, ([NewClusterClient (cl_Name cluster)] ++ calls)%list, upd.
      split; [exact Ht'|]. split; [exact Hp'|].
      split; [exact Hd|]. split; [exact Hsum|].
      split; [change (healthChecks calls <= 6)%nat; lia|].
      split; [exact Hn'|exact Hupd].
  - destruct Hsyn as [Hw Hres].
    destruct (firstFailure_stage k w2) as [_ Hfour].
    destruct (Hfinish (fst (firstFailure k w2))
                ([NewClusterClient (cl_Name cluster)] ++ calls)%list w2)
      as (upd & Ht' & Hn' & Hupd).
    + exact Hw.
    + exact Ht.
    + exact Hn.
    + intros current Hcur. right. apply Hfour.
      destruct (snd (firstFailure k w2)); [congruence|reflexivity].
    + exists (fst (firstFailure k w2)),
        ([NewClusterClient (cl_Name cluster)] ++ calls)%list, upd.
      split; [exact Ht'|]. split; [exact Hp'|].
      split; [exact Hd|]. split; [exact Hsum|].
      split; [change (healthChecks calls <= 6)%nat; lia|].
      split; [exact Hn'|exact Hupd].
Qed.

(** X14: with a client at hand, one run of [syncClusterStatus] creates the
    client and goes through the health phase, in which it only probes and
    sleeps.  If the phase ends with a timeout no call to the member cluster
    follows.  Otherwise it asks for version, API resources, nodes and pods
    in this order, each at the world the calls before it have left, and
    stops at the first call that fails: that call is the last one made,
    its error is returned with an immediate requeue and no status update
    is made.  A status update, if any, comes last, and only after all four
    calls have succeeded or, on a timeout, after none of them. *)
Theorem syncClusterStatus_call_order (c : ClusterStatusController)
    (cluster : Cluster) (w : World) (k : ClusterClient) :
  ClusterClientSetFunc c cluster w = Ok k ->
  let phase :=
    healthPhase k (called [NewClusterClient (cl_Name cluster)] w) in
  let w2 := snd phase in
  let r := syncClusterStatus c cluster w in
  Forall (fun call => probing call = true) (newCalls w w2)
  /\ exists upd : list Call,
       (upd = []
        \/ exists current,
             upd = [UpdateClusterStatus (withStatus cluster current)])
       /\ match snd (fst phase) with
          | Some _ => newCalls w2 (snd r) = upd
          | None =>
              newCalls w2 (snd r)
              = (take (fst (firstFailure k w2)) pipelineOrder ++ upd)%list
              /\ match snd (firstFailure k w2) with
                 | Some err =>
                     fst r = ({| Requeue := true; RequeueAfter := 0 |},
                              Some err)
                     /\ upd = []
                 | None => fst (firstFailure k w2) = 4%nat
                 end
          end.
Proof.
  intros Hk phase w2 r. subst phase w2 r.
  destruct (healthPhase_spec k (called [NewClusterClient (cl_Name cluster)] w))
    as (v & err & w2 & calls & Hh & Hs & Hn & Ht & Hp & _).
  pose proof (synthesize_health c cluster w k v err w2 Hk Hh) as Hsyn.
  rewrite Hh. cbn [fst snd].
  cbn [trace called] in Ht. rewrite <- app_assoc in Ht.
  split.
  { rewrite (newCalls_app _ _ _ Ht). constructor; [done|exact Hp]. }
  rewrite syncClusterStatus_synthesize.
  assert (forall current w1,
    exists upd,
      (upd = []
       \/ exists current',
            upd = [UpdateClusterStatus (withStatus cluster current')])
      /\ trace (snd (updateStatusIfNeeded c cluster current w1))
         = (trace w1 ++ upd)%list) as Hupd.
  { intros current w1.
    destruct (updateStatusIfNeeded_trace c cluster current w1)
      as [_ [[_ Htr]|[_ Htr]]].
    - exists []. split; [now left|]. now rewrite app_nil_r.
    - eexists. split; [right; eexists; reflexivity|exact Htr]. }
  destruct err as [e|].
  - rewrite Hsyn.
    destruct (Hupd (setTransitionTime (cl_Status cluster)
                      (withConditions zeroClusterStatus
                         [template false false (now w2)])) w2)
      as (upd & Hu & Htr).
    exists upd. split; [exact Hu|]. now apply newCalls_app.
  - destruct Hsyn as [Hw Hres].
    destruct (firstFailure_stage k w2) as [_ Hfour].
    destruct (synthesize c cluster w) as [[current|e] w1];
      cbn [fst snd] in Hw, Hres; subst w1.
    + destruct (Hupd current
                  (called (take (fst (firstFailure k w2)) pipelineOrder) w2))
        as (upd & Hu & Htr).
      exists upd. split; [exact Hu|].
      split; [apply newCalls_app; rewrite Htr; cbn; now rewrite <- app_assoc|].
      destruct (snd (firstFailure k w2)); [discriminate|now apply Hfour].
    + exists []. split; [now left|].
      split; [apply newCalls_app; cbn; now rewrite app_nil_r|].
      destruct (snd (firstFailure k w2)) as [e'|].
      * injection Hres as ->. now split.
      * destruct Hres as (current & Hcur). discriminate.
Qed.

Lemma syncClusterStatus_call_order_witness :
  let k :=
    {| ClusterName := "member1";
       answerGet := fun _ _ => rest.Response 200;
       answerServerVersion := fun _ => Ok "v1.19.1";
       answerServerGroupsAndResources := fun _ => Err (StatusError 503);
       answerListNodes := fun _ => Ok sampleNodes;
       answerListPods := fun _ => Ok samplePods;
       healthCheckTook := fun _ => 0 |} in
  let c := sampleController k in
  let cluster := sampleCluster [util.ClusterControllerFinalizer] readyStatus in
  let w := sampleWorld cluster in
  newCalls w (snd (syncClusterStatus c cluster w))
  = [NewClusterClient "member1"; ProbeEndpoint "/readyz";
     ServerVersion; ListAPIResources]
  /\ fst (syncClusterStatus c cluster w)
     = ({| Requeue := true; RequeueAfter := 0 |}, Some (StatusError 503)).
Proof.
  intros k c cluster w. split; [reflexivity|].
  destruct (syncClusterStatus_call_order c cluster w k eq_refl)
    as (_ & upd & _ & _ & Hres & _).
  exact Hres.
Defined.

(** X15: however long the member cluster takes to answer and whatever it
    answers, one reconciliation spends at most the retry timeout of 2 s
    sleeping, in sleeps of at most one retry interval of 500 ms each, and
    it checks the health of the member cluster at most six times: once at
    first and at most five times in the retry poll. *)
Theorem Reconcile_bounded_wait (c : ClusterStatusController) (req : string)
    (w : World) :
  let calls := newCalls w (snd (Reconcile c req w)) in
  Forall (fun d => 0 < d <= clusterStatusRetryInterval) (sleeps calls)
  /\ sumZ (sleeps calls) <= clusterStatusRetryTimeout
  /\ (healthChecks calls <= 6)%nat.
Proof.
  cbn zeta. pose proof (Reconcile_run c req w) as Hrun. cbn zeta in Hrun.
  rewrite Hrun. clear Hrun.
  assert (forall r : Result * option Error,
    Forall (fun d => 0 < d <= clusterStatusRetryInterval)
           (sleeps (newCalls w (snd (r, called [GetCluster req] w))))
    /\ sumZ (sleeps (newCalls w (snd (r, called [GetCluster req] w))))
       <= clusterStatusRetryTimeout
    /\ (healthChecks (newCalls w (snd (r, called [GetCluster req] w)))
        <= 6)%nat) as Hearly.
  { intros r. cbn [snd].
    rewrite (newCalls_app w _ [GetCluster req]) by reflexivity.
    repeat split; [constructor | cbn; unfold clusterStatusRetryTimeout; lia
                  | cbn; lia]. }
  destruct (failGet c req w) as [err|]; [apply Hearly|].
  destruct (store w !! req) as [cluster|]; [|apply Hearly].
  destruct (negb (IsZero _)); [apply Hearly|].
  destruct (negb (ContainsFinalizer _ _)); [apply Hearly|].
  destruct (syncClusterStatus_trace c cluster (called [GetCluster req] w))
    as (stage & pre & upd & Ht & Hpre & Hd & Hsum & Hh & _ & Hupd).
  rewrite (newCalls_app w _
             (GetCluster req :: pre ++ take stage pipelineOrder ++ upd))
    by (rewrite Ht; cbn [trace called]; now rewrite <- app_assoc).
  change (sleeps (GetCluster req :: pre ++ take stage pipelineOrder ++ upd))
    with (sleeps (pre ++ take stage pipelineOrder ++ upd)).
  change (healthChecks
            (GetCluster req :: pre ++ take stage pipelineOrder ++ upd))
    with (healthChecks (pre ++ take stage pipelineOrder ++ upd)).
  rewrite !sleeps_app, !healthChecks_app.
  destruct (sleeps_take_pipelineOrder stage) as [-> ->].
  assert (sleeps upd = [] /\ healthChecks upd = 0%nat) as [-> ->]
    by (destruct Hupd as [->|(current & -> & _)]; done).
  rewrite !app_nil_r. repeat split; [exact Hd | exact Hsum | lia].
Qed.

(** ** Results and writes *)

(** X16: a conditional write that returns no error leaves the stored status
    semantically equal to the candidate and asks for a requeue after the
    configured frequency; one that returns an error asks for an immediate
    requeue, has made exactly one update call and leaves the store as it
    was. *)
Theorem updateStatusIfNeeded_result (c : ClusterStatusController)
    (cluster : Cluster) (current : ClusterStatus) (w : World) :
  let r := updateStatusIfNeeded c cluster current w in
  (store w !! cl_Name cluster = Some cluster ->
   snd (fst r) = None ->
   fst (fst r) = {| Requeue := false;
                    RequeueAfter := ClusterStatusUpdateFrequency c |}
   /\ exists s, persisted (snd r) (cl_Name cluster) = Some s
                /\ DeepEqual s current = true)
  /\ (forall err, snd (fst r) = Some err ->
        fst (fst r) = {| Requeue := true; RequeueAfter := 0 |}
        /\ store (snd r) = store w
        /\ writes (newCalls w (snd r)) = [withStatus cluster current]).
Proof.
  cbn zeta. destruct (DeepEqual (cl_Status cluster) current) eqn:Heq.
  - rewrite updateStatusIfNeeded_equal by exact Heq. cbn [fst snd].
    split; [|discriminate].
    intros Hst _. split; [reflexivity|]. exists (cl_Status cluster).
    unfold persisted. now rewrite Hst.
  - pose proof (updateStatusIfNeeded_differ c cluster current w Heq) as Hrun.
    cbn zeta in Hrun. rewrite Hrun. clear Hrun.
    destruct (failUpdate c _ w) as [err|]; cbn [fst snd].
    + split; [discriminate|]. intros err' _. repeat split.
      now rewrite (newCalls_app w _
                     [UpdateClusterStatus (withStatus cluster current)]).
    + destruct (store w !! cl_Name cluster) as [stored|] eqn:Hst;
        cbn [fst snd].
      * split; [|discriminate]. intros _ _. split; [reflexivity|].
        exists current. unfold persisted. cbn [store].
        rewrite lookup_insert_eq. split; [reflexivity | apply DeepEqual_refl].
      * split; [discriminate|]. intros err' _. repeat split.
        now rewrite (newCalls_app w _
                       [UpdateClusterStatus (withStatus cluster current)]).
Qed.

Lemma updateStatusIfNeeded_result_witness :
  let k := sampleClient (rest.Response 200) (rest.Response 200) in
  let c := sampleController k in
  let cluster := sampleCluster [util.ClusterControllerFinalizer] readyStatus in
  let w := sampleWorld cluster in
  exists s,
    persisted (snd (updateStatusIfNeeded c cluster zeroClusterStatus w))
              "member1" = Some s
    /\ DeepEqual s zeroClusterStatus = true.
Proof.
  intros k c cluster w.
  apply (proj1 (updateStatusIfNeeded_result c cluster zeroClusterStatus w));
    reflexivity.
Defined.

Lemma syncClusterStatus_results (c : ClusterStatusController)
    (cluster : Cluster) (w : World) :
  fst (syncClusterStatus c cluster w) = requeueAfterFrequency c
  \/ exists err,
       fst (syncClusterStatus c cluster w)
       = ({| Requeue := true; RequeueAfter := 0 |}, Some err)
       /\ store (snd (syncClusterStatus c cluster w)) = store w.
Proof.
  rewrite syncClusterStatus_synthesize.
  pose proof (synthesize_quiet c cluster w) as (Hs & _).
  destruct (synthesize c cluster w) as [[current|err] w1]; cbn [snd] in Hs.
  2:{ right. exists err. split; [reflexivity | exact Hs]. }
  destruct (DeepEqual (cl_Status cluster) current) eqn:Heq.
  - left. now rewrite updateStatusIfNeeded_equal.
  - pose proof (updateStatusIfNeeded_differ c cluster current w1 Heq) as Hrun.
    cbn zeta in Hrun. rewrite Hrun. clear Hrun.
    destruct (failUpdate c _ w1) as [err|].
    { right. exists err. split; [reflexivity | exact Hs]. }
    destruct (store w1 !! cl_Name cluster); [now left|].
    right. eexists. split; [reflexivity | exact Hs].
Qed.

(** X17: a reconciliation returns one of four results: the empty result
    (cluster not found or being deleted), an immediate requeue without
    error (finalizer missing), a requeue after the configured frequency,
    or an error with an immediate requeue.  Whenever it returns an error,
    and on the two early exits, the store is as it was. *)
Theorem Reconcile_results (c : ClusterStatusController) (req : string)
    (w : World) :
  let r := Reconcile c req w in
  (fst r = ({| Requeue := false; RequeueAfter := 0 |}, None)
   /\ store (snd r) = store w)
  \/ (fst r = ({| Requeue := true; RequeueAfter := 0 |}, None)
      /\ store (snd r) = store w)
  \/ fst r = ({| Requeue := false;
                 RequeueAfter := ClusterStatusUpdateFrequency c |}, None)
  \/ exists err, fst r = ({| Requeue := true; RequeueAfter := 0 |}, Some err)
                 /\ store (snd r) = store w.
Proof.
  cbn zeta. pose proof (Reconcile_run c req w) as Hrun. cbn zeta in Hrun.
  rewrite Hrun. clear Hrun.
  destruct (failGet c req w) as [err|].
  { destruct (IsNotFound err); [left; done|].
    right; right; right. now exists err. }
  destruct (store w !! req) as [cluster|]; [|left; done].
  destruct (negb (IsZero _)); [left; done|].
  destruct (negb (ContainsFinalizer _ _)); [right; left; done|].
  destruct (syncClusterStatus_results c cluster (called [GetCluster req] w))
    as [->|(err & -> & Hs)].
  - right; right; left. reflexivity.
  - right; right; right. exists err. split; [reflexivity | exact Hs].
Qed.

(** X18: a reconciliation hands at most one object to the status update,
    and only when the candidate differs from the status it loaded; the
    object is the loaded cluster with nothing but its status replaced. *)
Theorem Reconcile_single_write (c : ClusterStatusController) (req : string)
    (w : World) :
  writes (newCalls w (snd (Reconcile c req w))) = []
  \/ exists cluster current,
       store w !! req = Some cluster
       /\ DeepEqual (cl_Status cluster) current = false
       /\ writes (newCalls w (snd (Reconcile c req w)))
          = [withStatus cluster current].
Proof.
  pose proof (Reconcile_run c req w) as Hrun. cbn zeta in Hrun.
  rewrite Hrun. clear Hrun.
  assert (forall r : Result * option Error,
            writes (newCalls w (snd (r, called [GetCluster req] w))) = [])
    as Hearly.
  { intros r. cbn [snd].
    now rewrite (newCalls_app w _ [GetCluster req]). }
  destruct (failGet c req w) as [err|]; [left; apply Hearly|].
  destruct (store w !! req) as [cluster|] eqn:Hget; [|left; apply Hearly].
  destruct (negb (IsZero _)); [left; apply Hearly|].
  destruct (negb (ContainsFinalizer _ _)); [left; apply Hearly|].
  destruct (syncClusterStatus_trace c cluster (called [GetCluster req] w))
    as (stage & pre & upd & Ht & Hpre & _ & _ & _ & _ & Hupd).
  rewrite (newCalls_app w _
             (GetCluster req :: pre ++ take stage pipelineOrder ++ upd))
    by (rewrite Ht; cbn [trace called]; now rewrite <- app_assoc).
  assert (writes (GetCluster req :: pre ++ take stage pipelineOrder ++ upd)
          = writes upd) as ->.
  { change (writes (GetCluster req :: pre ++ take stage pipelineOrder ++ upd))
      with (writes (pre ++ take stage pipelineOrder ++ upd)).
    rewrite !writes_app.
    rewrite (writes_noWrite pre)
      by (eapply Forall_impl; [exact Hpre | exact probing_noWrite]).
    assert (writes (take stage pipelineOrder) = []) as ->; [|reflexivity].
    do 5 (destruct stage as [|stage]; [reflexivity|]). reflexivity. }
  destruct Hupd as [->|(current & -> & _ & Hne)]; [now left|].
  right. now exists cluster, current.
Qed.

(** X19: a reconciliation changes nothing in the store but the status of
    the cluster it was asked for: every other object is as before, and the
    cluster keeps its name, deletion mark and finalizers. *)
Theorem Reconcile_frame (c : ClusterStatusController) (req : string)
    (w : World) :
  wfStore w ->
  let w' := snd (Reconcile c req w) in
  wfStore w'
  /\ (forall name, name <> req -> store w' !! name = store w !! name)
  /\ (fun cl => (cl_Name cl, cl_DeletionTimestamp cl, cl_Finalizers cl))
       <$> store w' !! req
     = (fun cl => (cl_Name cl, cl_DeletionTimestamp cl, cl_Finalizers cl))
         <$> store w !! req.
Proof.
  intros Hwf w'. subst w'.
  pose proof (Reconcile_outcome c req w) as H.
  destruct (Reconcile c req w) as [r w']. cbn [fst snd] in *.
  assert (forall w2, store w2 = store w ->
    wfStore w2
    /\ (forall name, name <> req -> store w2 !! name = store w !! name)
    /\ (fun cl => (cl_Name cl, cl_DeletionTimestamp cl, cl_Finalizers cl))
         <$> store w2 !! req
       = (fun cl => (cl_Name cl, cl_DeletionTimestamp cl, cl_Finalizers cl))
           <$> store w !! req) as Hsame.
  { intros w2 Hs. unfold wfStore. rewrite Hs. done. }
  destruct H as [r w' Hq _ | cluster current w' Hget Hs Heq
                | cluster stored current w1 Hget Hs Hne Hst
                | cluster current w1 err Hget Hs Hne].
  - apply Hsame, Hq.
  - apply Hsame.
    pose proof (synthesize_quiet c cluster (called [GetCluster req] w)) as Hq.
    rewrite Hs in Hq. apply Hq.
  - pose proof (Hwf _ _ Hget) as Hname. rewrite Hname in *.
    rewrite Hget in Hst. injection Hst as <-.
    cbn [store]. repeat split.
    + intros name cl. cbn [store].
      destruct (decide (req = name)) as [<-|Hneq].
      * rewrite lookup_insert_eq. intros [= <-]. exact Hname.
      * rewrite lookup_insert_ne by done. apply Hwf.
    + intros name Hneq. now rewrite lookup_insert_ne.
    + now rewrite lookup_insert_eq, Hget.
  - apply Hsame. cbn [store called].
    pose proof (synthesize_quiet c cluster (called [GetCluster req] w)) as Hq.
    rewrite Hs in Hq. apply Hq.
Qed.

Lemma Reconcile_frame_witness :
  let k := sampleClient (rest.Response 500) (rest.Response 200) in
  let c := sampleController k in
  let cluster := sampleCluster [util.ClusterControllerFinalizer] readyStatus in
  let w := sampleWorld cluster in
  (fun cl => (cl_Name cl, cl_DeletionTimestamp cl, cl_Finalizers cl))
    <$> store (snd (Reconcile c "member1" w)) !! "member1"
  = Some ("member1", None, [util.ClusterControllerFinalizer]).
Proof.
  intros k c cluster w.
  assert (wfStore w) as Hwf.
  { intros name cl H.
    change (({[cl_Name cluster := cluster]} : gmap string Cluster) !! name
            = Some cl) in H.
    apply lookup_singleton_Some in H as [<- <-]. reflexivity. }
  rewrite (proj2 (proj2 (Reconcile_frame c "member1" w Hwf))).
  reflexivity.
Defined.

(** A candidate is either the bare unreachable status or a status of a
    cluster that was seen online. *)
Lemma synthesize_shape (c : ClusterStatusController) (cluster : Cluster)
    (w : World) (current : ClusterStatus) :
  fst (synthesize c cluster w) = Ok current ->
  (exists t, cs_Conditions current = [template false false t]
             /\ cs_KubernetesVersion current = ""
             /\ cs_APIEnablements current = []
             /\ cs_NodeSummary current = zeroNodeSummary)
  \/ (exists healthy t, cs_Conditions current = [template true healthy t]).
Proof.
  unfold synthesize, bind, getWorld, record, ret.
  destruct (ClusterClientSetFunc c cluster w) as [k|err]; [|discriminate].
  destruct (getClusterHealthStatus k _) as [[online healthy] w1].
  match goal with
  | |- context [(if negb online then ?a else ?b) w1] =>
      assert (snd (fst ((if negb online then a else b) w1)) = None ->
              fst (fst (fst ((if negb online then a else b) w1))) = true)
        as Hon;
      [ destruct online; cbn [negb fst snd]; [reflexivity|];
        pose proof (Poll_retried k (false, healthy) w1) as Hr;
        destruct (Poll _ _ _ _ _ _) as [[v' err'] w'];
        destruct Hr as (last & calls & pre & _ & _ & _ & _ & _ & _ & _ & _
                        & _ & _ & _ & _ & [[_ Ht]|[-> _]] & _);
        cbn [fst snd]; [intros _; exact Ht | discriminate]
      | destruct ((if negb online then a else b) w1)
          as [[[online' healthy'] err] w2] ]
  end.
  cbn [fst snd] in Hon.
  destruct err as [err|].
  - rewrite generateReadyCondition_run. cbn [fst]. intros Hc.
    pose proof (f_equal (fun r => match r with
                                  | Ok x => x
                                  | Err _ => current
                                  end) Hc) as Hc'.
    cbn beta iota in Hc'. subst current. clear Hc. left.
    destruct (setTransitionTime_rest (cl_Status cluster)
                (withConditions zeroClusterStatus
                   [template false false (now w2)])) as (Hv & Ha & Hn & _).
    eexists. split; [apply setTransitionTime_template|]. done.
  - rewrite (Hon eq_refl).
    destruct (getKubernetesVersion k w2) as [[v|err] w3]; [|discriminate].
    destruct (getAPIEnablements k w3) as [[a|err] w4]; [|discriminate].
    destruct (getNodeSummary k w4) as [[s|err] w5]; [|discriminate].
    rewrite generateReadyCondition_run. cbn [fst]. intros Hc.
    pose proof (f_equal (fun r => match r with
                                  | Ok x => x
                                  | Err _ => current
                                  end) Hc) as Hc'.
    cbn beta iota in Hc'. subst current. clear Hc. right.
    cbn [cs_Conditions]. eexists _, _. apply setTransitionTime_template.
Qed.

Lemma syncClusterStatus_writes (c : ClusterStatusController)
    (cluster : Cluster) (w : World) :
  writes (newCalls w (snd (syncClusterStatus c cluster w))) = []
  \/ exists current,
       fst (synthesize c cluster w) = Ok current
       /\ writes (newCalls w (snd (syncClusterStatus c cluster w)))
          = [withStatus cluster current].
Proof.
  rewrite syncClusterStatus_synthesize.
  pose proof (synthesize_quiet c cluster w) as (_ & _ & calls & Ht & Hc).
  destruct (synthesize c cluster w) as [[current|err] w1];
    cbn [fst snd] in *.
  2:{ left. rewrite (newCalls_app _ _ _ Ht). now apply writes_noWrite. }
  destruct (updateStatusIfNeeded_trace c cluster current w1)
    as [_ [[_ Htr]|[_ Htr]]].
  - left. rewrite (newCalls_app w _ calls) by congruence.
    now apply writes_noWrite.
  - right. exists current. split; [reflexivity|].
    rewrite (newCalls_app w _
               (calls ++ [UpdateClusterStatus (withStatus cluster current)]))
      by (rewrite Htr, Ht; now rewrite app_assoc).
    rewrite writes_app, (writes_noWrite calls Hc). reflexivity.
Qed.

(** X20: a status that [syncClusterStatus] hands to the status update
    either says the cluster is unreachable and then carries nothing else
    -- empty version, no API enablements, the zero node summary -- or it
    carries one of the two conditions of a reachable cluster.  So version,
    enablements and node data never appear next to ClusterNotReachable. *)
Theorem syncClusterStatus_written_status (c : ClusterStatusController)
    (cluster : Cluster) (w : World) :
  Forall
    (fun written =>
       (exists t,
          cs_Conditions (cl_Status written) = [template false false t]
          /\ cs_KubernetesVersion (cl_Status written) = ""
          /\ cs_APIEnablements (cl_Status written) = []
          /\ cs_NodeSummary (cl_Status written) = zeroNodeSummary)
       \/ (exists healthy t,
             cs_Conditions (cl_Status written) = [template true healthy t]))
    (writes (newCalls w (snd (syncClusterStatus c cluster w)))).
Proof.
  destruct (syncClusterStatus_writes c cluster w)
    as [->|(current & Hs & ->)]; [constructor|].
  constructor; [|constructor]. cbn [cl_Status withStatus].
  exact (synthesize_shape c cluster w current Hs).
Qed.

(** X21: [syncClusterStatus] retries only a cluster whose first health
    check says offline.  A cluster found online at once is never waited
    for: there is no sleep and the one health check is all.  A cluster
    found offline is checked again after one retry interval of 500 ms,
    before anything else happens. *)
Theorem syncClusterStatus_retries_iff_offline (c : ClusterStatusController)
    (cluster : Cluster) (w : World) (k : ClusterClient) :
  ClusterClientSetFunc c cluster w = Ok k ->
  let online :=
    fst (fst (getClusterHealthStatus k
                (called [NewClusterClient (cl_Name cluster)] w))) in
  let calls := newCalls w (snd (syncClusterStatus c cluster w)) in
  (online = true -> sleeps calls = [] /\ healthChecks calls = 1%nat)
  /\ (online = false ->
      exists more rest,
        calls = (NewClusterClient (cl_Name cluster)
                 :: ProbeEndpoint "/readyz" :: more
                 ++ Sleep clusterStatusRetryInterval
                 :: ProbeEndpoint "/readyz" :: rest)%list
        /\ (more = [] \/ more = [ProbeEndpoint "/healthz"])).
Proof.
  intros Hk online calls. subst online calls.
  destruct (healthPhase_spec k (called [NewClusterClient (cl_Name cluster)] w))
    as (v & err & w2 & pcalls & Hh & _ & _ & Ht & _ & _ & _ & _ & _
        & Hon & Hoff).
  cbn [trace called] in Ht. rewrite <- app_assoc in Ht.
  assert (exists tail,
    trace (snd (syncClusterStatus c cluster w)) = (trace w2 ++ tail)%list
    /\ sleeps tail = [] /\ healthChecks tail = 0%nat)
    as (tail & Htail & Hsl & Hhc).
  { pose proof (synthesize_health c cluster w k v err w2 Hk Hh) as Hsyn.
    rewrite syncClusterStatus_synthesize.
    assert (forall current w1,
      exists upd,
        trace (snd (updateStatusIfNeeded c cluster current w1))
        = (trace w1 ++ upd)%list
        /\ sleeps upd = [] /\ healthChecks upd = 0%nat) as Hupd.
    { intros current w1.
      destruct (updateStatusIfNeeded_trace c cluster current w1)
        as [_ [[_ Htr]|[_ Htr]]].
      - exists []. now rewrite app_nil_r.
      - eexists. split; [exact Htr|done]. }
    destruct err as [e|].
    - rewrite Hsyn. apply Hupd.
    - destruct Hsyn as [Hw _].
      destruct (sleeps_take_pipelineOrder (fst (firstFailure k w2)))
        as [Hs0 Hh0].
      destruct (synthesize c cluster w) as [[current|e] w1];
        cbn [snd] in Hw; subst w1.
      + destruct (Hupd current
                    (called (take (fst (firstFailure k w2)) pipelineOrder) w2))
          as (upd & Htr & Hs1 & Hh1).
        exists (take (fst (firstFailure k w2)) pipelineOrder ++ upd)%list.
        rewrite Htr, sleeps_app, healthChecks_app, Hs0, Hh0, Hs1, Hh1.
        cbn [trace called]. now rewrite <- app_assoc.
      + exists (take (fst (firstFailure k w2)) pipelineOrder).
        now rewrite Hs0, Hh0. }
  rewrite (newCalls_app w _
             ([NewClusterClient (cl_Name cluster)] ++ pcalls ++ tail))
    by (rewrite Htail, Ht; now rewrite <- !app_assoc).
  split; intros Ho.
  - destruct (Hon Ho) as (Hs1 & Hh1 & _).
    change (sleeps ([NewClusterClient (cl_Name cluster)] ++ pcalls ++ tail))
      with (sleeps (pcalls ++ tail)).
    change (healthChecks
              ([NewClusterClient (cl_Name cluster)] ++ pcalls ++ tail))
      with (healthChecks (pcalls ++ tail)).
    now rewrite sleeps_app, healthChecks_app, Hs1, Hh1, Hsl, Hhc.
  - destruct (Hoff Ho) as (more & rest & -> & Hmore).
    exists more, (rest ++ tail)%list. split; [|exact Hmore].
    cbn. rewrite <- !app_assoc. reflexivity.
Qed.

Lemma syncClusterStatus_retries_iff_offline_witness :
  let k := sampleClient (rest.Response 200) (rest.Response 200) in
  let cluster := sampleCluster [util.ClusterControllerFinalizer] readyStatus in
  let w := sampleWorld cluster in
  let calls :=
    newCalls w (snd (syncClusterStatus (sampleController k) cluster w)) in
  sleeps calls = [] /\ healthChecks calls = 1%nat.
Proof.
  intros k cluster w.
  apply (proj1 (syncClusterStatus_retries_iff_offline
                  (sampleController k) cluster w k eq_refl)).
  reflexivity.
Defined.

(** X22: for a cluster whose status has no condition yet, the status
    handed to the status update is stamped with the clock of this
    reconciliation: a reading taken not before it started and not after it
    ended. *)
Theorem syncClusterStatus_first_condition (c : ClusterStatusController)
    (cluster : Cluster) (w : World) :
  cs_Conditions (cl_Status cluster) = [] ->
  Forall
    (fun written =>
       exists online healthy t,
         cs_Conditions (cl_Status written) = [template online healthy t]
         /\ now w <= t <= now (snd (syncClusterStatus c cluster w)))
    (writes (newCalls w (snd (syncClusterStatus c cluster w)))).
Proof.
  intros Hold.
  destruct (syncClusterStatus_writes c cluster w)
    as [->|(current & Hs & ->)]; [constructor|].
  constructor; [|constructor]. cbn [cl_Status withStatus].
  destruct (synthesize_conditions c cluster w current Hs)
    as (online & healthy & Hc).
  rewrite setTransitionTime_template, Hold in Hc.
  exists online, healthy, (now (snd (synthesize c cluster w))).
  split; [exact Hc|].
  pose proof (synthesize_quiet c cluster w) as (_ & Hnow & _).
  split; [exact Hnow|].
  rewrite syncClusterStatus_synthesize.
  destruct (synthesize c cluster w) as [[current'|err] w1]; cbn [snd];
    [|lia].
  rewrite (proj1 (updateStatusIfNeeded_trace c cluster current' w1)). lia.
Qed.

Lemma syncClusterStatus_first_condition_witness :
  let k := sampleClient (rest.Response 200) (rest.Response 200) in
  let cluster :=
    sampleCluster [util.ClusterControllerFinalizer] zeroClusterStatus in
  let w := sampleWorld cluster in
  Forall
    (fun written =>
       exists online healthy t,
         cs_Conditions (cl_Status written) = [template online healthy t]
         /\ now w <= t
            <= now (snd (syncClusterStatus (sampleController k) cluster w)))
    (writes (newCalls w (snd (syncClusterStatus (sampleController k)
                                cluster w)))).
Proof.
  intros k cluster w.
  apply (syncClusterStatus_first_condition (sampleController k) cluster w).
  reflexivity.
Defined.

(** X23: against a member cluster that is online and whose answers do not
    change during the reconciliation, the error returned is the one of the
    first call that fails, in the order version, API resources, nodes,
    pods, always with an immediate requeue. *)
Theorem syncClusterStatus_first_failure (c : ClusterStatusController)
    (cluster : Cluster) (w : World) (k : ClusterClient) :
  ClusterClientSetFunc c cluster w = Ok k ->
  steadyClient k ->
  fst (fst (getClusterHealthStatus k emptyWorld)) = true ->
  let requeue err :=
    ({| Requeue := true; RequeueAfter := 0 |}, Some err) in
  (forall err, answerServerVersion k emptyWorld = Err err ->
     fst (syncClusterStatus c cluster w) = requeue err)
  /\ (forall v err,
        answerServerVersion k emptyWorld = Ok v ->
        answerServerGroupsAndResources k emptyWorld = Err err ->
        fst (syncClusterStatus c cluster w) = requeue err)
  /\ (forall v apis err,
        answerServerVersion k emptyWorld = Ok v ->
        answerServerGroupsAndResources k emptyWorld = Ok apis ->
        answerListNodes k emptyWorld = Err err ->
        fst (syncClusterStatus c cluster w) = requeue err)
  /\ (forall v apis nodes err,
        answerServerVersion k emptyWorld = Ok v ->
        answerServerGroupsAndResources k emptyWorld = Ok apis ->
        answerListNodes k emptyWorld = Ok nodes ->
        answerListPods k emptyWorld = Err err ->
        fst (syncClusterStatus c cluster w) = requeue err).
Proof.
  intros Hk Hsteady Honline requeue.
  assert (forall err,
    steadySynth k (cl_Status cluster) (now (snd (synthesize c cluster w)))
    = Err err ->
    fst (syncClusterStatus c cluster w) = requeue err) as Hsyn.
  { intros err He. rewrite syncClusterStatus_synthesize.
    rewrite <- (synthesize_steady c cluster w k Hk Hsteady) in He.
    destruct (synthesize c cluster w) as [[current|err'] w1];
      cbn [fst] in He; [discriminate|].
    injection He as ->. reflexivity. }
  assert (exists f,
            fst (getAPIEnablements k emptyWorld)
            = match answerServerGroupsAndResources k emptyWorld with
              | Err err => Err err
              | Ok l => Ok (f l)
              end) as (f & Hapi).
  { eexists (fun l => _).
    unfold getAPIEnablements, bind, getWorld, record, ret.
    destruct (answerServerGroupsAndResources k emptyWorld); reflexivity. }
  unfold steadySynth in Hsyn.
  destruct (fst (getClusterHealthStatus k emptyWorld)) as [online healthy].
  cbn [fst] in Honline. subst online. cbn [negb] in Hsyn.
  rewrite getKubernetesVersion_run in Hsyn. cbn [fst] in Hsyn.
  rewrite Hapi in Hsyn.
  rewrite (proj1 (getNodeSummary_fst k emptyWorld)) in Hsyn.
  destruct (Hsteady (called [ListNodes] emptyWorld) emptyWorld)
    as (_ & _ & _ & _ & Hpods).
  rewrite Hpods in Hsyn. clear Hpods.
  repeat split.
  - intros err He. apply Hsyn. now rewrite He.
  - intros v err Hv He. apply Hsyn. now rewrite Hv, He.
  - intros v apis err Hv Ha He. apply Hsyn. now rewrite Hv, Ha, He.
  - intros v apis nodes err Hv Ha Hn He. apply Hsyn.
    now rewrite Hv, Ha, Hn, He.
Qed.

Lemma syncClusterStatus_first_failure_witness :
  let k :=
    {| ClusterName := "member1";
       answerGet := fun _ _ => rest.Response 200;
       answerServerVersion := fun _ => Ok "v1.19.1";
       answerServerGroupsAndResources := fun _ => Err (StatusError 503);
       answerListNodes := fun _ => Err (TransportError "reset");
       answerListPods := fun _ => Ok samplePods;
       healthCheckTook := fun _ => 0 |} in
  let cluster := sampleCluster [util.ClusterControllerFinalizer] readyStatus in
  fst (syncClusterStatus (sampleController k) cluster (sampleWorld cluster))
  = ({| Requeue := true; RequeueAfter := 0 |}, Some (StatusError 503)).
Proof.
  intros k cluster.
  apply (proj1 (proj2 (syncClusterStatus_first_failure
                         (sampleController k) cluster (sampleWorld cluster) k
                         eq_refl
                         (fun w w' => conj (fun _ => eq_refl)
                            (conj eq_refl (conj eq_refl
                               (conj eq_refl eq_refl))))
                         eq_refl))
           "v1.19.1" (StatusError 503));
    reflexivity.
Defined.

Lemma getUsedResource_entries_witness :
  getUsedResource
    {| pl_Items :=
         [ {| pod_Name := "gpu";
              pod_Spec := {| ps_Containers :=
                [ {| ctr_Name := "main";
                     ctr_Resources := {| rr_Requests :=
                       <["nvidia.com/gpu" := bQ 1]> (requests 500 (128 * Mi))
                     |} |} ] |};
              pod_Status := {| pst_Phase := "Running";
                               pst_Conditions := [podReady] |} |} ] |}
    !! "nvidia.com/gpu" = None.
Proof.
  match goal with
  | |- getUsedResource ?pods !! _ = None =>
      destruct (getUsedResource_entries pods)
        as (cpu & mem & _ & _ & _ & _ & Hother)
  end.
  apply Hother; discriminate.
Defined.
